(** * Crazyflie LQR controller and AI-deck safety-filter channel

    A shallow embedding of [src/modules/src/controller_lqr.c] and
    [src/deck/drivers/src/aideck.c] (with [aideck.h]), and the properties
    of the control law, the saturation stage, the flying-state logic and the
    framed UART link to the GAP8 coprocessor.

    C [float] is IEEE-754 binary32; it is modelled with the executable
    specification [SpecFloat] of the standard library instantiated at
    precision 24 and maximal exponent 128.  Integers of fixed width are [Z]
    with their wrap-around written out. *)

From Stdlib Require Import ZArith Lia Bool List QArith Qabs.
From Stdlib Require Import Floats.SpecFloat.
From stdpp Require Import base tactics option list numbers.

Local Open Scope Z_scope.

(** ** IEEE-754 binary32 *)

Module F32.

Definition prec : Z := 24.
Definition emax : Z := 128.

Definition float : Type := spec_float.

Definition add : float -> float -> float := SFadd prec emax.
Definition sub : float -> float -> float := SFsub prec emax.
Definition mul : float -> float -> float := SFmul prec emax.
Definition div : float -> float -> float := SFdiv prec emax.
Definition sqrt : float -> float := SFsqrt prec emax.
Definition neg : float -> float := SFopp.

Definition ltb : float -> float -> bool := SFltb.
Definition leb : float -> float -> bool := SFleb.
Definition eqb : float -> float -> bool := SFeqb.

Definition valid : float -> bool := valid_binary prec emax.

(** Conversion of an integer to [float] (round to nearest even); the
    integer [0] converts to [+0.0]. *)
Definition of_Z (n : Z) : float := binary_normalize prec emax n 0 false.

(** A decimal literal [n/d] whose numerator and denominator are exactly
    representable: IEEE division is correctly rounded, so the quotient
    is the literal's binary32 value. *)
Definition lit (n : Z) (d : positive) : float := div (of_Z n) (of_Z (Zpos d)).

Definition zero : float := S754_zero false.

Definition is_nan (x : float) : bool :=
  match x with S754_nan => true | _ => false end.

Definition is_zero (x : float) : bool :=
  match x with S754_zero _ => true | _ => false end.

Definition is_finite (x : float) : bool :=
  match x with S754_zero _ | S754_finite _ _ _ => true | _ => false end.

(** C99 [fminf]/[fmaxf]: when exactly one argument is a NaN the other one
    is returned. *)
Definition fminf (x y : float) : float :=
  if is_nan x then y else if is_nan y then x
  else if ltb x y then x else y.

Definition fmaxf (x y : float) : float :=
  if is_nan x then y else if is_nan y then x
  else if ltb x y then y else x.

(** The value denoted by a 32-bit pattern (sign, 8 exponent bits, 23
    fraction bits). *)
Definition of_bits (w : Z) : float :=
  let s := Z.testbit w 31 in
  let e := Z.land (Z.shiftr w 23) 255 in
  let m := Z.land w 8388607 in
  if e =? 0 then
    match m with
    | Zpos p => S754_finite s p (-149)
    | _ => S754_zero s
    end
  else if e =? 255 then
    (if m =? 0 then S754_infinity s else S754_nan)
  else
    match m + 8388608 with
    | Zpos p => S754_finite s p (e - 150)
    | _ => S754_nan
    end.

(** Integral part of a finite value, rounded toward zero. *)
Definition trunc (x : float) : option Z :=
  match x with
  | S754_zero _ => Some 0
  | S754_finite s m e =>
      let a := match e with
               | Z0 => Zpos m
               | Zpos k => Z.shiftl (Zpos m) (Zpos k)
               | Zneg k => Z.shiftr (Zpos m) (Zpos k)
               end in
      Some (if s then - a else a)
  | _ => None
  end.

(** [(int)x] as the Cortex-M4 target computes it ([vcvt.s32.f32]):
    truncation toward zero, saturated to the 32-bit range, NaN giving 0.
    ISO C leaves the conversion undefined when the integral part does not
    fit. *)
Definition to_int32 (x : float) : Z :=
  match x with
  | S754_nan => 0
  | S754_infinity s => if s then -2147483648 else 2147483647
  | _ =>
      match trunc x with
      | Some n => Z.max (-2147483648) (Z.min 2147483647 n)
      | None => 0
      end
  end.

(** Two's complement reduction to 16 bits ([sxth]). *)
Definition wrap16 (n : Z) : Z := (n + 32768) mod 65536 - 32768.

(** [(int16_t)x]: the 32-bit conversion followed by the 16-bit
    reduction. *)
Definition to_int16 (x : float) : Z := wrap16 (to_int32 x).

(** The exact rational value of a finite float. *)
Definition to_Q (x : float) : option Q :=
  match x with
  | S754_zero _ => Some 0%Q
  | S754_finite s m e =>
      let sm := if s then Zneg m else Zpos m in
      Some match e with
           | Z0 => inject_Z sm
           | Zpos k => inject_Z (sm * 2 ^ Zpos k)
           | Zneg k => Qmake sm (2 ^ k)%positive
           end
  | _ => None
  end.

(** The value of a finite float in units of [2^-k], when it is a whole
    number of them. *)
Definition scaled (k : Z) (x : float) : option Z :=
  match x with
  | S754_zero _ => Some 0
  | S754_finite s m e =>
      if - k <=? e
      then Some ((if s then -1 else 1) * Z.shiftl (Zpos m) (e + k))
      else None
  | _ => None
  end.

End F32.

Abbreviation float := F32.float.

#[global] Instance float_inhabited : Inhabited float := populate F32.zero.

(** ** The AI-deck driver: [aideck.h] and [aideck.c]

    The driver is compiled for one of two payload layouts, selected by the
    macros [CBF_TYPE_POS] and [CBF_TYPE_EUL]; [CBF_ITERS] extends the reply
    with an iteration count. *)

Inductive cbf_type := CBF_TYPE_POS | CBF_TYPE_EUL.

(** [u_t]: thrust and three angles ([phi], [theta], [psi] under
    [CBF_TYPE_POS]) or three rates ([p], [q], [r] under [CBF_TYPE_EUL]);
    both layouts are four packed floats. *)
Record u_t := mk_u {
  u_T : float;
  u_p_phi : float;
  u_q_theta : float;
  u_r_psi : float
}.

(** [u_comp_t]: the same four fields as [int16_t]. *)
Record u_comp_t := mk_u_comp {
  uc_T : Z;
  uc_p_phi : Z;
  uc_q_theta : Z;
  uc_r_psi : Z
}.

Record cbf_qpdata_pos := mk_qp_pos {
  qp_x : float; qp_y : float; qp_z : float;
  qp_x_dot : float; qp_y_dot : float; qp_z_dot : float;
  qp_pos_u : u_t
}.

Record cbf_qpdata_eul := mk_qp_eul {
  qp_phi : float; qp_theta : float;
  qp_eul_u : u_t
}.

Record cbf_qpdata_comp_pos := mk_qpc_pos {
  qpc_x : Z; qpc_y : Z; qpc_z : Z;
  qpc_x_dot : Z; qpc_y_dot : Z; qpc_z_dot : Z;
  qpc_pos_u : u_comp_t
}.

Record cbf_qpdata_comp_eul := mk_qpc_eul {
  qpc_phi : Z; qpc_theta : Z;
  qpc_eul_u : u_comp_t
}.

Definition cbf_qpdata_t (ty : cbf_type) : Type :=
  match ty with
  | CBF_TYPE_POS => cbf_qpdata_pos
  | CBF_TYPE_EUL => cbf_qpdata_eul
  end.

Definition cbf_qpdata_comp_t (ty : cbf_type) : Type :=
  match ty with
  | CBF_TYPE_POS => cbf_qpdata_comp_pos
  | CBF_TYPE_EUL => cbf_qpdata_comp_eul
  end.

(** [CBFPacket]: the union of [{header; data[MAX_CBFPACKET_DATA_SIZE]}] and
    [raw[MAX_CBFPACKET_DATA_SIZE+1]]. *)
Record CBFPacket := mk_packet {
  header : Z;
  data : list Z
}.

Definition raw (pk : CBFPacket) : list Z := header pk :: data pk.

(** The two buffers whose address the driver hands to the transport. *)
Inductive buffer := PK_RX_RAW | PK_TX_RAW.

(** Calls into the UART/DMA transport ([aideck_uart_dma.h]), recorded in
    program order (most recent first). *)
Inductive uart_call :=
| USART_DMA_Send (size : Z) (bytes : list Z)
| USART_DMA_ResetCounter (remaining_bytes : Z) (ptr_start : buffer).

(** Little-endian images of the scalar types (the target is a little-endian
    Cortex-M4). *)
Definition le16 (n : Z) : list Z := [n mod 256; (n / 256) mod 256].

Definition rd8 (l : list Z) (i : nat) : Z := l !!! i.

Definition rd16 (l : list Z) (i : nat) : Z :=
  rd8 l i + 256 * rd8 l (i + 1).

Definition rd32 (l : list Z) (i : nat) : Z :=
  rd8 l i + 256 * rd8 l (i + 1) + 65536 * rd8 l (i + 2)
  + 16777216 * rd8 l (i + 3).

Definition rd_float (l : list Z) (i : nat) : float := F32.of_bits (rd32 l i).

(** [memcpy(dst, src, n)] on byte arrays. *)
Definition memcpy (dst src : list Z) (n : Z) : list Z :=
  take (Z.to_nat n) src ++ drop (Z.to_nat n) dst.

Definition CHAR_V : Z := 86.

Module Aideck.

Section Driver.

(** The build: payload layout and the [CBF_ITERS] switch. *)
Variable ty : cbf_type.
Variable CBF_ITERS : bool.

Definition MAX_CBFPACKET_DATA_SIZE : Z :=
  match ty with
  | CBF_TYPE_POS => 20
  | CBF_TYPE_EUL => if CBF_ITERS then 20 else 16
  end.

Definition sizeof_CBFPacket : Z := MAX_CBFPACKET_DATA_SIZE + 1.

(** [sizeof(u_struct)]: [u_t], or [u_it_t] under [CBF_ITERS]. *)
Definition sizeof_u_struct : Z := if CBF_ITERS then 18 else 16.

Definition sizeof_cbf_qpdata_comp_t : Z :=
  match ty with
  | CBF_TYPE_POS => 20
  | CBF_TYPE_EUL => 12
  end.

(** The file-scope variables of [aideck.c], and the calls made to the
    transport.  The global pointer [u] is set once by [aideckInit] to
    [&u_struct] (or [&u_struct.u]); it is identified with its target. *)
Record state := mk_state {
  u_struct : u_t;
  u_struct_iters : Z;
  pk_rx : CBFPacket;
  pk_tx : CBFPacket;
  aideck_ready_flag : Z;
  missed_cycles : Z;
  data_comp : cbf_qpdata_comp_t ty;
  dma_flag : Z;
  counterCBF : Z;
  uart : list uart_call
}.

Definition set_u_struct (v : u_t) (s : state) : state :=
  mk_state v (u_struct_iters s) (pk_rx s) (pk_tx s) (aideck_ready_flag s)
    (missed_cycles s) (data_comp s) (dma_flag s) (counterCBF s) (uart s).
Definition set_u_struct_iters (v : Z) (s : state) : state :=
  mk_state (u_struct s) v (pk_rx s) (pk_tx s) (aideck_ready_flag s)
    (missed_cycles s) (data_comp s) (dma_flag s) (counterCBF s) (uart s).
Definition set_pk_rx (v : CBFPacket) (s : state) : state :=
  mk_state (u_struct s) (u_struct_iters s) v (pk_tx s) (aideck_ready_flag s)
    (missed_cycles s) (data_comp s) (dma_flag s) (counterCBF s) (uart s).
Definition set_pk_tx (v : CBFPacket) (s : state) : state :=
  mk_state (u_struct s) (u_struct_iters s) (pk_rx s) v (aideck_ready_flag s)
    (missed_cycles s) (data_comp s) (dma_flag s) (counterCBF s) (uart s).
Definition set_aideck_ready_flag (v : Z) (s : state) : state :=
  mk_state (u_struct s) (u_struct_iters s) (pk_rx s) (pk_tx s) v
    (missed_cycles s) (data_comp s) (dma_flag s) (counterCBF s) (uart s).
Definition set_missed_cycles (v : Z) (s : state) : state :=
  mk_state (u_struct s) (u_struct_iters s) (pk_rx s) (pk_tx s)
    (aideck_ready_flag s) v (data_comp s) (dma_flag s) (counterCBF s) (uart s).
Definition set_data_comp (v : cbf_qpdata_comp_t ty) (s : state) : state :=
  mk_state (u_struct s) (u_struct_iters s) (pk_rx s) (pk_tx s)
    (aideck_ready_flag s) (missed_cycles s) v (dma_flag s) (counterCBF s) (uart s).
Definition set_dma_flag (v : Z) (s : state) : state :=
  mk_state (u_struct s) (u_struct_iters s) (pk_rx s) (pk_tx s)
    (aideck_ready_flag s) (missed_cycles s) (data_comp s) v (counterCBF s) (uart s).
Definition set_counterCBF (v : Z) (s : state) : state :=
  mk_state (u_struct s) (u_struct_iters s) (pk_rx s) (pk_tx s)
    (aideck_ready_flag s) (missed_cycles s) (data_comp s) (dma_flag s) v (uart s).
Definition call (c : uart_call) (s : state) : state :=
  mk_state (u_struct s) (u_struct_iters s) (pk_rx s) (pk_tx s)
    (aideck_ready_flag s) (missed_cycles s) (data_comp s) (dma_flag s)
    (counterCBF s) (c :: uart s).

(** [memset(pk.raw, 0, sizeof(CBFPacket))]. *)
Definition cleared_packet : CBFPacket :=
  mk_packet 0 (replicate (Z.to_nat MAX_CBFPACKET_DATA_SIZE) 0).

(** [force_stop_u]: both layouts zero all four fields of [*u]. *)
Definition force_stop_u (s : state) : state :=
  let s := set_u_struct (mk_u (F32.of_Z 0) (u_p_phi (u_struct s))
                           (u_q_theta (u_struct s)) (u_r_psi (u_struct s))) s in
  let s := set_u_struct (mk_u (u_T (u_struct s)) (F32.of_Z 0)
                           (u_q_theta (u_struct s)) (u_r_psi (u_struct s))) s in
  let s := set_u_struct (mk_u (u_T (u_struct s)) (u_p_phi (u_struct s))
                           (F32.of_Z 0) (u_r_psi (u_struct s))) s in
  set_u_struct (mk_u (u_T (u_struct s)) (u_p_phi (u_struct s))
                  (u_q_theta (u_struct s)) (F32.of_Z 0)) s.

(** [memcpy(&u_struct, pk_rx.data, sizeof(u_struct))]: the first sixteen
    bytes are the four floats of [u_t]; under [CBF_ITERS] two more bytes
    are the [uint16_t] iteration count. *)
Definition memcpy_u_struct (src : list Z) (s : state) : state :=
  let s := set_u_struct (mk_u (rd_float src 0) (rd_float src 4)
                           (rd_float src 8) (rd_float src 12)) s in
  if CBF_ITERS then set_u_struct_iters (rd16 src 16) s else s.

(** [unpack]: the statement after the first [return 1] is dead code. *)
Definition unpack (s : state) : Z * state :=
  if negb (header (pk_rx s) =? CHAR_V) then (1, s)
  else
    let s := set_counterCBF (counterCBF s + 1) s in
    let s := set_aideck_ready_flag 1 s in
    let s := memcpy_u_struct (data (pk_rx s)) s in
    let s := set_pk_rx cleared_packet s in
    (0, s).

(** One iteration of the receive loop of [Gap8Task] (after the delay). *)
Definition Gap8Task_iteration (s : state) : state :=
  if dma_flag s =? 0 then s
  else
    let s := set_dma_flag 0 s in
    let '(r, s) := unpack s in
    if r =? 0 then s
    else
      let s := call (USART_DMA_ResetCounter sizeof_CBFPacket PK_RX_RAW) s in
      set_aideck_ready_flag 1 s.

(** [DMA1_Stream1_IRQHandler]. *)
Definition DMA1_Stream1_IRQHandler (s : state) : state := set_dma_flag 1 s.

(** [cbf_pack]: [size] is a [uint8_t]; the result is [&pk_tx] or [NULL]. *)
Definition cbf_pack (size : Z) (bytes : list Z) (s : state)
  : option CBFPacket * state :=
  if MAX_CBFPACKET_DATA_SIZE <? size then
    (None, set_pk_tx (mk_packet 0 (data (pk_tx s))) s)
  else
    let s := set_pk_tx (mk_packet CHAR_V (data (pk_tx s))) s in
    let s := set_pk_tx (mk_packet (header (pk_tx s))
                          (memcpy (data (pk_tx s)) bytes size)) s in
    (Some (pk_tx s), s).

(** The fixed-point compression of one scalar:
    [(int16_t)(v*1000.0f)]. *)
Definition compress (v : float) : Z :=
  F32.to_int16 (F32.mul v (F32.of_Z 1000)).

Definition compress_u (v : u_t) : u_comp_t :=
  mk_u_comp (compress (u_T v)) (compress (u_p_phi v))
    (compress (u_q_theta v)) (compress (u_r_psi v)).

Definition compress_data : cbf_qpdata_t ty -> cbf_qpdata_comp_t ty :=
  match ty with
  | CBF_TYPE_EUL => fun d =>
      mk_qpc_eul (compress (qp_phi d)) (compress (qp_theta d))
        (compress_u (qp_eul_u d))
  | CBF_TYPE_POS => fun d =>
      mk_qpc_pos (compress (qp_x d)) (compress (qp_y d)) (compress (qp_z d))
        (compress (qp_x_dot d)) (compress (qp_y_dot d))
        (compress (qp_z_dot d)) (compress_u (qp_pos_u d))
  end.

Definition u_comp_bytes (v : u_comp_t) : list Z :=
  le16 (uc_T v) ++ le16 (uc_p_phi v) ++ le16 (uc_q_theta v)
  ++ le16 (uc_r_psi v).

(** [(uint8_t * )&data_comp]: the packed structure seen as bytes. *)
Definition data_comp_bytes : cbf_qpdata_comp_t ty -> list Z :=
  match ty with
  | CBF_TYPE_EUL => fun c =>
      le16 (qpc_phi c) ++ le16 (qpc_theta c) ++ u_comp_bytes (qpc_eul_u c)
  | CBF_TYPE_POS => fun c =>
      le16 (qpc_x c) ++ le16 (qpc_y c) ++ le16 (qpc_z c)
      ++ le16 (qpc_x_dot c) ++ le16 (qpc_y_dot c) ++ le16 (qpc_z_dot c)
      ++ u_comp_bytes (qpc_pos_u c)
  end.

(** [aideck_send_cbf_data]; [missed_cycles] is a [uint8_t]. *)
Definition aideck_send_cbf_data (d : cbf_qpdata_t ty) (s : state) : state :=
  if negb (aideck_ready_flag s =? 0) then
    let s := set_data_comp (compress_data d) s in
    let '(_, s) := cbf_pack sizeof_cbf_qpdata_comp_t
                     (data_comp_bytes (data_comp s)) s in
    let s := call (USART_DMA_Send sizeof_CBFPacket (raw (pk_tx s))) s in
    let s := set_pk_tx cleared_packet s in
    let s := set_aideck_ready_flag 0 s in
    set_missed_cycles 0 s
  else
    let s := set_missed_cycles ((missed_cycles s + 1) mod 256) s in
    if 200 <? missed_cycles s then
      let s := force_stop_u s in
      set_aideck_ready_flag 1 s
    else s.

(** [aideck_get_safe_u]: the four floats written to [u_control]. *)
Definition aideck_get_safe_u (s : state) : u_t :=
  mk_u (u_T (u_struct s)) (u_p_phi (u_struct s)) (u_q_theta (u_struct s))
    (u_r_psi (u_struct s)).

(** The transport completing an inbound frame: the DMA stream armed by
    [USART_DMA_Start(115200, pk_rx.raw, sizeof(CBFPacket))] has filled
    [pk_rx.raw], and the transfer-complete interrupt runs. *)
Definition frame_received (frame : CBFPacket) (s : state) : state :=
  DMA1_Stream1_IRQHandler (set_pk_rx frame s).

(** The channel is Busy when the ready flag is 0, Ready otherwise. *)
Definition Busy (s : state) : Prop := aideck_ready_flag s = 0.
Definition Ready (s : state) : Prop := aideck_ready_flag s <> 0.

(** [n] consecutive control cycles in which only [aideck_send_cbf_data]
    runs (no reply is processed in between). *)
Fixpoint send_cycles (n : nat) (d : cbf_qpdata_t ty) (s : state) : state :=
  match n with
  | O => s
  | S k => aideck_send_cbf_data d (send_cycles k d s)
  end.

Definition zero_u : u_t := mk_u F32.zero F32.zero F32.zero F32.zero.

End Driver.

End Aideck.

Arguments Aideck.u_struct {ty}.
Arguments Aideck.u_struct_iters {ty}.
Arguments Aideck.pk_rx {ty}.
Arguments Aideck.pk_tx {ty}.
Arguments Aideck.aideck_ready_flag {ty}.
Arguments Aideck.missed_cycles {ty}.
Arguments Aideck.data_comp {ty}.
Arguments Aideck.dma_flag {ty}.
Arguments Aideck.counterCBF {ty}.
Arguments Aideck.uart {ty}.
Arguments Aideck.set_u_struct {ty}.
Arguments Aideck.set_u_struct_iters {ty}.
Arguments Aideck.set_pk_rx {ty}.
Arguments Aideck.set_pk_tx {ty}.
Arguments Aideck.set_aideck_ready_flag {ty}.
Arguments Aideck.set_missed_cycles {ty}.
Arguments Aideck.set_data_comp {ty}.
Arguments Aideck.set_dma_flag {ty}.
Arguments Aideck.set_counterCBF {ty}.
Arguments Aideck.call {ty}.
Arguments Aideck.force_stop_u {ty}.
Arguments Aideck.DMA1_Stream1_IRQHandler {ty}.
Arguments Aideck.frame_received {ty}.
Arguments Aideck.aideck_get_safe_u {ty}.
Arguments Aideck.Busy {ty}.
Arguments Aideck.Ready {ty}.

(** ** The LQR controller: [controller_lqr.c] *)

(** Types of [stabilizer_types.h], restricted to the fields the controller
    reads or writes. *)
Record vec3 := mk_vec3 { x : float; y : float; z : float }.

Record attitude_t := mk_attitude { roll : float; pitch : float; yaw : float }.

Record state_t := mk_state_t {
  attitude : attitude_t;
  position : vec3;
  velocity : vec3
}.

Record setpoint_t := mk_setpoint {
  sp_attitude : attitude_t;
  sp_attitudeRate : attitude_t;
  sp_position : vec3;
  sp_velocity : vec3;
  sp_thrust : float
}.

Record sensorData_t := mk_sensorData { gyro : vec3 }.

(** [control_t]: [int16_t roll, pitch, yaw] and [float thrust]. *)
Record control_t := mk_control {
  ctl_roll : Z;
  ctl_pitch : Z;
  ctl_yaw : Z;
  ctl_thrust : float
}.

(** A C array [float a[4]], indexed by constants only. *)
Record float4 := mk_float4 { a0 : float; a1 : float; a2 : float; a3 : float }.

(** The safety-filter build of the controller: none, or one of the two
    layouts together with the controller's static [qp_data] and the
    driver's variables. *)
Inductive cbf_build :=
| CBF_NONE
| CBF_EUL (qp_data : cbf_qpdata_eul) (deck : Aideck.state CBF_TYPE_EUL)
| CBF_POS (qp_data : cbf_qpdata_pos) (deck : Aideck.state CBF_TYPE_POS).

(** What the controller is compiled and linked against: the build
    switches, the rates and the rate-division macro of
    [stabilizer_types.h], [powf] of the C library, the attitude controller
    ([attitude_controller.h]) with its private PID state, and the altitude
    PID ([pid.h]). *)
Class Platform := {
  CBF_ITERS : bool;
  LQR_ALT_PID : bool;
  D9LQR_RATE : Z;
  D6LQR_RATE : Z;
  ATTITUDE_RATE : Z;
  Z_PID_RATE : Z;
  RATE_DO_EXECUTE : Z -> Z -> bool;
  powf : float -> float -> float;
  att_state : Type;
  attitudeControllerCorrectAttitudePID :
    float -> float -> float -> float -> float -> float ->
    att_state -> att_state * (float * float * float);
  attitudeControllerCorrectRatePID :
    float -> float -> float -> float -> float -> float ->
    att_state -> att_state;
  attitudeControllerResetAllPID : att_state -> att_state;
  attitudeControllerGetActuatorOutput : att_state -> Z * Z * Z;
  PidObject : Type;
  pidSetDesired : PidObject -> float -> PidObject;
  pidUpdate : PidObject -> float -> bool -> PidObject * float;
  pidReset : PidObject -> PidObject
}.

Module Lqr.

(** [lqr_mode_t]; the mode is also a [PARAM_UINT8], so any byte can be
    stored in it. *)
Definition D9LQR : Z := 0.
Definition D6LQR : Z := 1.

(** [(float)M_PI]. *)
Definition M_PI_f : float := S754_finite false 13176795 (-22).

(** [v*DEG2RAD] and [v*RAD2DEG]: the macros expand without parentheses,
    to [v*(float)M_PI/180.0f] and [v*180.0f/(float)M_PI]. *)
Definition times_DEG2RAD (v : float) : float :=
  F32.div (F32.mul v M_PI_f) (F32.of_Z 180).
Definition times_RAD2DEG (v : float) : float :=
  F32.div (F32.mul v (F32.of_Z 180)) M_PI_f.

Definition CF_MASS : float := F32.lit 32 1000.

(** Row-major access to [KD9[4][9]] and [KD6[4][6]]. *)
Definition K9 (K : list float) (i j : nat) : float := K !!! (9 * i + j)%nat.
Definition K6 (K : list float) (i j : nat) : float := K !!! (6 * i + j)%nat.

Section Controller.

Context {P : Platform}.

(** The file-scope variables of [controller_lqr.c]; [u_T'] is the logging
    variable [u_T]. *)
Record lqr := mk_lqr {
  mode : Z;
  err : state_t;
  rateDesired : attitude_t;
  u : float4;
  u_D6 : float4;
  actuatorThrust : float;
  KD9 : list float;
  KD6 : list float;
  pidT : PidObject;
  flying : bool;
  cbf : cbf_build;
  pid_T : float;
  u_T' : float;
  u_p : float;
  u_q : float;
  u_r : float;
  att : att_state
}.

Definition set_mode (v : Z) (s : lqr) : lqr :=
  mk_lqr v (err s) (rateDesired s) (u s) (u_D6 s) (actuatorThrust s) (KD9 s)
    (KD6 s) (pidT s) (flying s) (cbf s) (pid_T s) (u_T' s) (u_p s) (u_q s)
    (u_r s) (att s).
Definition set_err (v : state_t) (s : lqr) : lqr :=
  mk_lqr (mode s) v (rateDesired s) (u s) (u_D6 s) (actuatorThrust s)
    (KD9 s) (KD6 s) (pidT s) (flying s) (cbf s) (pid_T s) (u_T' s) (u_p s)
    (u_q s) (u_r s) (att s).
Definition set_rateDesired (v : attitude_t) (s : lqr) : lqr :=
  mk_lqr (mode s) (err s) v (u s) (u_D6 s) (actuatorThrust s) (KD9 s)
    (KD6 s) (pidT s) (flying s) (cbf s) (pid_T s) (u_T' s) (u_p s) (u_q s)
    (u_r s) (att s).
Definition set_u (v : float4) (s : lqr) : lqr :=
  mk_lqr (mode s) (err s) (rateDesired s) v (u_D6 s) (actuatorThrust s)
    (KD9 s) (KD6 s) (pidT s) (flying s) (cbf s) (pid_T s) (u_T' s) (u_p s)
    (u_q s) (u_r s) (att s).
Definition set_u_D6 (v : float4) (s : lqr) : lqr :=
  mk_lqr (mode s) (err s) (rateDesired s) (u s) v (actuatorThrust s) (KD9 s)
    (KD6 s) (pidT s) (flying s) (cbf s) (pid_T s) (u_T' s) (u_p s) (u_q s)
    (u_r s) (att s).
Definition set_actuatorThrust (v : float) (s : lqr) : lqr :=
  mk_lqr (mode s) (err s) (rateDesired s) (u s) (u_D6 s) v (KD9 s) (KD6 s)
    (pidT s) (flying s) (cbf s) (pid_T s) (u_T' s) (u_p s) (u_q s) (u_r s)
    (att s).
Definition set_KD9 (v : list float) (s : lqr) : lqr :=
  mk_lqr (mode s) (err s) (rateDesired s) (u s) (u_D6 s) (actuatorThrust s)
    v (KD6 s) (pidT s) (flying s) (cbf s) (pid_T s) (u_T' s) (u_p s) (u_q s)
    (u_r s) (att s).
Definition set_KD6 (v : list float) (s : lqr) : lqr :=
  mk_lqr (mode s) (err s) (rateDesired s) (u s) (u_D6 s) (actuatorThrust s)
    (KD9 s) v (pidT s) (flying s) (cbf s) (pid_T s) (u_T' s) (u_p s) (u_q s)
    (u_r s) (att s).
Definition set_pidT (v : PidObject) (s : lqr) : lqr :=
  mk_lqr (mode s) (err s) (rateDesired s) (u s) (u_D6 s) (actuatorThrust s)
    (KD9 s) (KD6 s) v (flying s) (cbf s) (pid_T s) (u_T' s) (u_p s) (u_q s)
    (u_r s) (att s).
Definition set_flying (v : bool) (s : lqr) : lqr :=
  mk_lqr (mode s) (err s) (rateDesired s) (u s) (u_D6 s) (actuatorThrust s)
    (KD9 s) (KD6 s) (pidT s) v (cbf s) (pid_T s) (u_T' s) (u_p s) (u_q s)
    (u_r s) (att s).
Definition set_cbf (v : cbf_build) (s : lqr) : lqr :=
  mk_lqr (mode s) (err s) (rateDesired s) (u s) (u_D6 s) (actuatorThrust s)
    (KD9 s) (KD6 s) (pidT s) (flying s) v (pid_T s) (u_T' s) (u_p s) (u_q s)
    (u_r s) (att s).
Definition set_pid_T (v : float) (s : lqr) : lqr :=
  mk_lqr (mode s) (err s) (rateDesired s) (u s) (u_D6 s) (actuatorThrust s)
    (KD9 s) (KD6 s) (pidT s) (flying s) (cbf s) v (u_T' s) (u_p s) (u_q s)
    (u_r s) (att s).
Definition set_u_T (v : float) (s : lqr) : lqr :=
  mk_lqr (mode s) (err s) (rateDesired s) (u s) (u_D6 s) (actuatorThrust s)
    (KD9 s) (KD6 s) (pidT s) (flying s) (cbf s) (pid_T s) v (u_p s) (u_q s)
    (u_r s) (att s).
Definition set_u_p (v : float) (s : lqr) : lqr :=
  mk_lqr (mode s) (err s) (rateDesired s) (u s) (u_D6 s) (actuatorThrust s)
    (KD9 s) (KD6 s) (pidT s) (flying s) (cbf s) (pid_T s) (u_T' s) v (u_q s)
    (u_r s) (att s).
Definition set_u_q (v : float) (s : lqr) : lqr :=
  mk_lqr (mode s) (err s) (rateDesired s) (u s) (u_D6 s) (actuatorThrust s)
    (KD9 s) (KD6 s) (pidT s) (flying s) (cbf s) (pid_T s) (u_T' s) (u_p s) v
    (u_r s) (att s).
Definition set_u_r (v : float) (s : lqr) : lqr :=
  mk_lqr (mode s) (err s) (rateDesired s) (u s) (u_D6 s) (actuatorThrust s)
    (KD9 s) (KD6 s) (pidT s) (flying s) (cbf s) (pid_T s) (u_T' s) (u_p s)
    (u_q s) v (att s).
Definition set_att (v : att_state) (s : lqr) : lqr :=
  mk_lqr (mode s) (err s) (rateDesired s) (u s) (u_D6 s) (actuatorThrust s)
    (KD9 s) (KD6 s) (pidT s) (flying s) (cbf s) (pid_T s) (u_T' s) (u_p s)
    (u_q s) (u_r s) v.

(** [to_pwm]: normalized thrust (m/s^2) to PWM units.  The subtraction
    of the calibration offset is on [int]; it stays in range for every
    thrust the saturation stage lets through. *)
Definition to_pwm (T : float) : Z :=
  let a := F32.lit 109 1000000000 in
  let b := F32.lit 2106 10000000 in
  let c := F32.lit 154 1000 in
  let d := F32.lit 2685 10000 in
  let e := F32.lit 40703 10 in
  let g := F32.div (F32.mul (F32.mul CF_MASS (F32.of_Z 1000)) T)
             (F32.lit 981 100) in
  let r := F32.div
             (F32.add b
                (F32.sqrt
                   (F32.sub (powf b (F32.of_Z 2))
                      (F32.mul (F32.mul (F32.of_Z 4) a) (F32.sub c g)))))
             (F32.mul (F32.of_Z 2) a) in
  let pwm := F32.to_int32 (F32.div (F32.sub r e) d) in
  pwm - 9000.

Definition u_of_float4 (v : float4) : u_t :=
  mk_u (a0 v) (a1 v) (a2 v) (a3 v).
Definition float4_of_u (v : u_t) : float4 :=
  mk_float4 (u_T v) (u_p_phi v) (u_q_theta v) (u_r_psi v).

(** [apply_cbf_eul] (compiled under [CBF_TYPE_EUL] only). *)
Definition apply_cbf_eul (state : state_t) (s : lqr) : lqr :=
  match cbf s with
  | CBF_EUL _ deck =>
      let qp := mk_qp_eul (times_DEG2RAD (roll (attitude state)))
                  (times_DEG2RAD (F32.neg (pitch (attitude state))))
                  (u_of_float4 (u s)) in
      let deck := Aideck.aideck_send_cbf_data CBF_TYPE_EUL CBF_ITERS qp deck in
      let s := set_cbf (CBF_EUL qp deck) s in
      set_u (float4_of_u (Aideck.aideck_get_safe_u deck)) s
  | _ => s
  end.

(** [apply_cbf_pos] (compiled under [CBF_TYPE_POS] only). *)
Definition apply_cbf_pos (state : state_t) (s : lqr) : lqr :=
  match cbf s with
  | CBF_POS _ deck =>
      let qp := mk_qp_pos (x (position state)) (y (position state))
                  (z (position state)) (x (velocity state))
                  (y (velocity state)) (z (velocity state))
                  (u_of_float4 (u_D6 s)) in
      let deck := Aideck.aideck_send_cbf_data CBF_TYPE_POS CBF_ITERS qp deck in
      let s := set_cbf (CBF_POS qp deck) s in
      set_u_D6 (float4_of_u (Aideck.aideck_get_safe_u deck)) s
  | _ => s
  end.

(** The error assignments of [lqr_D9]: all nine components. *)
Definition err_D9 (setpoint : setpoint_t) (state : state_t) : state_t :=
  mk_state_t
    (mk_attitude
       (F32.sub (times_DEG2RAD (roll (attitude state)))
          (roll (sp_attitude setpoint)))
       (F32.sub (times_DEG2RAD (F32.neg (pitch (attitude state))))
          (pitch (sp_attitude setpoint)))
       (F32.sub (times_DEG2RAD (yaw (attitude state)))
          (yaw (sp_attitude setpoint))))
    (mk_vec3
       (F32.sub (x (position state)) (x (sp_position setpoint)))
       (F32.sub (y (position state)) (y (sp_position setpoint)))
       (F32.sub (z (position state)) (z (sp_position setpoint))))
    (mk_vec3
       (F32.sub (x (velocity state)) (x (sp_velocity setpoint)))
       (F32.sub (y (velocity state)) (y (sp_velocity setpoint)))
       (F32.sub (z (velocity state)) (z (sp_velocity setpoint)))).

(** The error assignments of [lqr_D6]: position and velocity only; the
    attitude error keeps its previous value. *)
Definition err_D6 (setpoint : setpoint_t) (state : state_t) (old : state_t)
  : state_t :=
  mk_state_t (attitude old)
    (mk_vec3
       (F32.sub (x (position state)) (x (sp_position setpoint)))
       (F32.sub (y (position state)) (y (sp_position setpoint)))
       (F32.sub (z (position state)) (z (sp_position setpoint))))
    (mk_vec3
       (F32.sub (x (velocity state)) (x (sp_velocity setpoint)))
       (F32.sub (y (velocity state)) (y (sp_velocity setpoint)))
       (F32.sub (z (velocity state)) (z (sp_velocity setpoint)))).

(** Row [i] of [-(KD9*err)], summed left to right as in the source. *)
Definition feedback_D9 (K : list float) (e : state_t) (i : nat) : float :=
  F32.neg
    (F32.add (F32.add (F32.add (F32.add (F32.add (F32.add (F32.add (F32.add
       (F32.mul (K9 K i 0) (x (position e)))
       (F32.mul (K9 K i 1) (y (position e))))
       (F32.mul (K9 K i 2) (z (position e))))
       (F32.mul (K9 K i 3) (roll (attitude e))))
       (F32.mul (K9 K i 4) (pitch (attitude e))))
       (F32.mul (K9 K i 5) (yaw (attitude e))))
       (F32.mul (K9 K i 6) (x (velocity e))))
       (F32.mul (K9 K i 7) (y (velocity e))))
       (F32.mul (K9 K i 8) (z (velocity e)))).

(** Row [i] of [-(KD6*err)]. *)
Definition feedback_D6 (K : list float) (e : state_t) (i : nat) : float :=
  F32.neg
    (F32.add (F32.add (F32.add (F32.add (F32.add
       (F32.mul (K6 K i 0) (x (position e)))
       (F32.mul (K6 K i 1) (y (position e))))
       (F32.mul (K6 K i 2) (z (position e))))
       (F32.mul (K6 K i 3) (x (velocity e))))
       (F32.mul (K6 K i 4) (y (velocity e))))
       (F32.mul (K6 K i 5) (z (velocity e)))).

(** The body of [lqr_D9] up to the safety filter: error, negative state
    feedback, nominal control. *)
Definition lqr_D9_law (setpoint : setpoint_t) (state : state_t) (s : lqr)
  : lqr :=
  let s := set_err (err_D9 setpoint state) s in
  let s := set_u (mk_float4 (feedback_D9 (KD9 s) (err s) 0)
                    (feedback_D9 (KD9 s) (err s) 1)
                    (feedback_D9 (KD9 s) (err s) 2)
                    (feedback_D9 (KD9 s) (err s) 3)) s in
  set_u (mk_float4
           (F32.add (a0 (u s)) (sp_thrust setpoint))
           (F32.add (a1 (u s)) (roll (sp_attitudeRate setpoint)))
           (F32.add (a2 (u s)) (pitch (sp_attitudeRate setpoint)))
           (F32.add (a3 (u s)) (yaw (sp_attitudeRate setpoint)))) s.

Definition lqr_D9 (setpoint : setpoint_t) (state : state_t) (tick : Z)
  (s : lqr) : lqr :=
  if RATE_DO_EXECUTE D9LQR_RATE tick then
    let s := lqr_D9_law setpoint state s in
    apply_cbf_eul state s
  else s.

(** The body of [lqr_D6] up to the safety filter. *)
Definition lqr_D6_law (setpoint : setpoint_t) (state : state_t) (s : lqr)
  : lqr :=
  let s := set_err (err_D6 setpoint state (err s)) s in
  let s := set_u_D6 (mk_float4 (feedback_D6 (KD6 s) (err s) 0)
                       (feedback_D6 (KD6 s) (err s) 1)
                       (feedback_D6 (KD6 s) (err s) 2)
                       (feedback_D6 (KD6 s) (err s) 3)) s in
  set_u_D6 (mk_float4
              (F32.add (a0 (u_D6 s)) (sp_thrust setpoint))
              (F32.add (a1 (u_D6 s)) (roll (sp_attitude setpoint)))
              (F32.add (a2 (u_D6 s)) (pitch (sp_attitude setpoint)))
              (F32.add (a3 (u_D6 s)) (yaw (sp_attitude setpoint)))) s.

Definition lqr_D6 (setpoint : setpoint_t) (state : state_t) (tick : Z)
  (s : lqr) : lqr :=
  if RATE_DO_EXECUTE D6LQR_RATE tick then
    let s := lqr_D6_law setpoint state s in
    apply_cbf_pos state s
  else s.

(** *** The stages of [controllerLqr], in program order *)

(** Flying safety check. *)
Definition flying_check (setpoint : setpoint_t) (s : lqr) : lqr :=
  if F32.ltb (F32.of_Z 0) (z (sp_position setpoint))
  then set_flying true s
  else set_flying false s.

(** The LQR update selected by [mode]. *)
Definition lqr_update (setpoint : setpoint_t) (state : state_t) (tick : Z)
  (s : lqr) : lqr :=
  if mode s =? D9LQR then lqr_D9 setpoint state tick s
  else if mode s =? D6LQR then lqr_D6 setpoint state tick s
  else s.

(** The attitude PID cascade of the reduced-state mode. *)
Definition attitude_pid_update (state : state_t) (tick : Z) (s : lqr) : lqr :=
  if mode s =? D6LQR then
    if RATE_DO_EXECUTE ATTITUDE_RATE tick then
      let s := set_u (mk_float4 (a0 (u_D6 s)) (a1 (u s)) (a2 (u s))
                        (a3 (u s))) s in
      let '(att', (r1, r2, r3)) :=
        attitudeControllerCorrectAttitudePID
          (roll (attitude state)) (F32.neg (pitch (attitude state)))
          (yaw (attitude state))
          (times_RAD2DEG (a1 (u_D6 s))) (times_RAD2DEG (a2 (u_D6 s)))
          (times_RAD2DEG (a3 (u_D6 s))) (att s) in
      let s := set_att att' s in
      let s := set_u (mk_float4 (a0 (u s)) r1 r2 r3) s in
      let s := set_u (mk_float4 (a0 (u s)) (times_DEG2RAD (a1 (u s)))
                        (a2 (u s)) (a3 (u s))) s in
      let s := set_u (mk_float4 (a0 (u s)) (a1 (u s))
                        (times_DEG2RAD (a2 (u s))) (a3 (u s))) s in
      set_u (mk_float4 (a0 (u s)) (a1 (u s)) (a2 (u s))
               (times_DEG2RAD (a3 (u s)))) s
    else s
  else s.

(** The altitude integral action (compiled under [LQR_ALT_PID] only). *)
Definition altitude_pid_update (setpoint : setpoint_t) (state : state_t)
  (tick : Z) (s : lqr) : lqr :=
  if LQR_ALT_PID then
    if RATE_DO_EXECUTE Z_PID_RATE tick then
      let s := set_pidT (pidSetDesired (pidT s) (z (sp_position setpoint))) s in
      let '(pid', out) := pidUpdate (pidT s) (z (position state)) true in
      let s := set_pidT pid' s in
      let s := set_pid_T out s in
      set_u (mk_float4 (F32.add (a0 (u s)) (pid_T s)) (a1 (u s)) (a2 (u s))
               (a3 (u s))) s
    else s
  else s.

(** The saturation of thrust and rates. *)
Definition saturate_u (v : float4) : float4 :=
  let v := mk_float4
             (F32.fmaxf (F32.fminf (a0 v) (F32.of_Z 18)) (F32.of_Z 0))
             (a1 v) (a2 v) (a3 v) in
  let v := mk_float4 (a0 v)
             (F32.fmaxf (F32.fminf (a1 v) (F32.lit 35 10))
                (F32.neg (F32.lit 35 10)))
             (a2 v) (a3 v) in
  let v := mk_float4 (a0 v) (a1 v)
             (F32.fmaxf (F32.fminf (a2 v) (F32.lit 35 10))
                (F32.neg (F32.lit 35 10)))
             (a3 v) in
  mk_float4 (a0 v) (a1 v) (a2 v)
    (F32.fmaxf (F32.fminf (a3 v) (F32.lit 35 10))
       (F32.neg (F32.lit 35 10))).

(** Saturations, logging and conversions at [ATTITUDE_RATE]. *)
Definition saturate_log_convert (tick : Z) (s : lqr) : lqr :=
  if RATE_DO_EXECUTE ATTITUDE_RATE tick then
    let s := set_u (saturate_u (u s)) s in
    let s := set_u_T (a0 (u s)) s in
    let s := set_u_p (a1 (u s)) s in
    let s := set_u_q (a2 (u s)) s in
    let s := set_u_r (a3 (u s)) s in
    let s := set_actuatorThrust (F32.of_Z (to_pwm (a0 (u s)))) s in
    set_rateDesired (mk_attitude (times_RAD2DEG (a1 (u s)))
                       (times_RAD2DEG (a2 (u s)))
                       (times_RAD2DEG (a3 (u s)))) s
  else s.

(** The quantity the landing check compares with the threshold; the
    source adds [err.position.y] twice. *)
Definition landing_error (s : lqr) : float :=
  F32.add (F32.add (x (position (err s))) (y (position (err s))))
    (y (position (err s))).

Definition landing_test (setpoint : setpoint_t) (s : lqr) : bool :=
  F32.ltb (landing_error s) (F32.lit 75 1000)
  && F32.eqb (z (sp_position setpoint)) (F32.of_Z 0).

(** Landing check and thrust cut. *)
Definition landing_check (setpoint : setpoint_t) (s : lqr) : lqr :=
  let s := if landing_test setpoint s then set_flying false s else s in
  if negb (flying s) then set_actuatorThrust (F32.of_Z 0) s else s.

(** The attitude rate PID update. *)
Definition rate_pid_update (sensors : sensorData_t) (tick : Z) (s : lqr)
  : lqr :=
  if RATE_DO_EXECUTE ATTITUDE_RATE tick then
    set_att (attitudeControllerCorrectRatePID
               (x (gyro sensors)) (y (gyro sensors)) (z (gyro sensors))
               (roll (rateDesired s)) (pitch (rateDesired s))
               (yaw (rateDesired s)) (att s)) s
  else s.

(** The power distribution update and its safety branch. *)
Definition power_distribution (control : control_t) (s : lqr)
  : control_t * lqr :=
  let control := mk_control (ctl_roll control) (ctl_pitch control)
                   (ctl_yaw control) (actuatorThrust s) in
  if F32.eqb (ctl_thrust control) (F32.of_Z 0) then
    let control := mk_control 0 0 0 (ctl_thrust control) in
    let s := set_att (attitudeControllerResetAllPID (att s)) s in
    let s := if LQR_ALT_PID then set_pidT (pidReset (pidT s)) s else s in
    (control, s)
  else
    let '(r, p, yw) := attitudeControllerGetActuatorOutput (att s) in
    (mk_control r p yw (ctl_thrust control), s).

(** The state of the controller when the saturation stage is reached. *)
Definition before_saturation (setpoint : setpoint_t) (state : state_t)
  (tick : Z) (s : lqr) : lqr :=
  altitude_pid_update setpoint state tick
    (attitude_pid_update state tick
       (lqr_update setpoint state tick (flying_check setpoint s))).

(** The state of the controller after the landing check. *)
Definition after_landing_check (setpoint : setpoint_t) (state : state_t)
  (tick : Z) (s : lqr) : lqr :=
  landing_check setpoint
    (saturate_log_convert tick (before_saturation setpoint state tick s)).

(** [controllerLqr]. *)
Definition controllerLqr (control : control_t) (setpoint : setpoint_t)
  (sensors : sensorData_t) (state : state_t) (tick : Z) (s : lqr)
  : control_t * lqr :=
  power_distribution control
    (rate_pid_update sensors tick
       (after_landing_check setpoint state tick s)).

(** [update_K_entry]: [KD9[i][j] = value] with [uint8_t] indices and no
    check.  [KD9] is 36 contiguous floats and the store goes to offset
    [9*i+j]; a store past the array is outside the model ([None]). *)
Definition update_K_entry (i j : Z) (value : float) (s : lqr) : option lqr :=
  if 9 * i + j <? 36 then
    Some (set_KD9 (<[Z.to_nat (9 * i + j) := value]> (KD9 s)) s)
  else None.

(** The gain assignments of [controllerLqrInit]. *)
Definition controllerLqrInit_gains (s : lqr) : lqr :=
  let k := KD9 s in
  let k := <[(9 * 0 + 2)%nat := F32.of_Z 4]> k in
  let k := <[(9 * 0 + 8)%nat := F32.lit 34641 10000]> k in
  let k := <[(9 * 1 + 1)%nat := F32.neg (F32.lit 34907 10000)]> k in
  let k := <[(9 * 1 + 3)%nat := F32.lit 78518 10000]> k in
  let k := <[(9 * 1 + 7)%nat := F32.neg (F32.lit 29384 10000)]> k in
  let k := <[(9 * 2 + 0)%nat := F32.lit 34907 10000]> k in
  let k := <[(9 * 2 + 4)%nat := F32.lit 78518 10000]> k in
  let k := <[(9 * 2 + 6)%nat := F32.lit 29384 10000]> k in
  let k := <[(9 * 3 + 5)%nat := F32.of_Z 2]> k in
  let s := set_KD9 k s in
  let k := KD6 s in
  let k :=
    match cbf s with
    | CBF_POS _ _ =>
        let k := <[(6 * 0 + 2)%nat := F32.lit 316228 10000]> k in
        let k := <[(6 * 0 + 5)%nat := F32.lit 85584 10000]> k in
        let k := <[(6 * 1 + 1)%nat := F32.neg (F32.of_Z 1)]> k in
        let k := <[(6 * 1 + 4)%nat := F32.neg (F32.lit 5039 10000)]> k in
        let k := <[(6 * 2 + 0)%nat := F32.of_Z 1]> k in
        <[(6 * 2 + 3)%nat := F32.lit 5039 10000]> k
    | _ =>
        let k := <[(6 * 0 + 2)%nat := F32.lit 56569 10000]> k in
        let k := <[(6 * 0 + 5)%nat := F32.lit 43947 10000]> k in
        let k := <[(6 * 1 + 1)%nat := F32.neg (F32.lit 24683 10000)]> k in
        let k := <[(6 * 1 + 4)%nat := F32.neg (F32.lit 14235 10000)]> k in
        let k := <[(6 * 2 + 0)%nat := F32.lit 24683 10000]> k in
        <[(6 * 2 + 3)%nat := F32.lit 14235 10000]> k
    end in
  set_KD6 k s.

End Controller.

End Lqr.


(** ** Reference definitions and concrete runs *)

(** Modelled from the spec: the decoding of one fixed-point scalar, which
    no code of this repository performs ("the inverse operation divides by
    1000 and restores a float"). *)
Definition spec_decode_value (n : Z) : float :=
  F32.div (F32.of_Z n) (F32.of_Z 1000).

(** The reply payload as the specification describes it: four 16-bit
    fixed-point scalars, each restored to a float by dividing by 1000. *)
Definition spec_decode_scalar (l : list Z) (i : nat) : float :=
  spec_decode_value (F32.wrap16 (rd16 l i)).

Definition spec_decode (P : list Z) : u_t :=
  mk_u (spec_decode_scalar P 0) (spec_decode_scalar P 2)
    (spec_decode_scalar P 4) (spec_decode_scalar P 6).

(** The payload as [unpack] reads it: four raw little-endian floats. *)
Definition raw_floats (P : list Z) : u_t :=
  mk_u (rd_float P 0) (rd_float P 4) (rd_float P 8) (rd_float P 12).

(** The driver's variables after [aideckInit] on a freshly loaded image
    (all statics zero, the ready flag set). *)
Definition init_comp (ty : cbf_type) : cbf_qpdata_comp_t ty :=
  match ty with
  | CBF_TYPE_POS => mk_qpc_pos 0 0 0 0 0 0 (mk_u_comp 0 0 0 0)
  | CBF_TYPE_EUL => mk_qpc_eul 0 0 (mk_u_comp 0 0 0 0)
  end.

Definition deck_init (ty : cbf_type) (CBF_ITERS : bool) : Aideck.state ty :=
  Aideck.mk_state ty Aideck.zero_u 0
    (Aideck.cleared_packet ty CBF_ITERS) (Aideck.cleared_packet ty CBF_ITERS)
    1 0 (init_comp ty) 0 0 [].

(** A run of the [CBF_TYPE_EUL] build without [CBF_ITERS]: a first request,
    a reply carrying the raw floats (9.81, 0, 0, 0), a second request. *)
Module Run.

Definition d0 : cbf_qpdata_t CBF_TYPE_EUL :=
  mk_qp_eul (F32.lit 1 10) (F32.neg (F32.lit 2 10))
    (mk_u (F32.lit 981 100) (F32.lit 1 10) (F32.neg (F32.lit 5 100))
       F32.zero).

Definition s_sent : Aideck.state CBF_TYPE_EUL :=
  Aideck.aideck_send_cbf_data CBF_TYPE_EUL false d0
    (deck_init CBF_TYPE_EUL false).

(** 9.81f is 0x411CF5C3. *)
Definition reply_raw : CBFPacket :=
  mk_packet CHAR_V ([0xC3; 0xF5; 0x1C; 0x41] ++ replicate 12 0).

Definition s_replied : Aideck.state CBF_TYPE_EUL :=
  Aideck.Gap8Task_iteration CBF_TYPE_EUL false
    (Aideck.frame_received reply_raw s_sent).

Definition s_busy : Aideck.state CBF_TYPE_EUL :=
  Aideck.aideck_send_cbf_data CBF_TYPE_EUL false d0 s_replied.

(** A reply in the format the specification presumes: the fixed-point
    values 9810, 100, -50, 0, arriving after three missed cycles. *)
Definition P_fixed : list Z :=
  le16 9810 ++ le16 100 ++ le16 (-50) ++ le16 0 ++ replicate 8 0.

Definition s_late : Aideck.state CBF_TYPE_EUL :=
  Aideck.frame_received (mk_packet CHAR_V P_fixed)
    (Aideck.send_cycles CBF_TYPE_EUL false 3 d0 s_sent).

(** A stop packet (header ['X']) arriving while Busy. *)
Definition s_stop : Aideck.state CBF_TYPE_EUL :=
  Aideck.frame_received (mk_packet 88 (replicate 16 0)) s_sent.

(** The outbound frame left by a successful [cbf_pack]. *)
Definition s_packed : Aideck.state CBF_TYPE_EUL :=
  snd (Aideck.cbf_pack CBF_TYPE_EUL false 12 (replicate 12 7)
         (deck_init CBF_TYPE_EUL false)).

End Run.

(** A bench platform on which the controller runs as a closed program:
    the rate division of a 1 kHz main loop, [powf] used for squares only,
    a proportional attitude controller and an integrating altitude PID. *)
Module Bench.

Definition RATE_MAIN_LOOP : Z := 1000.

#[export] Instance platform : Platform := {|
  CBF_ITERS := false;
  LQR_ALT_PID := true;
  D9LQR_RATE := 100;
  D6LQR_RATE := 100;
  ATTITUDE_RATE := 500;
  Z_PID_RATE := 100;
  RATE_DO_EXECUTE := fun rate tick => tick mod (RATE_MAIN_LOOP / rate) =? 0;
  powf := fun b _ => F32.mul b b;
  att_state := Z * Z * Z;
  attitudeControllerCorrectAttitudePID := fun ra pa ya rd pd yd st =>
    (st, (F32.sub rd ra, F32.sub pd pa, F32.sub yd ya));
  attitudeControllerCorrectRatePID := fun gx gy gz rd pd yd _ =>
    (F32.to_int16 (F32.sub rd gx), F32.to_int16 (F32.sub pd gy),
     F32.to_int16 (F32.sub yd gz));
  attitudeControllerResetAllPID := fun _ => (0, 0, 0);
  attitudeControllerGetActuatorOutput := fun st => st;
  PidObject := float * float;
  pidSetDesired := fun pid v => (v, snd pid);
  pidUpdate := fun pid measured _ =>
    let i := F32.add (snd pid) (F32.sub (fst pid) measured) in
    ((fst pid, i), i);
  pidReset := fun pid => (fst pid, F32.zero)
|}.

Definition zero3 : vec3 := mk_vec3 F32.zero F32.zero F32.zero.
Definition zero_att : attitude_t := mk_attitude F32.zero F32.zero F32.zero.
Definition zero4 : float4 := mk_float4 F32.zero F32.zero F32.zero F32.zero.

(** The controller's variables when the image is loaded (statics zero,
    default mode), and after [controllerLqrInit]. *)
Definition s_boot : Lqr.lqr :=
  Lqr.mk_lqr Lqr.D9LQR (mk_state_t zero_att zero3 zero3) zero_att zero4 zero4
    F32.zero (replicate 36 F32.zero) (replicate 24 F32.zero)
    (F32.zero, F32.zero) false CBF_NONE F32.zero F32.zero F32.zero F32.zero
    F32.zero (0, 0, 0).

Definition s_init : Lqr.lqr := Lqr.controllerLqrInit_gains s_boot.

(** The same controller after [update_K_entry(0, 0, INFINITY)]. *)
Definition s_inf : Lqr.lqr :=
  Lqr.set_KD9 (<[0%nat := S754_infinity false]> (Lqr.KD9 s_init)) s_init.

Definition control0 : control_t := mk_control 0 0 0 F32.zero.
Definition sensors0 : sensorData_t := mk_sensorData zero3.

(** On the ground: every state and setpoint component is zero. *)
Definition st_ground : state_t := mk_state_t zero_att zero3 zero3.
Definition sp_ground : setpoint_t :=
  mk_setpoint zero_att zero_att zero3 zero3 F32.zero.

(** Hover at 1.0 m from 0.9 m, with the nominal thrust of gravity. *)
Definition st_hover : state_t :=
  mk_state_t zero_att (mk_vec3 F32.zero F32.zero (F32.lit 9 10)) zero3.
Definition sp_hover : setpoint_t :=
  mk_setpoint zero_att zero_att (mk_vec3 F32.zero F32.zero (F32.of_Z 1))
    zero3 (F32.lit 981 100).

(** A climb of 100 m demanded at once, with a yaw-rate demand of -10 rad/s:
    both leave the law far outside the actuator ranges. *)
Definition sp_far : setpoint_t :=
  mk_setpoint zero_att (mk_attitude F32.zero F32.zero (F32.neg (F32.of_Z 10)))
    (mk_vec3 F32.zero F32.zero (F32.of_Z 100)) zero3 (F32.lit 981 100).

End Bench.

(** ** Predicates of the statements *)

(** A value [lo <= v <= hi] in the order of the floats (a NaN is in no
    range). *)
Definition in_range (lo hi v : float) : Prop :=
  F32.leb lo v = true /\ F32.leb v hi = true.

(** The saturation idiom [fmaxf(fminf(v,hi),lo)] of the source. *)
Definition sat (lo hi v : float) : float := F32.fmaxf (F32.fminf v hi) lo.

(** The relation between a value before and after a saturation to
    [lo, hi]. *)
Definition clamped (lo hi pre post : float) : Prop :=
  in_range lo hi post
  /\ (F32.ltb hi pre = true -> post = hi)
  /\ (F32.ltb pre lo = true -> post = lo).

(** Every gain is a finite number. *)
Definition finite_gains (K : list float) : Prop :=
  Forall (fun k => F32.is_finite k = true) K.

(** All nine (respectively six) error components are zero. *)
Definition zero_err_D9 (e : state_t) : Prop :=
  F32.is_zero (x (position e)) = true /\ F32.is_zero (y (position e)) = true
  /\ F32.is_zero (z (position e)) = true
  /\ F32.is_zero (roll (attitude e)) = true
  /\ F32.is_zero (pitch (attitude e)) = true
  /\ F32.is_zero (yaw (attitude e)) = true
  /\ F32.is_zero (x (velocity e)) = true /\ F32.is_zero (y (velocity e)) = true
  /\ F32.is_zero (z (velocity e)) = true.

Definition zero_err_D6 (e : state_t) : Prop :=
  F32.is_zero (x (position e)) = true /\ F32.is_zero (y (position e)) = true
  /\ F32.is_zero (z (position e)) = true
  /\ F32.is_zero (x (velocity e)) = true /\ F32.is_zero (y (velocity e)) = true
  /\ F32.is_zero (z (velocity e)) = true.

Definition zero_float4 (v : float4) : Prop :=
  F32.is_zero (a0 v) = true /\ F32.is_zero (a1 v) = true
  /\ F32.is_zero (a2 v) = true /\ F32.is_zero (a3 v) = true.

(** ** The round-trip check of the codec, integer by integer

    For a stored integer [n >= 1], every float [x] that compresses to [n]
    lies on the grid of its binade ([grid], from a lower bound [elo] on its
    exponent) and below [n + 1] by at least half a unit in the last place of
    the product; [amax] is the largest grid point allowed.  The check
    compares the decoded float with the two ends of that interval, in units
    of [2^-40]. *)
Definition roundtrip_ok (n : Z) : bool :=
  match F32.scaled 40 (spec_decode_value n) with
  | Some zd =>
      let g := Z.log2 n in
      let elo := Z.log2 (Z.shiftl n 40 / 1000) - 63 in
      let grid := Z.shiftl 1 (elo + 40) in
      let amax :=
        (Z.shiftl (n + 1) 40 - Z.shiftl 1 (g + 16) - 1) / (1000 * grid) in
      (-40 <=? elo)
      && (1000 * Z.shiftl 1 (elo + 63) <=? Z.shiftl n 40)
      && (1000 * (amax * grid - zd) <=? 1099511627776)
      && (Z.shiftl n 40 - 1000 * zd <=? 1099511627776)
      && (1000 * zd - (2 * n - 1) * 549755813888 <=? 1099511627776)
  | _ => false
  end.

(** [roundtrip_ok] on the [k] integers from [n] on. *)
Fixpoint all_ok (k : nat) (n : Z) : bool :=
  match k with
  | O => true
  | S k' => roundtrip_ok n && all_ok k' (n + 1)
  end.

(** The invariant of the right shifts of [SpecFloat]: after [j] shifts of
    [M], the record holds the quotient, the round bit and the sticky bit. *)
Definition shr_inv (M j : Z) (mrs : shr_record) : Prop :=
  0 <= shr_m mrs /\
  exists l : Z,
    0 <= l < 2 ^ j
    /\ 2 * M = shr_m mrs * 2 ^ (j + 1) + Z.b2z (shr_r mrs) * 2 ^ j + l
    /\ (shr_s mrs = negb (l =? 0)).

(** The mantissa after rounding to nearest even. *)
Definition rounded (mrs : shr_record) : Z :=
  round_nearest_even (shr_m mrs) (loc_of_shr_record mrs).

(** ** Runs of the driver

    What happens to the driver's variables between two observations: the
    control loop calls [aideck_send_cbf_data], the DMA stream completes an
    inbound frame and its interrupt handler runs, or the receive loop of
    [Gap8Task] runs one iteration. *)
Inductive event (ty : cbf_type) : Type :=
| ev_send (d : cbf_qpdata_t ty)
| ev_frame (pk : CBFPacket)
| ev_task.

Arguments ev_send {ty}.
Arguments ev_frame {ty}.
Arguments ev_task {ty}.

Definition step (ty : cbf_type) (iters : bool) (e : event ty)
  (s : Aideck.state ty) : Aideck.state ty :=
  match e with
  | ev_send d => Aideck.aideck_send_cbf_data ty iters d s
  | ev_frame pk => Aideck.frame_received pk s
  | ev_task => Aideck.Gap8Task_iteration ty iters s
  end.

(** The events of [evs] in order, the head first. *)
Fixpoint run (ty : cbf_type) (iters : bool) (evs : list (event ty))
  (s : Aideck.state ty) : Aideck.state ty :=
  match evs with
  | [] => s
  | e :: evs' => run ty iters evs' (step ty iters e s)
  end.

Definition is_byte (b : Z) : Prop := 0 <= b < 256.

(** A call of the transport that hands it exactly one frame: a
    transmission of [sizeof(CBFPacket)] bytes starting with ['V'], or a
    resynchronisation of the inbound buffer for [sizeof(CBFPacket)]
    bytes. *)
Definition frame_call (ty : cbf_type) (iters : bool) (c : uart_call) : Prop :=
  match c with
  | USART_DMA_Send size bytes =>
      size = Aideck.sizeof_CBFPacket ty iters
      /\ Z.of_nat (length bytes) = size
      /\ head bytes = Some CHAR_V
      /\ Forall is_byte bytes
  | USART_DMA_ResetCounter remaining_bytes ptr_start =>
      remaining_bytes = Aideck.sizeof_CBFPacket ty iters
      /\ ptr_start = PK_RX_RAW
  end.

(** What every reachable state of the driver satisfies. *)
Definition channel_inv (ty : cbf_type) (iters : bool) (s : Aideck.state ty)
  : Prop :=
  0 <= Aideck.missed_cycles s <= 201
  /\ (Aideck.aideck_ready_flag s = 0 -> Aideck.missed_cycles s <= 200)
  /\ (Aideck.aideck_ready_flag s = 0 \/ Aideck.aideck_ready_flag s = 1)
  /\ Aideck.pk_tx s = Aideck.cleared_packet ty iters
  /\ Forall (frame_call ty iters) (Aideck.uart s).



(** The 16-bit scalar stored little-endian at offset [i] of a payload, as
    a receiver reads it. *)
Definition payload_int16 (payload : list Z) (i : nat) : Z :=
  F32.wrap16 (rd16 payload i).

(** The scalars of a request in the order of the packed structure. *)
Definition request_scalars (ty : cbf_type) : cbf_qpdata_t ty -> list float :=
  match ty with
  | CBF_TYPE_EUL => fun d =>
      [qp_phi d; qp_theta d; u_T (qp_eul_u d); u_p_phi (qp_eul_u d);
       u_q_theta (qp_eul_u d); u_r_psi (qp_eul_u d)]
  | CBF_TYPE_POS => fun d =>
      [qp_x d; qp_y d; qp_z d; qp_x_dot d; qp_y_dot d; qp_z_dot d;
       u_T (qp_pos_u d); u_p_phi (qp_pos_u d); u_q_theta (qp_pos_u d);
       u_r_psi (qp_pos_u d)]
  end.

(** The fields of [data_comp], the packed structure of [int16_t], in the
    order of its declaration. *)
Definition stored_scalars (ty : cbf_type) : cbf_qpdata_comp_t ty -> list Z :=
  match ty with
  | CBF_TYPE_EUL => fun c =>
      [qpc_phi c; qpc_theta c; uc_T (qpc_eul_u c); uc_p_phi (qpc_eul_u c);
       uc_q_theta (qpc_eul_u c); uc_r_psi (qpc_eul_u c)]
  | CBF_TYPE_POS => fun c =>
      [qpc_x c; qpc_y c; qpc_z c; qpc_x_dot c; qpc_y_dot c; qpc_z_dot c;
       uc_T (qpc_pos_u c); uc_p_phi (qpc_pos_u c); uc_q_theta (qpc_pos_u c);
       uc_r_psi (qpc_pos_u c)]
  end.

(** ** Initialisation of the deck driver *)

(** The calls [aideckInit] makes into the kernel and the transport, most
    recent first.  [DEBUG_NINA_PRINT] is not defined in this source, so the
    NINA task and its UART are not part of the build. *)
Inductive init_call :=
| xTaskCreate_Gap8Task
| USART_DMA_Start (baudrate : Z) (pulpRxBuffer : buffer) (BUFFERSIZE : Z)
| STATS_CNT_RATE_INIT (interval_ms : Z).

(** The driver's variables together with [isInit] and the calls made by
    [aideckInit]. *)
Record deck (ty : cbf_type) := mk_deck {
  isInit : bool;
  driver : Aideck.state ty;
  init_calls : list init_call
}.

Arguments mk_deck {ty}.
Arguments isInit {ty}.
Arguments driver {ty}.
Arguments init_calls {ty}.

(** [aideckInit]; the pointer [u] is identified with its target. *)
Definition aideckInit (ty : cbf_type) (iters : bool) (k : deck ty) : deck ty :=
  if isInit k then k
  else
    let calls := xTaskCreate_Gap8Task :: init_calls k in
    let calls :=
      USART_DMA_Start 115200 PK_RX_RAW (Aideck.sizeof_CBFPacket ty iters)
      :: calls in
    let calls := STATS_CNT_RATE_INIT 10 :: calls in
    let drv := Aideck.set_aideck_ready_flag 1 (driver k) in
    mk_deck true drv calls.

(** The image as loaded: every static is zero and [isInit] is false. *)
Definition deck_image (ty : cbf_type) (iters : bool) : deck ty :=
  mk_deck false
    (Aideck.mk_state ty Aideck.zero_u 0
       (Aideck.cleared_packet ty iters) (Aideck.cleared_packet ty iters)
       0 0 (init_comp ty) 0 0 [])
    [].

(** ** The debug build of the driver ([AI_CBF_DEBUG]) *)

(** [offset_hex]: a raw number (0-16) to its ASCII character in hex code;
    argument and result are [uint8_t]. *)
Definition offset_hex (raw : Z) : Z :=
  if raw <? 10 then (raw + 48) mod 256 else (raw + 87) mod 256.

(** [hex_to_char]: the two characters left in the static [hx_code]. *)
Definition hex_to_char (hex : Z) : Z * Z :=
  (offset_hex (hex / 16), offset_hex (hex mod 16)).

(** The characters [aideck_send_cbf_data] prints between [cbf_pack] and
    [USART_DMA_Send]: ["TX %c"] with the header, two characters for each
    of the [sizeof(CBFPacket)-1] data bytes, and a newline ([DEBUG_FMT] is
    redefined around the block so that no module prefix is added). *)
Fixpoint tx_dump_loop (bytes : list Z) : list Z :=
  match bytes with
  | [] => []
  | b :: rest =>
      let hx_code := hex_to_char b in
      fst hx_code :: snd hx_code :: tx_dump_loop rest
  end.

Definition tx_dump (ty : cbf_type) (iters : bool) (pk_tx : CBFPacket)
  : list Z :=
  [84; 88; 32; header pk_tx]
  ++ tx_dump_loop
       (take (Z.to_nat (Aideck.sizeof_CBFPacket ty iters - 1)) (data pk_tx))
  ++ [10].

(** The outbound frame between [cbf_pack] and [USART_DMA_Send] in a call
    of [aideck_send_cbf_data] that finds the channel Ready: the frame the
    debug build dumps. *)
Definition packed_frame (ty : cbf_type) (iters : bool) (d : cbf_qpdata_t ty)
  (s : Aideck.state ty) : CBFPacket :=
  let s := Aideck.set_data_comp (Aideck.compress_data ty d) s in
  Aideck.pk_tx
    (snd (Aideck.cbf_pack ty iters (Aideck.sizeof_cbf_qpdata_comp_t ty)
            (Aideck.data_comp_bytes ty (Aideck.data_comp s)) s)).

(** The value of a lower-case hexadecimal digit. *)
Definition hex_digit (c : Z) : option Z :=
  if (48 <=? c) && (c <=? 57) then Some (c - 48)
  else if (97 <=? c) && (c <=? 102) then Some (c - 87)
  else None.

(** Reading back a dump: pairs of hexadecimal digits up to the newline. *)
Fixpoint read_hex (chars : list Z) : option (list Z) :=
  match chars with
  | h :: l :: rest =>
      match hex_digit h, hex_digit l, read_hex rest with
      | Some a, Some b, Some bytes => Some (16 * a + b :: bytes)
      | _, _, _ => None
      end
  | [c] => if c =? 10 then Some [] else None
  | [] => None
  end.

(** ** Further inputs for the bench *)

Module Rig.

(** Two replies of the [CBF_TYPE_POS] build that agree on the sixteen
    bytes of [u_t] and differ in the four bytes behind them. *)
Definition reply_a : CBFPacket :=
  mk_packet CHAR_V ([0xC3; 0xF5; 0x1C; 0x41] ++ replicate 16 0).
Definition reply_b : CBFPacket :=
  mk_packet CHAR_V ([0xC3; 0xF5; 0x1C; 0x41] ++ replicate 12 0 ++ [1; 2; 3; 4]).

(** The parameter [mode] set to 2 by a client. *)
Definition s_mode2 : Lqr.lqr := Lqr.set_mode 2 Bench.s_init.

(** The reduced-state mode, with a yaw setpoint of 1 rad at hover. *)
Definition s_D6 : Lqr.lqr := Lqr.set_mode Lqr.D6LQR Bench.s_init.
Definition sp_yaw : setpoint_t :=
  mk_setpoint (mk_attitude F32.zero F32.zero (F32.of_Z 1)) Bench.zero_att
    (mk_vec3 F32.zero F32.zero (F32.of_Z 1)) Bench.zero3 (F32.lit 981 100).

(** A controller built with the [CBF_TYPE_EUL] safety filter, the driver
    Ready and holding the reply (9.81, 0, 0, 0). *)
Definition s_cbf : Lqr.lqr :=
  Lqr.set_cbf (CBF_EUL Run.d0 Run.s_replied) Bench.s_init.

(** The same controller with the parameter [mode] set to [D6LQR]. *)
Definition s_cbf_D6 : Lqr.lqr := Lqr.set_mode Lqr.D6LQR s_cbf.

(** A request whose first scalar is 3000000: times 1000 it is 3*10^9, past
    the largest [int32_t]. *)
Definition d_far : cbf_qpdata_t CBF_TYPE_EUL :=
  mk_qp_eul (F32.of_Z 3000000) F32.zero
    (mk_u (F32.lit 981 100) F32.zero F32.zero F32.zero).

(** Upside down: roll 180 degrees, pitch -180 degrees. *)
Definition st_inverted : state_t :=
  mk_state_t (mk_attitude (F32.of_Z 180) (F32.neg (F32.of_Z 180)) F32.zero)
    Bench.zero3 Bench.zero3.

End Rig.


(** The invariant of the right shifts for a value [N/X] that need not be
    an integer: the record holds the integral part of [N/X], the round bit
    and the sticky bit. *)
Definition shr_unit_inv (N X : Z) (mrs : shr_record) : Prop :=
  0 <= shr_m mrs /\
  exists l : Z,
    0 <= l < X
    /\ 2 * N = (2 * shr_m mrs + Z.b2z (shr_r mrs)) * X + l
    /\ (shr_s mrs = negb (l =? 0)).

(** The largest desired rate: 3.5 rad/s in deg/s, about 200.535. *)
Definition rate_limit_deg : float := S754_finite false 13142276 (-16).


(** * Properties *)

(** ** Sanity checks of the float layer *)

Example f32_lit_0_075 : F32.lit 75 1000 = S754_finite false 10066330 (-27).
Proof. reflexivity. Qed.

Example f32_of_bits_one : F32.of_bits 0x3F800000 = F32.of_Z 1.
Proof. reflexivity. Qed.

Example f32_to_int16_wraps : F32.to_int16 (F32.of_Z 40000) = -25536.
Proof. reflexivity. Qed.

Example le16_negative : le16 (-50) = [206; 255].
Proof. reflexivity. Qed.

(** ** The safety-filter channel *)

Section ChannelProperties.

Import Aideck.

Variable ty : cbf_type.
Variable CBF_ITERS : bool.

Abbreviation state := (Aideck.state ty).
Abbreviation send := (aideck_send_cbf_data ty CBF_ITERS).
Abbreviation cycles := (send_cycles ty CBF_ITERS).
Abbreviation iteration := (Gap8Task_iteration ty CBF_ITERS).
Abbreviation pack := (cbf_pack ty CBF_ITERS).
Abbreviation MAX := (MAX_CBFPACKET_DATA_SIZE ty CBF_ITERS).
Abbreviation FRAME := (sizeof_CBFPacket ty CBF_ITERS).

(** A call in the Busy state with the counter below the threshold only
    counts the missed cycle. *)
Lemma send_busy_below d (s : state) :
  aideck_ready_flag s = 0 ->
  0 <= missed_cycles s < 200 ->
  send d s = set_missed_cycles (missed_cycles s + 1) s.
Proof.
  intros Hb Hm. unfold aideck_send_cbf_data.
  rewrite Hb. cbn [Z.eqb negb].
  rewrite Z.mod_small by lia. cbn.
  destruct (Z.ltb_spec 200 (missed_cycles s + 1)); [lia|done].
Qed.

(** The call that takes the counter past the threshold stops the vehicle
    and forces the channel Ready. *)
Lemma send_busy_past d (s : state) :
  aideck_ready_flag s = 0 ->
  missed_cycles s = 200 ->
  send d s =
    set_aideck_ready_flag 1 (force_stop_u (set_missed_cycles 201 s)).
Proof.
  intros Hb Hm. unfold aideck_send_cbf_data.
  rewrite Hb, Hm. reflexivity.
Qed.

Lemma cycles_succ (k : nat) d (s : state) :
  cycles (S k) d s = send d (cycles k d s).
Proof. reflexivity. Qed.

(** While no reply is processed, the first 200 Busy cycles leave
    everything but the counter as it was. *)
Lemma cycles_below d (s : state) (k : nat) :
  aideck_ready_flag s = 0 ->
  missed_cycles s = 0 ->
  (k <= 200)%nat ->
  cycles k d s = set_missed_cycles (Z.of_nat k) s.
Proof.
  intros Hb Hm. induction k as [|k IH]; intros Hk.
  - destruct s; cbn in *. by subst.
  - cbn [send_cycles]. rewrite IH by lia.
    rewrite send_busy_below.
    + unfold set_missed_cycles; cbn. f_equal. lia.
    + exact Hb.
    + cbn. lia.
Qed.

(** C1 (amended).  When [aideck_send_cbf_data] runs on every control cycle
    from a Busy state with a fresh counter and no reply is processed, the
    counter reaches 200 after exactly 200 cycles with the stored control
    vector, the Busy state and the transport untouched; it is the next,
    201st cycle, on which the counter exceeds the threshold, that zeroes
    all four components of the vector and forces the channel Ready. *)
Theorem C1_failsafe_on_cycle_201 d (s : state) :
  aideck_ready_flag s = 0 ->
  missed_cycles s = 0 ->
  (forall k : nat, (k <= 200)%nat ->
     missed_cycles (cycles k d s) = Z.of_nat k
     /\ aideck_ready_flag (cycles k d s) = 0
     /\ u_struct (cycles k d s) = u_struct s
     /\ uart (cycles k d s) = uart s)
  /\ missed_cycles (cycles 201 d s) = 201
  /\ u_struct (cycles 201 d s) = zero_u
  /\ aideck_get_safe_u (cycles 201 d s) = zero_u
  /\ aideck_ready_flag (cycles 201 d s) = 1
  /\ uart (cycles 201 d s) = uart s.
Proof.
  intros Hb Hm. split.
  - intros k Hk. rewrite cycles_below by assumption.
    cbn. auto.
  - rewrite (cycles_succ 200 d s).
    rewrite (cycles_below d s 200) by (assumption || lia).
    rewrite send_busy_past by (cbn; assumption || reflexivity).
    cbn. auto.
Qed.

(** C2 (amended).  When the receive loop processes a frame whose header is
    ['V'], the stored control vector becomes the four little-endian
    binary32 values held in the first sixteen payload bytes (a raw copy,
    not a fixed-point decoding), the missed-cycle counter keeps its value,
    the channel is Ready, the inbound buffer is cleared and the transport
    is not called. *)
Theorem C2_valid_reply_is_copied_raw (s : state) :
  dma_flag s <> 0 ->
  header (pk_rx s) = CHAR_V ->
  u_struct (iteration s) = raw_floats (data (pk_rx s))
  /\ aideck_get_safe_u (iteration s) = raw_floats (data (pk_rx s))
  /\ (CBF_ITERS = true ->
      u_struct_iters (iteration s) = rd16 (data (pk_rx s)) 16)
  /\ missed_cycles (iteration s) = missed_cycles s
  /\ aideck_ready_flag (iteration s) = 1
  /\ pk_rx (iteration s) = cleared_packet ty CBF_ITERS
  /\ uart (iteration s) = uart s.
Proof.
  intros Hf Hh. unfold Gap8Task_iteration, unpack.
  destruct (Z.eqb_spec (dma_flag s) 0) as [?|_]; [done|].
  cbn. rewrite Hh. cbn. unfold memcpy_u_struct.
  destruct CBF_ITERS; cbn; repeat split; done.
Qed.

(** The one caller of [cbf_pack] never asks for more than a frame holds. *)
Lemma send_never_oversize :
  sizeof_cbf_qpdata_comp_t ty <= MAX.
Proof. destruct ty, CBF_ITERS; cbn; lia. Qed.

(** C3 (amended).  [cbf_pack] with a size above the maximum payload size
    returns no frame, calls nothing in the transport and leaves the data
    region as it was; it does write the header byte of the outbound
    frame, setting it to 0. *)
Theorem C3_oversize_pack_fails size bytes (s : state) :
  MAX < size ->
  fst (pack size bytes s) = None
  /\ uart (snd (pack size bytes s)) = uart s
  /\ data (pk_tx (snd (pack size bytes s))) = data (pk_tx s)
  /\ header (pk_tx (snd (pack size bytes s))) = 0
  /\ snd (pack size bytes s) = set_pk_tx (mk_packet 0 (data (pk_tx s))) s.
Proof.
  intros Hsz. unfold cbf_pack.
  destruct (Z.ltb_spec MAX size); [|lia].
  cbn. auto.
Qed.

(** C5.  When the receive loop processes a frame whose header differs
    from ['V'], [unpack] returns at once: the stored control vector and
    the inbound buffer are unchanged; the loop then calls
    [USART_DMA_ResetCounter] for one whole frame at the start of the
    inbound buffer and forces the channel Ready. *)
Theorem C5_bad_header_resynchronizes (s : state) :
  dma_flag s <> 0 ->
  header (pk_rx s) <> CHAR_V ->
  unpack ty CBF_ITERS (set_dma_flag 0 s) = (1, set_dma_flag 0 s)
  /\ u_struct (iteration s) = u_struct s
  /\ u_struct_iters (iteration s) = u_struct_iters s
  /\ aideck_get_safe_u (iteration s) = aideck_get_safe_u s
  /\ pk_rx (iteration s) = pk_rx s
  /\ missed_cycles (iteration s) = missed_cycles s
  /\ uart (iteration s) = USART_DMA_ResetCounter FRAME PK_RX_RAW :: uart s
  /\ aideck_ready_flag (iteration s) = 1.
Proof.
  intros Hf Hh. unfold Gap8Task_iteration, unpack.
  destruct (Z.eqb_spec (dma_flag s) 0) as [?|_]; [done|].
  cbn. destruct (Z.eqb_spec (header (pk_rx s)) CHAR_V) as [?|_]; [done|].
  cbn. auto 10.
Qed.

End ChannelProperties.

(** *** The channel on concrete runs *)

Example run_s_sent_is_busy :
  Aideck.aideck_ready_flag Run.s_sent = 0
  /\ Aideck.missed_cycles Run.s_sent = 0
  /\ Aideck.uart Run.s_sent =
       [USART_DMA_Send 17
          (CHAR_V :: [100; 0; 56; 255; 82; 38; 100; 0; 206; 255; 0; 0]
             ++ replicate 4 0)].
Proof. vm_compute. auto. Qed.

Lemma C1_witness :
  Aideck.aideck_ready_flag Run.s_busy = 0
  /\ Aideck.missed_cycles Run.s_busy = 0
  /\ Aideck.u_struct Run.s_busy <> Aideck.zero_u
  /\ Aideck.u_struct (Aideck.send_cycles CBF_TYPE_EUL false 201 Run.d0 Run.s_busy)
     = Aideck.zero_u.
Proof.
  assert (Hb : Aideck.aideck_ready_flag Run.s_busy = 0)
    by (vm_compute; reflexivity).
  assert (Hm : Aideck.missed_cycles Run.s_busy = 0)
    by (vm_compute; reflexivity).
  destruct (C1_failsafe_on_cycle_201 CBF_TYPE_EUL false Run.d0 Run.s_busy
              Hb Hm) as (_ & _ & Hu & _).
  split; [exact Hb|]. split; [exact Hm|]. split; [|exact Hu].
  vm_compute. discriminate.
Defined.

(** C1 as stated fails: after exactly 200 Busy cycles the counter is 200,
    which does not exceed the threshold; the vector still holds the last
    reply and the channel is still Busy. *)
Lemma C1_counterexample :
  let s := Aideck.send_cycles CBF_TYPE_EUL false 200 Run.d0 Run.s_busy in
  Aideck.aideck_ready_flag Run.s_busy = 0
  /\ Aideck.missed_cycles s = 200
  /\ Aideck.aideck_get_safe_u s = mk_u (F32.lit 981 100) F32.zero F32.zero F32.zero
  /\ Aideck.aideck_get_safe_u s <> Aideck.zero_u
  /\ Aideck.aideck_ready_flag s = 0.
Proof. vm_compute. repeat split; discriminate. Qed.

Lemma C2_witness :
  Aideck.aideck_ready_flag (Aideck.frame_received Run.reply_raw Run.s_sent) = 0
  /\ Aideck.aideck_get_safe_u Run.s_replied
     = mk_u (F32.lit 981 100) F32.zero F32.zero F32.zero
  /\ Aideck.aideck_ready_flag Run.s_replied = 1.
Proof.
  assert (Hf : Aideck.dma_flag (Aideck.frame_received Run.reply_raw Run.s_sent)
               <> 0) by (vm_compute; discriminate).
  assert (Hh : header (Aideck.pk_rx
                         (Aideck.frame_received Run.reply_raw Run.s_sent))
               = CHAR_V) by (vm_compute; reflexivity).
  destruct (C2_valid_reply_is_copied_raw CBF_TYPE_EUL false
              (Aideck.frame_received Run.reply_raw Run.s_sent) Hf Hh)
    as (_ & Hu & _ & _ & Hr & _).
  split; [vm_compute; reflexivity|].
  unfold Run.s_replied. split; [|exact Hr].
  rewrite Hu. vm_compute. reflexivity.
Defined.

(** C2 as stated fails twice over.  A ['V'] frame whose payload holds the
    fixed-point values 9810, 100, -50, 0 arrives while the channel is Busy,
    three cycles after the request: the stored vector is not the decoded
    payload (the bytes are reinterpreted as floats), and the missed-cycle
    counter is 3, not 0. *)
Lemma C2_counterexample :
  let s' := Aideck.Gap8Task_iteration CBF_TYPE_EUL false Run.s_late in
  Aideck.aideck_ready_flag Run.s_late = 0
  /\ header (Aideck.pk_rx Run.s_late) = CHAR_V
  /\ spec_decode Run.P_fixed
     = mk_u (F32.lit 981 100) (F32.lit 1 10) (F32.neg (F32.lit 5 100)) F32.zero
  /\ Aideck.aideck_get_safe_u s' <> spec_decode Run.P_fixed
  /\ Aideck.missed_cycles s' = 3
  /\ Aideck.missed_cycles s' <> 0.
Proof. vm_compute. repeat split; discriminate. Qed.

Lemma C3_witness :
  Aideck.MAX_CBFPACKET_DATA_SIZE CBF_TYPE_EUL false < 21
  /\ fst (Aideck.cbf_pack CBF_TYPE_EUL false 21 (replicate 21 7) Run.s_packed)
     = None
  /\ Aideck.uart
       (snd (Aideck.cbf_pack CBF_TYPE_EUL false 21 (replicate 21 7)
               Run.s_packed))
     = [].
Proof.
  assert (Hsz : Aideck.MAX_CBFPACKET_DATA_SIZE CBF_TYPE_EUL false < 21)
    by (vm_compute; reflexivity).
  destruct (C3_oversize_pack_fails CBF_TYPE_EUL false 21 (replicate 21 7)
              Run.s_packed Hsz) as (Hn & Hu & _).
  split; [exact Hsz|]. split; [exact Hn|].
  rewrite Hu. vm_compute. reflexivity.
Defined.

(** C3 as stated fails on the header: after a successful pack the outbound
    header is ['V']; an oversize pack then overwrites it with 0. *)
Lemma C3_counterexample :
  Aideck.MAX_CBFPACKET_DATA_SIZE CBF_TYPE_EUL false < 21
  /\ header (Aideck.pk_tx Run.s_packed) = CHAR_V
  /\ header
       (Aideck.pk_tx
          (snd (Aideck.cbf_pack CBF_TYPE_EUL false 21 (replicate 21 7)
                  Run.s_packed)))
     = 0
  /\ header
       (Aideck.pk_tx
          (snd (Aideck.cbf_pack CBF_TYPE_EUL false 21 (replicate 21 7)
                  Run.s_packed)))
     <> header (Aideck.pk_tx Run.s_packed).
Proof. vm_compute. repeat split; discriminate. Qed.

Lemma C5_witness :
  Aideck.uart (Aideck.Gap8Task_iteration CBF_TYPE_EUL false Run.s_stop)
  = USART_DMA_ResetCounter 17 PK_RX_RAW :: Aideck.uart Run.s_stop
  /\ Aideck.aideck_ready_flag
       (Aideck.Gap8Task_iteration CBF_TYPE_EUL false Run.s_stop) = 1
  /\ Aideck.pk_rx (Aideck.Gap8Task_iteration CBF_TYPE_EUL false Run.s_stop)
     = mk_packet 88 (replicate 16 0).
Proof.
  assert (Hf : Aideck.dma_flag Run.s_stop <> 0) by (vm_compute; discriminate).
  assert (Hh : header (Aideck.pk_rx Run.s_stop) <> CHAR_V)
    by (vm_compute; discriminate).
  destruct (C5_bad_header_resynchronizes CBF_TYPE_EUL false Run.s_stop Hf Hh)
    as (_ & _ & _ & _ & Hrx & _ & Hu & Hr).
  split; [exact Hu|]. split; [exact Hr|].
  rewrite Hrx. vm_compute. reflexivity.
Defined.

(** ** Facts about binary32 comparison, saturation and zeros *)

Lemma SFcompare_antisym (a b : float) :
  SFcompare b a = option_map CompOpp (SFcompare a b).
Proof.
  destruct a as [[]|[]| |[] m e], b as [[]|[]| |[] m' e']; cbn;
    try reflexivity;
    rewrite (Z.compare_antisym e e'); destruct (e ?= e'); cbn;
    try reflexivity;
    pose proof (Pos.compare_cont_antisym m m' Eq) as H; cbn in H;
    rewrite <- H; destruct (Pos.compare_cont Eq m m'); reflexivity.
Qed.

Lemma ltb_antisym (a b : float) : F32.ltb a b = true -> F32.ltb b a = false.
Proof.
  unfold F32.ltb, SFltb. rewrite (SFcompare_antisym a b).
  destruct (SFcompare a b) as [[]|]; cbn; congruence.
Qed.

Lemma ltb_not_eqb (a b : float) : F32.ltb a b = true -> F32.eqb b a = false.
Proof.
  unfold F32.ltb, F32.eqb, SFltb, SFeqb. rewrite (SFcompare_antisym a b).
  destruct (SFcompare a b) as [[]|]; cbn; congruence.
Qed.

Lemma ltb_leb (a b : float) : F32.ltb a b = true -> F32.leb a b = true.
Proof.
  unfold F32.ltb, F32.leb, SFltb, SFleb.
  destruct (SFcompare a b) as [[]|]; congruence.
Qed.

(** For comparable values, "not below" is "at least". *)
Lemma not_ltb_leb (a b : float) :
  F32.is_nan a = false -> F32.is_nan b = false ->
  F32.ltb a b = false -> F32.leb b a = true.
Proof.
  unfold F32.ltb, F32.leb, SFltb, SFleb. rewrite (SFcompare_antisym a b).
  destruct a as [[]|[]| |[] m e], b as [[]|[]| |[] m' e']; cbn;
    try congruence;
    destruct (e ?= e'); cbn; try congruence;
    destruct (Pos.compare_cont Eq m m'); cbn; congruence.
Qed.

Lemma sat_in_range (lo hi v : float) :
  F32.is_nan lo = false -> F32.is_nan hi = false ->
  F32.leb lo lo = true -> F32.leb hi hi = true -> F32.leb lo hi = true ->
  in_range lo hi (sat lo hi v).
Proof.
  intros Hlo Hhi Hll Hhh Hlh. unfold sat, F32.fminf.
  assert (Hr : exists r, (if F32.is_nan v then hi
                          else if F32.is_nan hi then v
                          else if F32.ltb v hi then v else hi) = r
                 /\ F32.is_nan r = false /\ F32.leb r hi = true).
  { rewrite Hhi. destruct (F32.is_nan v) eqn:Hv; [eauto|].
    destruct (F32.ltb v hi) eqn:Hc; eauto using ltb_leb. }
  destruct Hr as (r & -> & Hrn & Hrh).
  unfold F32.fmaxf. rewrite Hrn, Hlo.
  destruct (F32.ltb r lo) eqn:Hc; split; auto using not_ltb_leb.
Qed.

(** A value above the upper bound is mapped to the bound itself. *)
Lemma sat_above (lo hi v : float) :
  F32.is_nan lo = false -> F32.leb lo hi = true ->
  F32.ltb hi v = true -> sat lo hi v = hi.
Proof.
  intros Hlo Hlh Hv. unfold sat, F32.fminf, F32.fmaxf.
  assert (Hvn : F32.is_nan v = false) by (destruct v, hi; done).
  assert (Hhn : F32.is_nan hi = false) by (destruct hi; done).
  rewrite Hvn, Hhn, (ltb_antisym _ _ Hv), Hhn, Hlo.
  destruct (F32.ltb hi lo) eqn:Hc; [|done].
  revert Hlh Hc. unfold F32.ltb, F32.leb, SFltb, SFleb.
  rewrite (SFcompare_antisym lo hi).
  destruct (SFcompare lo hi) as [[]|]; cbn; congruence.
Qed.

(** A value below the lower bound is mapped to the bound itself; the side
    condition holds for the two pairs of bounds of the source. *)
Lemma sat_below (lo hi v : float) :
  F32.is_nan hi = false ->
  F32.ltb v hi = true ->
  F32.ltb v lo = true -> sat lo hi v = lo.
Proof.
  intros Hhn Hvh Hv. unfold sat, F32.fminf, F32.fmaxf.
  assert (Hvn : F32.is_nan v = false) by (destruct v, lo; done).
  assert (Hln : F32.is_nan lo = false) by (destruct v, lo; done).
  by rewrite Hvn, Hhn, Hvh, Hvn, Hln, Hv.
Qed.

Lemma f32_18 : F32.of_Z 18 = S754_finite false 9437184 (-19).
Proof. reflexivity. Qed.

Lemma f32_3_5 : F32.lit 35 10 = S754_finite false 14680064 (-22).
Proof. reflexivity. Qed.

Lemma below_zero_below_18 (v : float) :
  F32.ltb v (F32.of_Z 0) = true -> F32.ltb v (F32.of_Z 18) = true.
Proof.
  rewrite f32_18. change (F32.of_Z 0) with (S754_zero false).
  intros H. destruct v as [[]|[]| |[] m e]; try discriminate H; reflexivity.
Qed.

Lemma below_rate_min_below_rate_max (v : float) :
  F32.ltb v (F32.neg (F32.lit 35 10)) = true ->
  F32.ltb v (F32.lit 35 10) = true.
Proof.
  rewrite f32_3_5.
  intros H. destruct v as [[]|[]| |[] m e]; try discriminate H; reflexivity.
Qed.

(** ** The controller *)

Section ControllerProperties.

Import Lqr.

Context {P : Platform}.

Local Opaque Aideck.aideck_send_cbf_data.

(** Case analysis on the rate gates, the mode tests, the safety-filter
    build and the results of the collaborators. *)
Ltac stages :=
  repeat first
    [ progress cbn
    | match goal with
      | |- context [if ?b then _ else _] => destruct b eqn:?
      | |- context [let '(_, _) := ?e in _] => destruct e as [? ?] eqn:?
      | |- context [match cbf ?s with _ => _ end] => destruct (cbf s) eqn:?
      end ].

Lemma saturate_u_sat (v : float4) :
  saturate_u v =
    mk_float4 (sat (F32.of_Z 0) (F32.of_Z 18) (a0 v))
      (sat (F32.neg (F32.lit 35 10)) (F32.lit 35 10) (a1 v))
      (sat (F32.neg (F32.lit 35 10)) (F32.lit 35 10) (a2 v))
      (sat (F32.neg (F32.lit 35 10)) (F32.lit 35 10) (a3 v)).
Proof. reflexivity. Qed.

(** The stages before the landing check do not touch the flying flag. *)
Lemma flying_lqr_update setpoint state tick (s : lqr) :
  flying (lqr_update setpoint state tick s) = flying s.
Proof.
  unfold lqr_update, lqr_D9, lqr_D6, apply_cbf_eul, apply_cbf_pos.
  stages; reflexivity.
Qed.

Lemma flying_attitude_pid_update state tick (s : lqr) :
  flying (attitude_pid_update state tick s) = flying s.
Proof.
  unfold attitude_pid_update.
  destruct (mode s =? D6LQR); [|done].
  destruct (RATE_DO_EXECUTE ATTITUDE_RATE tick); [|done].
  cbn. destruct (attitudeControllerCorrectAttitudePID _ _ _ _ _ _ _)
    as [? [[? ?] ?]]. reflexivity.
Qed.

Lemma flying_altitude_pid_update setpoint state tick (s : lqr) :
  flying (altitude_pid_update setpoint state tick s) = flying s.
Proof. unfold altitude_pid_update. stages; reflexivity. Qed.

Lemma flying_saturate_log_convert tick (s : lqr) :
  flying (saturate_log_convert tick s) = flying s.
Proof. unfold saturate_log_convert. stages; reflexivity. Qed.

Lemma flying_before_landing_check setpoint state tick (s : lqr) :
  flying (saturate_log_convert tick (before_saturation setpoint state tick s))
  = flying (flying_check setpoint s).
Proof.
  unfold before_saturation.
  by rewrite flying_saturate_log_convert, flying_altitude_pid_update,
    flying_attitude_pid_update, flying_lqr_update.
Qed.

(** The stages after the landing check touch neither the flying flag nor
    the thrust command nor the control vector. *)
Lemma after_landing_check_kept control sensors tick (s : lqr) :
  let s' := snd (power_distribution control (rate_pid_update sensors tick s)) in
  flying s' = flying s /\ actuatorThrust s' = actuatorThrust s
  /\ u s' = u s /\ u_T' s' = u_T' s /\ u_p s' = u_p s /\ u_q s' = u_q s
  /\ u_r s' = u_r s
  /\ ctl_thrust (fst (power_distribution control
                        (rate_pid_update sensors tick s)))
     = actuatorThrust s.
Proof.
  unfold power_distribution, rate_pid_update.
  destruct (RATE_DO_EXECUTE ATTITUDE_RATE tick); cbn;
    destruct (F32.eqb _ _); cbn;
    try destruct LQR_ALT_PID; cbn;
    try destruct (attitudeControllerGetActuatorOutput _) as [[? ?] ?];
    cbn; auto 10.
Qed.

(** The landing check clears the flying flag exactly when the setpoint is
    on the ground. *)
Lemma flying_after_landing_check setpoint state tick (s : lqr) :
  flying (after_landing_check setpoint state tick s)
  = F32.ltb (F32.of_Z 0) (z (sp_position setpoint)).
Proof.
  unfold after_landing_check, landing_check.
  set (s1 := saturate_log_convert tick _).
  assert (H1 : flying s1 = F32.ltb (F32.of_Z 0) (z (sp_position setpoint))).
  { subst s1. rewrite flying_before_landing_check. unfold flying_check.
    destruct (F32.ltb _ _); reflexivity. }
  unfold landing_test.
  destruct (F32.ltb (F32.of_Z 0) (z (sp_position setpoint))) eqn:Hz.
  - rewrite (ltb_not_eqb _ _ Hz), andb_false_r. rewrite H1. cbn. exact H1.
  - destruct (_ && _); cbn; [reflexivity|]. rewrite H1. cbn. exact H1.
Qed.

Lemma thrust_cut_when_not_flying setpoint state tick (s : lqr) :
  flying (after_landing_check setpoint state tick s) = false ->
  actuatorThrust (after_landing_check setpoint state tick s) = F32.of_Z 0.
Proof.
  unfold after_landing_check, landing_check.
  set (s1 := saturate_log_convert tick _).
  destruct (landing_test setpoint s1); cbn; [reflexivity|].
  destruct (flying s1) eqn:Hf; cbn; [congruence|reflexivity].
Qed.

(** C4.  On every invocation of [controllerLqr]: a setpoint with a strictly
    positive z leaves the flying flag true; a setpoint with z equal to zero
    leaves the flying flag false and the thrust command, as stored and as
    emitted, equal to 0.  The second part holds whatever the tracking error
    is: with z equal to zero the first test has already cleared the flag,
    and the landing test can only clear it again.  In particular it holds
    when the landing test succeeds, that is when the landing error is below
    the threshold 0.075 and z is equal to zero. *)
Theorem C4_flying_state_transition control setpoint sensors state tick
  (s : lqr) :
  let r := controllerLqr control setpoint sensors state tick s in
  (F32.ltb (F32.of_Z 0) (z (sp_position setpoint)) = true ->
   flying (snd r) = true)
  /\ (F32.eqb (z (sp_position setpoint)) (F32.of_Z 0) = true ->
      flying (snd r) = false
      /\ actuatorThrust (snd r) = F32.of_Z 0
      /\ ctl_thrust (fst r) = F32.of_Z 0)
  /\ (landing_test setpoint
        (saturate_log_convert tick (before_saturation setpoint state tick s))
      = true ->
      flying (snd r) = false
      /\ actuatorThrust (snd r) = F32.of_Z 0
      /\ ctl_thrust (fst r) = F32.of_Z 0).
Proof.
  cbv zeta. unfold controllerLqr.
  destruct (after_landing_check_kept control sensors tick
              (after_landing_check setpoint state tick s))
    as (Hf & Ht & _ & _ & _ & _ & _ & Hc).
  rewrite Hf, Ht, Hc, flying_after_landing_check.
  split; [done|].
  assert (Hzero : F32.eqb (z (sp_position setpoint)) (F32.of_Z 0) = true ->
                  F32.ltb (F32.of_Z 0) (z (sp_position setpoint)) = false
                  /\ actuatorThrust
                       (after_landing_check setpoint state tick s)
                     = F32.of_Z 0
                  /\ actuatorThrust
                       (after_landing_check setpoint state tick s)
                     = F32.of_Z 0).
  { intros Hz.
    assert (Hg : F32.ltb (F32.of_Z 0) (z (sp_position setpoint)) = false).
    { destruct (F32.ltb _ _) eqn:Hl; [|done].
      apply ltb_not_eqb in Hl. congruence. }
    split; [exact Hg|].
    assert (Ht0 := thrust_cut_when_not_flying setpoint state tick s).
    rewrite flying_after_landing_check in Ht0. auto. }
  split; [exact Hzero|].
  intros Hl. apply Hzero. unfold landing_test in Hl.
  apply andb_true_iff in Hl as [_ Hz]. exact Hz.
Qed.

Lemma clamped_thrust (v : float) :
  clamped (F32.of_Z 0) (F32.of_Z 18) v (sat (F32.of_Z 0) (F32.of_Z 18) v).
Proof.
  split; [by apply sat_in_range|]. split.
  - by apply sat_above.
  - intros H. apply sat_below; [done| |done]. by apply below_zero_below_18.
Qed.

Lemma clamped_rate (v : float) :
  clamped (F32.neg (F32.lit 35 10)) (F32.lit 35 10) v
    (sat (F32.neg (F32.lit 35 10)) (F32.lit 35 10) v).
Proof.
  split; [by apply sat_in_range|]. split.
  - by apply sat_above.
  - intros H. apply sat_below; [done| |done].
    by apply below_rate_min_below_rate_max.
Qed.

Lemma landing_check_keeps_u setpoint (s : lqr) :
  u (landing_check setpoint s) = u s
  /\ u_T' (landing_check setpoint s) = u_T' s
  /\ u_p (landing_check setpoint s) = u_p s
  /\ u_q (landing_check setpoint s) = u_q s
  /\ u_r (landing_check setpoint s) = u_r s.
Proof.
  unfold landing_check.
  destruct (landing_test setpoint s); cbn;
    try match goal with
        | |- context [if ?b then _ else _] => destruct b
        end; cbn; auto.
Qed.

Lemma saturate_log_convert_sets tick (s : lqr) :
  RATE_DO_EXECUTE ATTITUDE_RATE tick = true ->
  u (saturate_log_convert tick s) = saturate_u (u s)
  /\ u_T' (saturate_log_convert tick s) = a0 (saturate_u (u s))
  /\ u_p (saturate_log_convert tick s) = a1 (saturate_u (u s))
  /\ u_q (saturate_log_convert tick s) = a2 (saturate_u (u s))
  /\ u_r (saturate_log_convert tick s) = a3 (saturate_u (u s)).
Proof.
  intros Hrate. unfold saturate_log_convert. rewrite Hrate.
  cbn [u u_T' u_p u_q u_r set_rateDesired set_actuatorThrust set_u
       set_u_T set_u_p set_u_q set_u_r].
  auto.
Qed.

(** C6.  At every attitude-rate tick the control vector [controllerLqr]
    leaves behind is the saturation of the vector that reached the
    saturation stage: the thrust lies in [0, 18] and each rate in
    [-3.5, 3.5]; a value above (below) its range is mapped to exactly the
    upper (lower) bound; the logged values are the saturated ones. *)
Theorem C6_saturation_bounds control setpoint sensors state tick (s : lqr) :
  RATE_DO_EXECUTE ATTITUDE_RATE tick = true ->
  let pre := u (before_saturation setpoint state tick s) in
  let s' := snd (controllerLqr control setpoint sensors state tick s) in
  u s' = saturate_u pre
  /\ clamped (F32.of_Z 0) (F32.of_Z 18) (a0 pre) (a0 (u s'))
  /\ clamped (F32.neg (F32.lit 35 10)) (F32.lit 35 10) (a1 pre) (a1 (u s'))
  /\ clamped (F32.neg (F32.lit 35 10)) (F32.lit 35 10) (a2 pre) (a2 (u s'))
  /\ clamped (F32.neg (F32.lit 35 10)) (F32.lit 35 10) (a3 pre) (a3 (u s'))
  /\ u_T' s' = a0 (u s') /\ u_p s' = a1 (u s') /\ u_q s' = a2 (u s')
  /\ u_r s' = a3 (u s').
Proof.
  intros Hrate. cbv zeta. unfold controllerLqr.
  destruct (after_landing_check_kept control sensors tick
              (after_landing_check setpoint state tick s))
    as (_ & _ & -> & -> & -> & -> & -> & _).
  unfold after_landing_check.
  destruct (landing_check_keeps_u setpoint
              (saturate_log_convert tick
                 (before_saturation setpoint state tick s)))
    as (-> & -> & -> & -> & ->).
  destruct (saturate_log_convert_sets tick
              (before_saturation setpoint state tick s) Hrate)
    as (-> & -> & -> & -> & ->).
  rewrite saturate_u_sat. cbn.
  auto 10 using clamped_thrust, clamped_rate.
Qed.

(** C8.  On an invocation where the flying flag is false after the landing
    check, the emitted command has thrust 0 and roll, pitch and yaw 0; the
    attitude controller is left by [attitudeControllerResetAllPID], and in
    a build with the altitude PID that controller is left by [pidReset]. *)
Theorem C8_not_flying_outputs_zero control setpoint sensors state tick
  (s : lqr) :
  flying (after_landing_check setpoint state tick s) = false ->
  let r := controllerLqr control setpoint sensors state tick s in
  ctl_thrust (fst r) = F32.of_Z 0
  /\ ctl_roll (fst r) = 0 /\ ctl_pitch (fst r) = 0 /\ ctl_yaw (fst r) = 0
  /\ flying (snd r) = false
  /\ att (snd r)
     = attitudeControllerResetAllPID
         (att (rate_pid_update sensors tick
                 (after_landing_check setpoint state tick s)))
  /\ (LQR_ALT_PID = true ->
      pidT (snd r)
      = pidReset (pidT (after_landing_check setpoint state tick s))).
Proof.
  intros Hf. cbv zeta. unfold controllerLqr.
  pose proof (thrust_cut_when_not_flying setpoint state tick s Hf) as Ht.
  set (s1 := after_landing_check setpoint state tick s) in *.
  assert (Ht2 : actuatorThrust (rate_pid_update sensors tick s1) = F32.of_Z 0).
  { unfold rate_pid_update. destruct (RATE_DO_EXECUTE _ _); cbn; exact Ht. }
  assert (Hf2 : flying (rate_pid_update sensors tick s1) = false).
  { unfold rate_pid_update. destruct (RATE_DO_EXECUTE _ _); cbn; exact Hf. }
  assert (Hp2 : pidT (rate_pid_update sensors tick s1) = pidT s1).
  { unfold rate_pid_update. destruct (RATE_DO_EXECUTE _ _); reflexivity. }
  unfold power_distribution. cbn. rewrite Ht2.
  change (F32.eqb (F32.of_Z 0) (F32.of_Z 0)) with true. cbn.
  destruct LQR_ALT_PID; cbn; rewrite ?Hp2;
    repeat split; solve [reflexivity | exact Hf2 | discriminate].
Qed.

Lemma finite_gain_lookup (K : list float) (n : nat) :
  finite_gains K -> F32.is_finite (K !!! n) = true.
Proof.
  intros HK. rewrite list_lookup_total_alt.
  destruct (K !! n) as [k|] eqn:Hk; cbn; [|reflexivity].
  exact (Forall_lookup_1 _ _ _ _ HK Hk).
Qed.

Lemma mul_finite_zero (k e : float) :
  F32.is_finite k = true -> F32.is_zero e = true ->
  F32.is_zero (F32.mul k e) = true.
Proof. destruct k, e; cbn; congruence. Qed.

Lemma add_zero_zero (a b : float) :
  F32.is_zero a = true -> F32.is_zero b = true ->
  F32.is_zero (F32.add a b) = true.
Proof. destruct a as [[]| | |], b as [[]| | |]; cbn; congruence. Qed.

Lemma neg_zero (a : float) :
  F32.is_zero a = true -> F32.is_zero (F32.neg a) = true.
Proof. destruct a; cbn; congruence. Qed.

Create HintDb zeros.

#[local] Hint Resolve mul_finite_zero add_zero_zero neg_zero
  finite_gain_lookup : zeros.

Lemma feedback_D9_zero (K : list float) (e : state_t) (i : nat) :
  finite_gains K -> zero_err_D9 e -> F32.is_zero (feedback_D9 K e i) = true.
Proof.
  intros HK (H1 & H2 & H3 & H4 & H5 & H6 & H7 & H8 & H9).
  unfold feedback_D9, K9. auto 20 with zeros.
Qed.

Lemma feedback_D6_zero (K : list float) (e : state_t) (i : nat) :
  finite_gains K -> zero_err_D6 e -> F32.is_zero (feedback_D6 K e i) = true.
Proof.
  intros HK (H1 & H2 & H3 & H4 & H5 & H6).
  unfold feedback_D6, K6. auto 20 with zeros.
Qed.

(** C7 (amended).  In both modes, when every gain of the mode's matrix is
    a finite number, every component of the tracking error the law
    computes is zero and every nominal term of the setpoint is zero, the
    control vector computed by the law (before any safety-filter round trip)
    is zero on every axis. *)
Theorem C7_zero_error_zero_control setpoint state (s : lqr) :
  (finite_gains (KD9 s) ->
   zero_err_D9 (err_D9 setpoint state) ->
   F32.is_zero (sp_thrust setpoint) = true ->
   F32.is_zero (roll (sp_attitudeRate setpoint)) = true ->
   F32.is_zero (pitch (sp_attitudeRate setpoint)) = true ->
   F32.is_zero (yaw (sp_attitudeRate setpoint)) = true ->
   zero_float4 (u (lqr_D9_law setpoint state s)))
  /\ (finite_gains (KD6 s) ->
      zero_err_D6 (err_D6 setpoint state (err s)) ->
      F32.is_zero (sp_thrust setpoint) = true ->
      F32.is_zero (roll (sp_attitude setpoint)) = true ->
      F32.is_zero (pitch (sp_attitude setpoint)) = true ->
      F32.is_zero (yaw (sp_attitude setpoint)) = true ->
      zero_float4 (u_D6 (lqr_D6_law setpoint state s))).
Proof.
  split; intros HK He HT Hr Hp Hy;
    unfold zero_float4, lqr_D9_law, lqr_D6_law; cbn;
    repeat split; apply add_zero_zero;
    auto using feedback_D9_zero, feedback_D6_zero.
Qed.

(** C10.  For [i < 4] and [j < 9], [update_K_entry] stores the value in
    [KD9[i][j]] and changes nothing else: no other entry of [KD9], and no
    other variable of the controller.  The bounds are needed: with [j = 9]
    the store lands in the next row, and from row 4 on it leaves the
    array. *)
Theorem C10_update_K_entry_frame (s : lqr) (value : float) :
  length (KD9 s) = 36%nat ->
  (forall i j : Z, 0 <= i < 4 -> 0 <= j < 9 ->
     exists s',
       update_K_entry i j value s = Some s'
       /\ K9 (KD9 s') (Z.to_nat i) (Z.to_nat j) = value
       /\ (forall i' j' : nat,
             (i' < 4)%nat -> (j' < 9)%nat ->
             (i', j') <> (Z.to_nat i, Z.to_nat j) ->
             K9 (KD9 s') i' j' = K9 (KD9 s) i' j')
       /\ length (KD9 s') = 36%nat
       /\ KD6 s' = KD6 s /\ mode s' = mode s /\ u s' = u s
       /\ u_D6 s' = u_D6 s
       /\ s' = set_KD9 (KD9 s') s)
  /\ (exists s', update_K_entry 0 9 value s = Some s'
                 /\ K9 (KD9 s') 1 0 = value)
  /\ update_K_entry 4 0 value s = None.
Proof.
  intros Hlen. split; [|split].
  - intros i j Hi Hj. unfold update_K_entry.
    destruct (Z.ltb_spec (9 * i + j) 36); [|lia].
    eexists. split; [reflexivity|]. cbn.
    replace (Z.to_nat (9 * i + j)) with (9 * Z.to_nat i + Z.to_nat j)%nat
      by lia.
    unfold K9. repeat split.
    + apply list_lookup_total_insert_eq. lia.
    + intros i' j' Hi' Hj' Hne. apply list_lookup_total_insert_ne.
      intros Heq. apply Hne. f_equal; lia.
    + by rewrite length_insert.
  - unfold update_K_entry. cbn. eexists. split; [reflexivity|].
    cbn. unfold K9. apply list_lookup_total_insert_eq. lia.
  - reflexivity.
Qed.

End ControllerProperties.

(** *** The controller on the bench *)

Example bench_hover_full_state :
  Lqr.u (Lqr.lqr_D9_law Bench.sp_hover Bench.st_hover Bench.s_init)
  = mk_float4 (S754_finite false 10705962 (-20)) F32.zero F32.zero F32.zero.
Proof. vm_compute. reflexivity. Qed.

Lemma C4_witness :
  Lqr.flying
    (snd (Lqr.controllerLqr Bench.control0 Bench.sp_hover Bench.sensors0
            Bench.st_hover 0 Bench.s_init)) = true
  /\ Lqr.flying
       (snd (Lqr.controllerLqr Bench.control0 Bench.sp_ground Bench.sensors0
               Bench.st_ground 0 Bench.s_init)) = false
  /\ ctl_thrust
       (fst (Lqr.controllerLqr Bench.control0 Bench.sp_ground Bench.sensors0
               Bench.st_ground 0 Bench.s_init)) = F32.of_Z 0.
Proof.
  destruct (C4_flying_state_transition Bench.control0 Bench.sp_hover
              Bench.sensors0 Bench.st_hover 0 Bench.s_init) as (Hup & _).
  destruct (C4_flying_state_transition Bench.control0 Bench.sp_ground
              Bench.sensors0 Bench.st_ground 0 Bench.s_init) as (_ & _ & Hdown).
  split; [apply Hup; vm_compute; reflexivity|].
  destruct Hdown as (Hf & _ & Ht); [vm_compute; reflexivity|].
  split; [exact Hf|exact Ht].
Defined.

Lemma C6_witness :
  a0 (Lqr.u (Lqr.before_saturation Bench.sp_far Bench.st_ground 0 Bench.s_init))
  = S754_finite false 16705454 (-15)
  /\ a3 (Lqr.u (Lqr.before_saturation Bench.sp_far Bench.st_ground 0
                  Bench.s_init))
     = F32.neg (F32.of_Z 10)
  /\ Lqr.u
       (snd (Lqr.controllerLqr Bench.control0 Bench.sp_far Bench.sensors0
               Bench.st_ground 0 Bench.s_init))
     = mk_float4 (F32.of_Z 18) F32.zero F32.zero (F32.neg (F32.lit 35 10)).
Proof.
  assert (Hrate : RATE_DO_EXECUTE (Platform := Bench.platform)
                    (ATTITUDE_RATE (Platform := Bench.platform)) 0 = true)
    by (vm_compute; reflexivity).
  destruct (C6_saturation_bounds Bench.control0 Bench.sp_far Bench.sensors0
              Bench.st_ground 0 Bench.s_init Hrate) as (Hu & _).
  split; [vm_compute; reflexivity|].
  split; [vm_compute; reflexivity|].
  rewrite Hu. vm_compute. reflexivity.
Defined.

Lemma C7_witness :
  zero_float4 (Lqr.u (Lqr.lqr_D9_law Bench.sp_ground Bench.st_ground
                        Bench.s_init))
  /\ zero_float4 (Lqr.u_D6 (Lqr.lqr_D6_law Bench.sp_ground Bench.st_ground
                              Bench.s_init)).
Proof.
  destruct (C7_zero_error_zero_control Bench.sp_ground Bench.st_ground
              Bench.s_init) as (H9 & H6).
  split.
  - apply H9; try (vm_compute; reflexivity).
    + vm_compute. repeat constructor.
    + vm_compute. repeat split.
  - apply H6; try (vm_compute; reflexivity).
    + vm_compute. repeat constructor.
    + vm_compute. repeat split.
Defined.

(** C7 as stated fails when a gain is not a finite number.  After
    [update_K_entry(0, 0, INFINITY)] on the initialised controller, with
    every error component and every nominal term zero, the thrust component
    computed by the full-state law is a NaN. *)
Lemma C7_counterexample :
  Lqr.update_K_entry 0 0 (S754_infinity false) Bench.s_init = Some Bench.s_inf
  /\ zero_err_D9 (Lqr.err_D9 Bench.sp_ground Bench.st_ground)
  /\ F32.is_zero (sp_thrust Bench.sp_ground) = true
  /\ F32.is_zero (roll (sp_attitudeRate Bench.sp_ground)) = true
  /\ F32.is_zero (pitch (sp_attitudeRate Bench.sp_ground)) = true
  /\ F32.is_zero (yaw (sp_attitudeRate Bench.sp_ground)) = true
  /\ a0 (Lqr.u (Lqr.lqr_D9_law Bench.sp_ground Bench.st_ground Bench.s_inf))
     = S754_nan
  /\ F32.is_zero
       (a0 (Lqr.u (Lqr.lqr_D9_law Bench.sp_ground Bench.st_ground
                     Bench.s_inf))) = false.
Proof. split; [reflexivity|]. vm_compute. repeat split. Qed.

Lemma C8_witness :
  ctl_thrust
    (fst (Lqr.controllerLqr Bench.control0 Bench.sp_ground Bench.sensors0
            Bench.st_ground 0 Bench.s_init)) = F32.of_Z 0
  /\ ctl_roll
       (fst (Lqr.controllerLqr Bench.control0 Bench.sp_ground Bench.sensors0
               Bench.st_ground 0 Bench.s_init)) = 0
  /\ Lqr.att
       (snd (Lqr.controllerLqr Bench.control0 Bench.sp_ground Bench.sensors0
               Bench.st_ground 0 Bench.s_init))
     = (0, 0, 0).
Proof.
  assert (Hf : Lqr.flying
                 (Lqr.after_landing_check Bench.sp_ground Bench.st_ground 0
                    Bench.s_init) = false) by (vm_compute; reflexivity).
  destruct (C8_not_flying_outputs_zero Bench.control0 Bench.sp_ground
              Bench.sensors0 Bench.st_ground 0 Bench.s_init Hf)
    as (Ht & Hr & _ & _ & _ & Ha & _).
  split; [exact Ht|]. split; [exact Hr|].
  rewrite Ha. reflexivity.
Defined.

Lemma C10_witness :
  exists s',
    Lqr.update_K_entry 2 4 (F32.of_Z 7) Bench.s_init = Some s'
    /\ Lqr.K9 (Lqr.KD9 s') 2 4 = F32.of_Z 7
    /\ Lqr.K9 (Lqr.KD9 s') 0 2 = F32.of_Z 4
    /\ Lqr.KD6 s' = Lqr.KD6 Bench.s_init.
Proof.
  assert (Hlen : length (Lqr.KD9 Bench.s_init) = 36%nat)
    by (vm_compute; reflexivity).
  destruct (C10_update_K_entry_frame Bench.s_init (F32.of_Z 7) Hlen)
    as (Hin & _).
  destruct (Hin 2 4) as (s' & Hs & Hv & Hframe & _ & H6 & _); [lia..|].
  exists s'. split; [exact Hs|]. split; [exact Hv|]. split; [|exact H6].
  rewrite (Hframe 0%nat 2%nat); [vm_compute; reflexivity|lia|lia|].
  intros Heq. discriminate Heq.
Defined.

(** ** The fixed-point codec *)

(** *** Rounding in [SpecFloat] *)

Lemma shr_inv_init (M : Z) :
  0 <= M -> shr_inv M 0 (Build_shr_record M false false).
Proof.
  intros HM. split; [exact HM|]. exists 0.
  change (2 ^ (0 + 1)) with 2. change (2 ^ 0) with 1.
  cbn [shr_m shr_r shr_s Z.b2z]. repeat split; lia.
Qed.

Lemma shr_1_inv (M j : Z) (mrs : shr_record) :
  0 <= j -> shr_inv M j mrs -> shr_inv M (j + 1) (shr_1 mrs).
Proof.
  intros Hj [Hm (l & Hl & HM & Hs)].
  destruct mrs as [m r s]. cbn [shr_m shr_r shr_s] in *.
  assert (Hp : 2 ^ (j + 1) = 2 * 2 ^ j)
    by (rewrite Z.pow_add_r by lia; lia).
  assert (Hp2 : 2 ^ (j + 1 + 1) = 4 * 2 ^ j)
    by (rewrite !Z.pow_add_r by lia; lia).
  assert (Hpos : 0 < 2 ^ j) by (apply Z.pow_pos_nonneg; lia).
  assert (Hs' : orb r s = negb (Z.b2z r * 2 ^ j + l =? 0)).
  { subst s. destruct r; cbn [Z.b2z orb].
    - symmetry. apply negb_true_iff, Z.eqb_neq. lia.
    - reflexivity. }
  unfold shr_inv, shr_1.
  destruct m as [|[p|p|]|p]; try lia; cbn [shr_m shr_r shr_s];
    (split; [lia|]); exists (Z.b2z r * 2 ^ j + l);
    rewrite Hp, Hp2; cbn [Z.b2z];
    (split; [destruct r; cbn [Z.b2z]; lia|]);
    (split; [|exact Hs']);
    rewrite Hp in HM;
    try pose proof (Pos2Z.inj_xI p); try pose proof (Pos2Z.inj_xO p); lia.
Qed.

Lemma iter_pos_shr_inv (p : positive) :
  forall (M j : Z) (mrs : shr_record),
    0 <= j -> shr_inv M j mrs ->
    shr_inv M (j + Zpos p) (SpecFloat.iter_pos shr_1 p mrs).
Proof.
  induction p as [p IH|p IH|]; intros M j mrs Hj Hinv; cbn [SpecFloat.iter_pos].
  - replace (j + Zpos p~1) with (((j + 1) + Zpos p) + Zpos p) by lia.
    apply IH; [lia|]. apply IH; [lia|]. by apply shr_1_inv.
  - replace (j + Zpos p~0) with ((j + Zpos p) + Zpos p) by lia.
    apply IH; [lia|]. by apply IH.
  - by apply shr_1_inv.
Qed.

(** What rounding to nearest even guarantees about the rounded quotient
    [m1] of [M] by [2^p]: it is monotone against every multiple [J*2^p],
    and a value at least half a unit below an even [J] already reaches
    [J]. *)
Lemma rounded_bounds (M p : Z) (mrs : shr_record) :
  0 <= p -> shr_inv M p mrs ->
  shr_m mrs <= rounded mrs <= shr_m mrs + 1
  /\ (forall J, M <= J * 2 ^ p -> rounded mrs <= J)
  /\ (forall J, J * 2 ^ p <= M -> J <= rounded mrs)
  /\ (forall J, Z.even J = true -> (2 * J - 1) * 2 ^ p <= 2 * M ->
                J <= rounded mrs).
Proof.
  intros Hp [Hm (l & Hl & HM & Hs)].
  destruct mrs as [m r s]. cbn [shr_m shr_r shr_s] in *.
  assert (HP : 0 < 2 ^ p) by (apply Z.pow_pos_nonneg; lia).
  assert (HP2 : 2 ^ (p + 1) = 2 * 2 ^ p)
    by (rewrite Z.pow_add_r by lia; lia).
  rewrite HP2 in HM. set (P := 2 ^ p) in *. clearbody P.
  unfold rounded, loc_of_shr_record, round_nearest_even.
  cbn [shr_m shr_r shr_s].
  assert (Hrange :
            m <= (match (if r then if s then loc_Inexact Gt
                                   else loc_Inexact Eq
                         else if s then loc_Inexact Lt else loc_Exact)
                  with
                  | loc_Exact => m
                  | loc_Inexact Lt => m
                  | loc_Inexact Eq => if Z.even m then m else m + 1
                  | loc_Inexact Gt => m + 1
                  end) <= m + 1).
  { destruct r, s; cbn; try destruct (Z.even m); lia. }
  destruct r, s; cbn [Z.b2z] in *; cbn -[Z.mul Z.add Z.even] in *.
  all: split; [exact Hrange|].
  all: split; [intros J HJ|split; [intros J HJ|intros J Hev HJ]].
  all: try (destruct (Z.even m) eqn:Hem).
  all: try (symmetry in Hs; apply negb_false_iff, Z.eqb_eq in Hs).
  all: try (symmetry in Hs; apply negb_true_iff, Z.eqb_neq in Hs).
  all: try nia.
  all: try (assert (J <= m + 1) by nia;
            assert (J <> m + 1)
              by (intros ->; rewrite Z.even_add in Hev;
                  rewrite Hem in Hev; discriminate);
            lia).
  all: idtac.
Qed.

Lemma digits2_pos_bounds (p : positive) :
  2 ^ (Zpos (digits2_pos p) - 1) <= Zpos p < 2 ^ Zpos (digits2_pos p).
Proof.
  induction p as [p IH|p IH|]; cbn [digits2_pos].
  - rewrite Pos2Z.inj_succ, (Pos2Z.inj_xI p).
    replace (Z.succ (Zpos (digits2_pos p)) - 1)
      with (Z.succ (Zpos (digits2_pos p) - 1)) by lia.
    rewrite !Z.pow_succ_r by lia. lia.
  - rewrite Pos2Z.inj_succ, (Pos2Z.inj_xO p).
    replace (Z.succ (Zpos (digits2_pos p)) - 1)
      with (Z.succ (Zpos (digits2_pos p) - 1)) by lia.
    rewrite !Z.pow_succ_r by lia. lia.
  - cbn. lia.
Qed.

Lemma fexp_ge (e : Z) : e - 24 <= fexp 24 128 e /\ -149 <= fexp 24 128 e.
Proof. unfold fexp, emin. lia. Qed.

Lemma fexp_eq (e : Z) : fexp 24 128 e = Z.max (e - 24) (-149).
Proof. reflexivity. Qed.

(** The result of rounding the exact value [M * 2^E]: the mantissa is
    shifted to the exponent [t], rounded, and renormalised when the
    rounding carried into the 25th bit. *)
Lemma binary_round_aux_exact (sx : bool) (M : positive) (E : Z) :
  let t := Z.max E (fexp 24 128 (Zpos (digits2_pos M) + E)) in
  t <= 103 ->
  exists mrs,
    shr_inv (Zpos M) (t - E) mrs
    /\ ((rounded mrs = 0
         /\ binary_round_aux 24 128 sx (Zpos M) E loc_Exact = S754_zero sx)
        \/ exists m e,
            binary_round_aux 24 128 sx (Zpos M) E loc_Exact
            = S754_finite sx m e
            /\ t <= e /\ Zpos m * 2 ^ (e - t) = rounded mrs).
Proof.
  intros t Ht.
  pose proof (digits2_pos_bounds M) as HdM.
  set (d := Zpos (digits2_pos M)) in *.
  pose proof (fexp_ge (d + E)) as [Hf1 Hf2].
  unfold binary_round_aux, shr_fexp.
  cbn [Zdigits2 shr_record_of_loc].
  fold d.
  (* first shift *)
  assert (H1 : exists mrs,
             shr (Build_shr_record (Zpos M) false false) E
               (fexp 24 128 (d + E) - E) = (mrs, t)
             /\ shr_inv (Zpos M) (t - E) mrs /\ shr_m mrs < 2 ^ 24).
  { unfold shr. destruct (fexp 24 128 (d + E) - E) as [|p|p] eqn:Hk.
    - exists (Build_shr_record (Zpos M) false false).
      replace t with E by lia. split; [reflexivity|].
      replace (E - E) with 0 by lia. split; [apply shr_inv_init; lia|].
      cbn [shr_m]. assert (d <= 24) by lia.
      assert (2 ^ d <= 2 ^ 24) by (apply Z.pow_le_mono_r; lia). lia.
    - exists (SpecFloat.iter_pos shr_1 p (Build_shr_record (Zpos M) false false)).
      assert (Hte : t = E + Zpos p) by lia.
      rewrite Hte. split; [reflexivity|].
      replace (E + Zpos p - E) with (0 + Zpos p) by lia.
      assert (Hinv := iter_pos_shr_inv p (Zpos M) 0 _ (Z.le_refl 0)
                        (shr_inv_init (Zpos M) (Pos2Z.is_nonneg M))).
      split; [exact Hinv|].
      destruct Hinv as [Hm (l & Hl & HM & _)].
      set (m := shr_m _) in *. clearbody m.
      replace (0 + Zpos p) with (Zpos p) in * by lia.
      assert (HP : 0 < 2 ^ Zpos p) by (apply Z.pow_pos_nonneg; lia).
      rewrite Z.pow_add_r in HM by lia. change (2 ^ 1) with 2 in HM.
      assert (Hd : d <= Zpos p + 24) by lia.
      assert (2 ^ d <= 2 ^ (Zpos p + 24)) by (apply Z.pow_le_mono_r; lia).
      rewrite Z.pow_add_r in H by lia.
      assert (0 <= Z.b2z (shr_r
                  (SpecFloat.iter_pos shr_1 p
                     (Build_shr_record (Zpos M) false false))))
        by (destruct (shr_r _); cbn; lia).
      nia.
    - exists (Build_shr_record (Zpos M) false false).
      replace t with E by lia. split; [reflexivity|].
      replace (E - E) with 0 by lia. split; [apply shr_inv_init; lia|].
      cbn [shr_m]. assert (d <= 24) by lia.
      assert (2 ^ d <= 2 ^ 24) by (apply Z.pow_le_mono_r; lia). lia. }
  destruct H1 as (mrs & -> & Hinv & Hlt).
  exists mrs. split; [exact Hinv|].
  assert (HtE : 0 <= t - E) by lia.
  destruct (rounded_bounds _ _ _ HtE Hinv) as ((Hr1 & Hr2) & _).
  fold (rounded mrs).
  assert (Hm0 : 0 <= shr_m mrs) by (destruct Hinv; assumption).
  set (m1 := rounded mrs) in *. clearbody m1.
  assert (Ht149 : -149 <= t) by lia.
  destruct m1 as [|q1|q1]; [| |lia].
  - (* the rounded mantissa is zero *)
    left. split; [reflexivity|].
    cbn [Zdigits2 shr_record_of_loc]. unfold shr.
    rewrite fexp_eq.
    destruct (Z.max (0 + t - 24) (-149) - t) eqn:Hk; try lia; reflexivity.
  - right.
    pose proof (digits2_pos_bounds q1) as Hdq.
    cbn [Zdigits2 shr_record_of_loc]. unfold shr. rewrite fexp_eq.
    set (dq := Zpos (digits2_pos q1)) in *.
    destruct (Z_le_gt_dec dq 24) as [Hle|Hgt].
    + exists q1, t.
      destruct (Z.max (dq + t - 24) (-149) - t) eqn:Hk; try lia;
        cbn [shr_m];
        (destruct (Z.leb_spec t (128 - 24)); [|lia]);
        (split; [reflexivity|]); (split; [lia|]);
        rewrite Z.sub_diag; lia.
    + (* carry into the 25th bit: the mantissa is exactly 2^24 *)
      assert (Hq : Zpos q1 = 2 ^ 24).
      { assert (2 ^ 24 <= 2 ^ (dq - 1)) by (apply Z.pow_le_mono_r; lia).
        lia. }
      assert (Hdq25 : dq = 25).
      { destruct (Z_le_gt_dec dq 25); [lia|].
        assert (2 ^ 25 <= 2 ^ (dq - 1)) by (apply Z.pow_le_mono_r; lia).
        change (2 ^ 25) with 33554432 in *. change (2 ^ 24) with 16777216 in *.
        lia. }
      exists 8388608%positive, (t + 1).
      assert (Hk : Z.max (dq + t - 24) (-149) - t = 1) by lia.
      rewrite Hk. cbn [SpecFloat.iter_pos].
      change (2 ^ 24) with 16777216 in Hq. injection Hq as ->.
      cbn [shr_1 shr_m].
      destruct (Z.leb_spec (t + 1) (128 - 24)); [|lia].
      split; [reflexivity|]. split; [lia|].
      replace (t + 1 - t) with 1 by lia. reflexivity.
Qed.

(** The integral part of a non-negative float against its mantissa at a
    finer exponent. *)
Lemma trunc_scaled (sx : bool) (m : positive) (e t m1 : Z) :
  t <= e -> t <= 0 -> Zpos m * 2 ^ (e - t) = m1 ->
  exists n, F32.trunc (S754_finite sx m e) = Some (if sx then - n else n)
            /\ 0 <= n /\ n * 2 ^ (- t) <= m1 < (n + 1) * 2 ^ (- t).
Proof.
  intros Hte Ht0 Hm1. unfold F32.trunc.
  destruct e as [|k|k].
  - exists (Zpos m). split; [reflexivity|]. split; [lia|].
    replace (0 - t) with (- t) in Hm1 by lia.
    assert (0 < 2 ^ (- t)) by (apply Z.pow_pos_nonneg; lia). nia.
  - exists (Z.shiftl (Zpos m) (Zpos k)). split; [reflexivity|].
    rewrite Z.shiftl_mul_pow2 by lia.
    assert (0 < 2 ^ Zpos k) by (apply Z.pow_pos_nonneg; lia).
    assert (0 < 2 ^ (- t)) by (apply Z.pow_pos_nonneg; lia).
    replace (Zpos k - t) with (Zpos k + - t) in Hm1 by lia.
    rewrite Z.pow_add_r in Hm1 by lia.
    split; [nia|]. nia.
  - exists (Z.shiftr (Zpos m) (Zpos k)). split; [reflexivity|].
    rewrite Z.shiftr_div_pow2 by lia.
    assert (HK : 0 < 2 ^ Zpos k) by (apply Z.pow_pos_nonneg; lia).
    assert (HD : 0 < 2 ^ (Zneg k - t)) by (apply Z.pow_pos_nonneg; lia).
    assert (HT : 2 ^ (- t) = 2 ^ Zpos k * 2 ^ (Zneg k - t)).
    { rewrite <- Z.pow_add_r by lia. f_equal. lia. }
    rewrite HT.
    pose proof (Z.div_mod (Zpos m) (2 ^ Zpos k) ltac:(lia)) as Hdm.
    pose proof (Z.mod_pos_bound (Zpos m) (2 ^ Zpos k) HK) as Hmod.
    split; [apply Z.div_pos; lia|].
    set (q := Zpos m / 2 ^ Zpos k) in *.
    set (rr := Zpos m mod 2 ^ Zpos k) in *.
    nia.
Qed.

Lemma f32_1000 : F32.of_Z 1000 = S754_finite false 16384000 (-14).
Proof. reflexivity. Qed.

Lemma pow2_lt_inv (a b : Z) : 0 <= b -> 2 ^ a < 2 ^ b -> a < b.
Proof. intros Hb H. apply (Z.pow_lt_mono_r_iff 2); lia. Qed.

(** The magnitude [n] of the integral part of the rounded product
    [x * 1000.0f], for a float [x = (-1)^sx * mx * 2^ex] of magnitude at
    most 32.767, against the exact product; all values are in units of
    [2^-200]. *)
Lemma mul1000_trunc_bounds (sx : bool) (mx : positive) (ex : Z) :
  -149 <= ex ->
  1000 * (Zpos mx * 2 ^ (ex + 200)) <= 32767 * 2 ^ 200 ->
  exists n,
    F32.trunc (F32.mul (S754_finite sx mx ex) (F32.of_Z 1000))
    = Some (if sx then - n else n)
    /\ F32.to_int16 (F32.mul (S754_finite sx mx ex) (F32.of_Z 1000))
       = (if sx then - n else n)
    /\ 0 <= n <= 32767
    /\ (2 * n - 1) * 2 ^ 199 < 1000 * (Zpos mx * 2 ^ (ex + 200))
    /\ 1000 * (Zpos mx * 2 ^ (ex + 200)) < (n + 1) * 2 ^ 200
    /\ (forall g, 0 <= g -> 2 ^ g <= n ->
          n * 2 ^ 200 <= 1000 * (Zpos mx * 2 ^ (ex + 200)) ->
          1000 * (Zpos mx * 2 ^ (ex + 200))
          < (n + 1) * 2 ^ 200 - 2 ^ (g + 176)).
Proof.
  intros Hex Hrange.
  set (zx := Zpos mx * 2 ^ (ex + 200)) in *.
  rewrite f32_1000. unfold F32.mul, F32.prec, F32.emax, SFmul.
  rewrite xorb_false_r.
  set (M := (mx * 16384000)%positive).
  set (E := ex + -14).
  assert (Ha : 0 <= E + 200) by lia.
  assert (HMU : Zpos M * 2 ^ (E + 200) = 1000 * zx).
  { subst M E zx. rewrite Pos2Z.inj_mul.
    replace (ex + 200) with (14 + (ex + -14 + 200)) by lia.
    rewrite (Z.pow_add_r 2 14) by lia. change (2 ^ 14) with 16384. lia. }
  pose proof (digits2_pos_bounds M) as [Hd1 Hd2].
  set (d := Zpos (digits2_pos M)) in *.
  assert (HU : 0 < 2 ^ (E + 200)) by (apply Z.pow_pos_nonneg; lia).
  assert (H215 : 32767 * 2 ^ 200 < 2 ^ 215).
  { replace 215 with (15 + 200) by lia. rewrite Z.pow_add_r by lia.
    change (2 ^ 15) with 32768.
    assert (0 < 2 ^ 200) by (apply Z.pow_pos_nonneg; lia). lia. }
  assert (HdE : d + E <= 15).
  { assert (2 ^ (d - 1 + (E + 200)) < 2 ^ 215).
    { rewrite Z.pow_add_r by lia. nia. }
    apply pow2_lt_inv in H; lia. }
  assert (HE : E <= -9).
  { assert (HM23 : 2 ^ 23 <= Zpos M).
    { subst M. rewrite Pos2Z.inj_mul. change (2 ^ 23) with 8388608. lia. }
    assert (2 ^ (23 + (E + 200)) < 2 ^ 215).
    { rewrite Z.pow_add_r by lia. nia. }
    apply pow2_lt_inv in H; lia. }
  pose proof (fexp_ge (d + E)) as [Hf1 Hf2].
  pose proof (fexp_eq (d + E)) as Hfe.
  set (t := Z.max E (fexp 24 128 (d + E))).
  assert (Ht9 : t <= -9) by lia.
  assert (Ht149 : -149 <= t) by lia.
  destruct (binary_round_aux_exact sx M E ltac:(fold d; fold t; lia))
    as (mrs & Hinv & Hres).
  fold d in Hinv, Hres. fold t in Hinv, Hres.
  assert (Hp : 0 <= t - E) by lia.
  destruct (rounded_bounds _ _ _ Hp Hinv) as (_ & HL3 & HL1c & HL1).
  set (m1 := rounded mrs) in *. clearbody m1.
  (* the three scales: P T U = 2^200 *)
  assert (HP : 0 < 2 ^ (t - E)) by (apply Z.pow_pos_nonneg; lia).
  assert (HT : 0 < 2 ^ (- t)) by (apply Z.pow_pos_nonneg; lia).
  assert (HPTU : 2 ^ (- t) * 2 ^ (t - E) * 2 ^ (E + 200) = 2 ^ 200).
  { rewrite <- !Z.pow_add_r by lia. f_equal. lia. }
  assert (HPU : 2 ^ (t - E) * 2 ^ (E + 200) = 2 ^ (t + 200)).
  { rewrite <- !Z.pow_add_r by lia. f_equal. lia. }
  assert (HPU199 : 2 ^ (t + 200) <= 2 ^ 199)
    by (apply Z.pow_le_mono_r; lia).
  assert (H200 : 2 ^ 200 = 2 * 2 ^ 199)
    by (change 200 with (1 + 199); rewrite Z.pow_add_r by lia; lia).
  assert (HTeven : forall k, Z.even (k * 2 ^ (- t)) = true).
  { intros k. replace (- t) with (1 + (- t - 1)) by lia.
    rewrite Z.pow_add_r by lia. change (2 ^ 1) with 2.
    rewrite Z.even_mul, (Z.even_mul 2). cbn. apply orb_true_r. }
  set (P := 2 ^ (t - E)) in *. set (T := 2 ^ (- t)) in *.
  set (U := 2 ^ (E + 200)) in *.
  set (S200 := 2 ^ 200) in *.
  assert (Hzpos : 0 < zx).
  { subst zx. apply Z.mul_pos_pos; [lia|]. apply Z.pow_pos_nonneg; lia. }
  destruct Hres as [[Hm0 ->]|(m & e & -> & Hte & Hm1)].
  - (* the product rounds to zero *)
    exists 0. split; [by destruct sx|]. split; [by destruct sx|].
    split; [lia|].
    assert (Hlt : Zpos M < T * P).
    { destruct (Z_lt_ge_dec (Zpos M) (T * P)) as [?|Hge]; [assumption|].
      specialize (HL1c T ltac:(lia)). lia. }
    split; [nia|]. split; [nia|].
    intros g Hg Hgn. assert (0 < 2 ^ g) by (apply Z.pow_pos_nonneg; lia).
    lia.
  - destruct (trunc_scaled sx m e t m1 Hte ltac:(lia) Hm1)
      as (n & Htr & Hn0 & HnT).
    fold T in HnT.
    assert (Hn : n <= 32767).
    { assert (Zpos M <= 32767 * T * P) by nia.
      specialize (HL3 (32767 * T) ltac:(lia)). nia. }
    exists n. split; [exact Htr|]. split.
    { unfold F32.to_int16, F32.to_int32. rewrite Htr.
      unfold F32.wrap16.
      destruct sx; rewrite Z.max_r, Z.min_r by lia;
        rewrite Z.mod_small by lia; lia. }
    split; [lia|].
    assert (Hlow : (n * T - 1) * P < Zpos M).
    { destruct (Z_lt_ge_dec ((n * T - 1) * P) (Zpos M)) as [?|Hge];
        [assumption|].
      specialize (HL3 (n * T - 1) ltac:(lia)). lia. }
    assert (Hup : Zpos M < (n + 1) * T * P).
    { destruct (Z_lt_ge_dec (Zpos M) ((n + 1) * T * P)) as [?|Hge];
        [assumption|].
      specialize (HL1c ((n + 1) * T) ltac:(lia)). lia. }
    assert (Hsharp : 2 * Zpos M < (2 * ((n + 1) * T) - 1) * P).
    { destruct (Z_lt_ge_dec (2 * Zpos M) ((2 * ((n + 1) * T) - 1) * P))
        as [?|Hge]; [assumption|].
      specialize (HL1 ((n + 1) * T) (HTeven (n + 1)) ltac:(lia)). lia. }
    split; [nia|]. split; [nia|].
    intros g Hg Hgn Hvn.
    assert (Hgd : g + 200 < d + (E + 200)).
    { apply pow2_lt_inv; [lia|].
      rewrite (Z.pow_add_r 2 d) by lia. rewrite (Z.pow_add_r 2 g) by lia.
      fold U. fold S200. nia. }
    assert (Htg : g - 23 <= t) by lia.
    assert (HPUg : 2 ^ (g + 177) <= 2 ^ (t + 200))
      by (apply Z.pow_le_mono_r; lia).
    assert (Hg177 : 2 ^ (g + 177) = 2 * 2 ^ (g + 176)).
    { replace (g + 177) with (1 + (g + 176)) by lia.
      rewrite Z.pow_add_r by lia. lia. }
    nia.
Qed.

(** *** The integer-by-integer check is sound *)

Lemma all_ok_sound (k : nat) :
  forall a n, all_ok k a = true -> a <= n < a + Z.of_nat k ->
              roundtrip_ok n = true.
Proof.
  induction k as [|k IH]; intros a n Hall Hn; [lia|].
  cbn [all_ok] in Hall. apply andb_true_iff in Hall as [H1 H2].
  destruct (Z.eq_dec n a) as [->|Hne]; [exact H1|].
  apply (IH (a + 1)); [exact H2|lia].
Qed.

(** A valid float at least [2^(elo+23)] has an exponent at least [elo]. *)
Lemma valid_exponent_ge (mx : positive) (ex elo : Z) :
  bounded 24 128 mx ex = true ->
  -200 <= elo ->
  2 ^ (elo + 223) <= Zpos mx * 2 ^ (ex + 200) ->
  -149 <= ex /\ elo <= ex.
Proof.
  intros Hb Helo Hge.
  unfold bounded, canonical_mantissa in Hb.
  apply andb_true_iff in Hb as [Hc _]. apply Z.eqb_eq in Hc.
  pose proof (fexp_eq (Zpos (digits2_pos mx) + ex)) as Hfe.
  pose proof (digits2_pos_bounds mx) as [_ Hd].
  set (d := Zpos (digits2_pos mx)) in *.
  assert (Hex : -149 <= ex) by lia. split; [exact Hex|].
  assert (H : 2 ^ (elo + 223) < 2 ^ (d + (ex + 200))).
  { rewrite (Z.pow_add_r 2 d) by lia.
    assert (0 < 2 ^ (ex + 200)) by (apply Z.pow_pos_nonneg; lia). nia. }
  apply pow2_lt_inv in H; lia.
Qed.

Lemma roundtrip_ok_sound (n : Z) (mx : positive) (ex : Z) :
  1 <= n <= 32767 -> roundtrip_ok n = true ->
  bounded 24 128 mx ex = true ->
  (2 * n - 1) * 2 ^ 199 < 1000 * (Zpos mx * 2 ^ (ex + 200)) ->
  1000 * (Zpos mx * 2 ^ (ex + 200)) < (n + 1) * 2 ^ 200 ->
  (forall g, 0 <= g -> 2 ^ g <= n ->
     n * 2 ^ 200 <= 1000 * (Zpos mx * 2 ^ (ex + 200)) ->
     1000 * (Zpos mx * 2 ^ (ex + 200)) < (n + 1) * 2 ^ 200 - 2 ^ (g + 176)) ->
  exists zd,
    F32.scaled 40 (spec_decode_value n) = Some zd
    /\ 1000 * Z.abs (zd * 2 ^ 160 - Zpos mx * 2 ^ (ex + 200)) <= 2 ^ 200.
Proof.
  intros Hn Hok Hb Hlow Hup Hsharp.
  set (zx := Zpos mx * 2 ^ (ex + 200)) in *.
  unfold roundtrip_ok in Hok.
  destruct (F32.scaled 40 (spec_decode_value n)) as [zd|]; [|discriminate].
  exists zd. split; [reflexivity|].
  cbv zeta in Hok.
  set (g := Z.log2 n) in *.
  set (elo := Z.log2 (Z.shiftl n 40 / 1000) - 63) in *.
  repeat (apply andb_true_iff in Hok as [Hok ?]).
  repeat match goal with
         | H : (_ <=? _) = true |- _ => apply Z.leb_le in H
         end.
  rename Hok into Helo.
  assert (Hg : 0 <= g) by apply Z.log2_nonneg.
  assert (Hgn : 2 ^ g <= n) by (apply Z.log2_spec; lia).
  rewrite !Z.shiftl_mul_pow2 in * by lia.
  rewrite !Z.mul_1_l in *.
  change 1099511627776 with (2 ^ 40) in *.
  change 549755813888 with (2 ^ 39) in *.
  assert (H200 : 2 ^ 200 = 2 ^ 40 * 2 ^ 160) by reflexivity.
  assert (H199 : 2 ^ 199 = 2 ^ 39 * 2 ^ 160) by reflexivity.
  assert (H160 : 0 < 2 ^ 160) by reflexivity.
  assert (H40 : 2 ^ 40 = 2 * 2 ^ 39) by reflexivity.
  destruct (Z_le_gt_dec (n * 2 ^ 200) (1000 * zx)) as [Hvn|Hvn].
  - (* the exact product is at least n *)
    specialize (Hsharp g Hg Hgn Hvn).
    assert (Hg176 : 2 ^ (g + 176) = 2 ^ (g + 16) * 2 ^ 160).
    { rewrite <- Z.pow_add_r by lia. f_equal. lia. }
    assert (He223 : 2 ^ (elo + 223) = 2 ^ (elo + 63) * 2 ^ 160).
    { rewrite <- Z.pow_add_r by lia. f_equal. lia. }
    assert (Hzx : 2 ^ (elo + 223) <= zx) by nia.
    destruct (valid_exponent_ge mx ex elo Hb ltac:(lia) Hzx) as [_ Hexlo].
    assert (Hgrid : 2 ^ (ex + 200) = 2 ^ (ex - elo) * (2 ^ (elo + 40) * 2 ^ 160)).
    { rewrite <- !Z.pow_add_r by lia. f_equal. lia. }
    set (grid := 2 ^ (elo + 40)) in *.
    assert (Hgridpos : 0 < grid) by (apply Z.pow_pos_nonneg; lia).
    set (A := Zpos mx * 2 ^ (ex - elo)).
    assert (HzA : zx = A * grid * 2 ^ 160) by (subst zx A; rewrite Hgrid; ring).
    set (top := (n + 1) * 2 ^ 40 - 2 ^ (g + 16) - 1) in *.
    assert (HA : 1000 * grid * A <= top) by (subst top; nia).
    assert (HAmax : A <= top / (1000 * grid)).
    { apply Z.div_le_lower_bound; lia. }
    set (amax := top / (1000 * grid)) in *.
    assert (A * grid <= amax * grid)
      by (apply Z.mul_le_mono_nonneg_r; lia).
    apply Z.abs_le. nia.
  - apply Z.abs_le. nia.
Qed.

(** *** Signs and rational values *)

Lemma binary_round_aux_sign (sx : bool) (m e : Z) (l : location) :
  binary_round_aux 24 128 sx m e l
  = if sx then SFopp (binary_round_aux 24 128 false m e l)
    else binary_round_aux 24 128 false m e l.
Proof.
  destruct sx; [|reflexivity]. unfold binary_round_aux.
  destruct (shr_fexp 24 128 m e l) as [mrs' e'].
  destruct (shr_fexp 24 128 _ e' loc_Exact) as [mrs'' e''].
  destruct (shr_m mrs''); try reflexivity.
  destruct (e'' <=? 128 - 24); reflexivity.
Qed.

Lemma of_Z_opp (p : positive) : F32.of_Z (Zneg p) = F32.neg (F32.of_Z (Zpos p)).
Proof.
  unfold F32.of_Z, F32.prec, F32.emax, binary_normalize, binary_round.
  destruct (shl_align _ _ _) as [mz ez].
  by rewrite binary_round_aux_sign.
Qed.

Lemma div_1000_neg (a : float) :
  F32.div (F32.neg a) (F32.of_Z 1000) = F32.neg (F32.div a (F32.of_Z 1000)).
Proof.
  rewrite f32_1000. unfold F32.div, F32.neg, F32.prec, F32.emax.
  destruct a as [[]|[]| |s m e]; try reflexivity.
  unfold SFdiv, SFopp.
  destruct (SFdiv_core_binary 24 128 (Zpos m) e 16384000 (-14))
    as [[mz ez] lz].
  rewrite !xorb_false_r.
  rewrite (binary_round_aux_sign (negb s)), (binary_round_aux_sign s).
  destruct s; cbn [negb]; [|reflexivity].
  by destruct (binary_round_aux 24 128 false mz ez lz) as [[]|[]| |[] ? ?].
Qed.

Lemma decode_neg (p : positive) : spec_decode_value (Zneg p) = F32.neg (spec_decode_value (Zpos p)).
Proof. unfold spec_decode_value. by rewrite of_Z_opp, div_1000_neg. Qed.

Lemma scaled_neg (k : Z) (x : float) :
  F32.scaled k (F32.neg x) = option_map Z.opp (F32.scaled k x).
Proof.
  destruct x as [s|s| |s m e]; try reflexivity.
  unfold F32.scaled, F32.neg, SFopp. destruct (- k <=? e); [|reflexivity].
  cbn. f_equal. destruct s; cbn [negb]; lia.
Qed.

(** The rational value against the value in units of [2^-k]. *)
Lemma to_Q_scaled (k : positive) (x : float) (z : Z) :
  F32.scaled (Zpos k) x = Some z ->
  exists q, F32.to_Q x = Some q /\ (q == z # (2 ^ k))%Q.
Proof.
  destruct x as [s|s| |s m e]; try discriminate.
  - intros [= <-]. exists 0%Q. split; [reflexivity|]. reflexivity.
  - unfold F32.scaled. destruct (Z.leb_spec (- Zpos k) e) as [He|]; [|discriminate].
    intros [= <-]. eexists. split; [reflexivity|].
    rewrite Z.shiftl_mul_pow2 by lia.
    assert (HK : Zpos (2 ^ k) = 2 ^ Zpos k) by apply Pos2Z.inj_pow.
    assert (HKpos : 0 < 2 ^ Zpos k) by (apply Z.pow_pos_nonneg; lia).
    destruct e as [|j|j]; unfold Qeq, inject_Z; cbn [Qnum Qden].
    + rewrite HK. replace (0 + Zpos k) with (Zpos k) by lia.
      destruct s; lia.
    + rewrite HK, Z.pow_add_r by lia. destruct s; lia.
    + rewrite HK, (Pos2Z.inj_pow 2 j).
      assert (Hsplit : 2 ^ Zpos k = 2 ^ (Zneg j + Zpos k) * 2 ^ Zpos j).
      { rewrite <- Z.pow_add_r by lia. f_equal. lia. }
      rewrite Hsplit. destruct s; lia.
Qed.

Lemma scaled_200 (s : bool) (m : positive) (e : Z) :
  -149 <= e ->
  F32.scaled 200 (S754_finite s m e)
  = Some ((if s then -1 else 1) * (Zpos m * 2 ^ (e + 200))).
Proof.
  intros He. unfold F32.scaled.
  destruct (Z.leb_spec (- (200)) e); [|lia].
  rewrite Z.shiftl_mul_pow2 by lia. reflexivity.
Qed.

(** *** The round trip *)

Lemma all_ok_32767 : all_ok (Z.to_nat 32767) 1 = true.
Proof. vm_compute. reflexivity. Qed.

Lemma bounded_exponent (m : positive) (e : Z) :
  bounded 24 128 m e = true -> -149 <= e.
Proof.
  unfold bounded, canonical_mantissa. intros Hb.
  apply andb_true_iff in Hb as [Hc _]. apply Z.eqb_eq in Hc.
  pose proof (fexp_ge (Zpos (digits2_pos m) + e)). lia.
Qed.

Lemma roundtrip_scaled (x : float) (zx : Z) :
  F32.valid x = true -> F32.scaled 200 x = Some zx ->
  1000 * Z.abs zx <= 32767 * 2 ^ 200 ->
  F32.trunc (F32.mul x (F32.of_Z 1000)) = Some (Aideck.compress x)
  /\ -32767 <= Aideck.compress x <= 32767
  /\ exists zd, F32.scaled 40 (spec_decode_value (Aideck.compress x)) = Some zd
                /\ 1000 * Z.abs (zd * 2 ^ 160 - zx) <= 2 ^ 200.
Proof.
  intros Hv Hzx Hrange.
  destruct x as [s|s| |s m e]; try discriminate.
  - injection Hzx as <-. unfold Aideck.compress.
    assert (Hmul : F32.mul (S754_zero s) (F32.of_Z 1000)
                   = S754_zero (xorb s false))
      by (rewrite f32_1000; reflexivity).
    assert (H0 : F32.to_int16 (S754_zero (xorb s false)) = 0)
      by (destruct s; reflexivity).
    rewrite Hmul, H0. split; [reflexivity|]. split; [lia|].
    exists 0. split; [reflexivity|]. cbn. lia.
  - unfold F32.valid, F32.prec, F32.emax, valid_binary in Hv.
    pose proof (bounded_exponent m e Hv) as He.
    rewrite (scaled_200 s m e He) in Hzx. injection Hzx as <-.
    assert (Hpos : 0 < Zpos m * 2 ^ (e + 200)).
    { apply Z.mul_pos_pos; [lia|]. apply Z.pow_pos_nonneg; lia. }
    set (a := Zpos m * 2 ^ (e + 200)) in *.
    assert (Habs : Z.abs ((if s then -1 else 1) * a) = a)
      by (destruct s; lia).
    rewrite Habs in Hrange.
    destruct (mul1000_trunc_bounds s m e He Hrange)
      as (n & Htr & H16 & Hn & Hlow & Hup & Hsharp).
    fold a in Hlow, Hup, Hsharp.
    assert (Hsound := fun Hn1 Hok =>
              roundtrip_ok_sound n m e Hn1 Hok Hv Hlow Hup Hsharp).
    fold a in Hsound. clearbody a.
    unfold Aideck.compress. rewrite H16. split; [exact Htr|].
    split; [destruct s; lia|].
    destruct (Z.eq_dec n 0) as [->|Hn0].
    + exists 0. split; [by destruct s|].
      rewrite Z.mul_0_l, Z.sub_0_l, Z.abs_opp, Habs. lia.
    + assert (Hok : roundtrip_ok n = true)
        by (apply (all_ok_sound _ _ _ all_ok_32767); lia).
      destruct (Hsound ltac:(lia) Hok) as (zd & Hzd & Hbound).
      destruct s.
      * exists (- zd). destruct n as [|p|p]; try lia.
        change (- Zpos p) with (Zneg p).
        rewrite decode_neg, scaled_neg, Hzd. split; [reflexivity|].
        replace (- zd * 2 ^ 160 - -1 * a) with (- (zd * 2 ^ 160 - a)) by lia.
        rewrite Z.abs_opp. exact Hbound.
      * exists zd. split; [exact Hzd|].
        replace (1 * a) with a by lia. exact Hbound.
Qed.

(** The codec round trip: for a binary32 value of magnitude at most 32.767,
    the stored integer is the integral part of the float product and fits
    16 bits, and dividing it by 1000.0f gives a float within 0.001. *)
Lemma roundtrip_Q (x : float) (X : Q) :
  F32.valid x = true -> F32.to_Q x = Some X ->
  (Qabs X <= 32767 # 1000)%Q ->
  F32.trunc (F32.mul x (F32.of_Z 1000)) = Some (Aideck.compress x)
  /\ -32767 <= Aideck.compress x <= 32767
  /\ exists D, F32.to_Q (spec_decode_value (Aideck.compress x)) = Some D
               /\ (Qabs (D - X) <= 1 # 1000)%Q.
Proof.
  intros Hv HX Hrange.
  assert (Hs : exists zx, F32.scaled 200 x = Some zx).
  { destruct x as [s|s| |s m e]; try discriminate; [by eexists|].
    unfold F32.valid, F32.prec, F32.emax, valid_binary in Hv.
    rewrite (scaled_200 s m e (bounded_exponent m e Hv)). by eexists. }
  destruct Hs as (zx & Hzx).
  destruct (to_Q_scaled 200 x zx Hzx) as (X' & HX' & HXeq).
  rewrite HX in HX'. injection HX' as <-.
  assert (H200 : Zpos (2 ^ 200) = 2 ^ 200) by reflexivity.
  assert (H40 : Zpos (2 ^ 40) = 2 ^ 40) by reflexivity.
  assert (Hr : 1000 * Z.abs zx <= 32767 * 2 ^ 200).
  { rewrite HXeq in Hrange. unfold Qle, Qabs in Hrange.
    cbn [Qnum Qden] in Hrange. rewrite H200 in Hrange. lia. }
  destruct (roundtrip_scaled x zx Hv Hzx Hr) as (Htr & H16 & zd & Hzd & Hb).
  split; [exact Htr|]. split; [exact H16|].
  destruct (to_Q_scaled 40 _ zd Hzd) as (D & HD & HDeq).
  exists D. split; [exact HD|].
  rewrite HDeq, HXeq. unfold Qle, Qabs, Qminus, Qplus, Qopp.
  cbn [Qnum Qden]. rewrite Pos2Z.inj_mul, H200, H40.
  assert (E160 : 2 ^ 200 = 2 ^ 40 * 2 ^ 160) by reflexivity.
  assert (P40 : 0 < 2 ^ 40) by reflexivity.
  replace (zd * 2 ^ 200 + - zx * 2 ^ 40)
    with ((zd * 2 ^ 160 - zx) * 2 ^ 40) by (rewrite E160; ring).
  rewrite Z.abs_mul, (Z.abs_eq (2 ^ 40)) by lia.
  nia.
Qed.

(** *** Out of range, and on the wire *)

Lemma wrap16_range (k : Z) : -32768 <= F32.wrap16 k <= 32767.
Proof.
  unfold F32.wrap16.
  pose proof (Z.mod_pos_bound (k + 32768) 65536 ltac:(lia)). lia.
Qed.

Lemma wrap16_congruent (k : Z) :
  F32.wrap16 k = k - 65536 * ((k + 32768) / 65536).
Proof.
  unfold F32.wrap16.
  pose proof (Z.div_mod (k + 32768) 65536 ltac:(lia)). lia.
Qed.

(** The stored integer is the 16-bit wrap of the integral part of the
    product, whenever that part fits the 32-bit conversion. *)
Lemma compress_wraps (v : float) (k : Z) :
  F32.trunc (F32.mul v (F32.of_Z 1000)) = Some k ->
  -2147483648 <= k <= 2147483647 ->
  Aideck.compress v = F32.wrap16 k.
Proof.
  intros Hk Hrange. unfold Aideck.compress, F32.to_int16, F32.to_int32.
  destruct (F32.mul v (F32.of_Z 1000)) as [s|s| |s m e]; try discriminate;
    rewrite Hk; f_equal; lia.
Qed.

(** Two little-endian bytes read back as the [int16_t] they hold. *)
Lemma wrap16_of_bytes (n : Z) :
  -32768 <= n <= 32767 ->
  F32.wrap16 (n mod 256 + 256 * ((n / 256) mod 256)) = n.
Proof.
  intros Hn. unfold F32.wrap16.
  pose proof (Z.div_mod n 256 ltac:(lia)) as H1.
  pose proof (Z.div_mod (n / 256) 256 ltac:(lia)) as H2.
  pose proof (Z.mod_pos_bound n 256 ltac:(lia)) as H3.
  pose proof (Z.mod_pos_bound (n / 256) 256 ltac:(lia)) as H4.
  assert (Hq : -128 <= n / 256 <= 127).
  { split; [apply Z.div_le_lower_bound; lia|].
    apply Z.lt_succ_r, Z.div_lt_upper_bound; lia. }
  assert (Hq2 : n / 256 / 256 = 0 \/ n / 256 / 256 = -1) by lia.
  destruct Hq2 as [Hq2|Hq2]; rewrite Hq2 in H2.
  - replace (n mod 256 + 256 * ((n / 256) mod 256)) with n by lia.
    rewrite Z.mod_small by lia. lia.
  - replace (n mod 256 + 256 * ((n / 256) mod 256)) with (n + 65536) by lia.
    replace (n + 65536 + 32768) with (n + 32768 + 1 * 65536) by lia.
    rewrite Z.mod_add by lia. rewrite Z.mod_small by lia. lia.
Qed.

Lemma compress_int16 (v : float) : -32768 <= Aideck.compress v <= 32767.
Proof. unfold Aideck.compress, F32.to_int16. apply wrap16_range. Qed.

(** The packed structure holds [(int16_t)(v*1000.0f)] for each scalar [v]
    of the request, field by field. *)
Lemma stored_scalars_compress (ty : cbf_type) (d : cbf_qpdata_t ty) :
  stored_scalars ty (Aideck.compress_data ty d)
  = map Aideck.compress (request_scalars ty d).
Proof. destruct ty; reflexivity. Qed.

(** The [k]-th scalar [v] of a request on the wire: the two bytes at offset
    [2k] of the payload are the image of [(int16_t)(v*1000.0f)]. *)
Lemma request_scalar_on_the_wire (ty : cbf_type) (d : cbf_qpdata_t ty)
  (n k : nat) (v : float) :
  request_scalars ty d !! k = Some v ->
  payload_int16
    (Aideck.data_comp_bytes ty (Aideck.compress_data ty d) ++ replicate n 0)
    (2 * k)
  = Aideck.compress v.
Proof.
  intros Hk. unfold payload_int16.
  destruct ty; cbn in d, Hk |- *;
    repeat (destruct k as [|k];
            [injection Hk as <-; apply wrap16_of_bytes, compress_int16|]);
    discriminate Hk.
Qed.

(** A request sent from the Ready state with a cleared outbound frame:
    the transport receives the marker, the little-endian 16-bit images of
    the compressed scalars, and the zero padding. *)
Lemma send_ready_frame (ty : cbf_type) (iters : bool) (d : cbf_qpdata_t ty)
  (s : Aideck.state ty) :
  Aideck.aideck_ready_flag s <> 0 ->
  Aideck.pk_tx s = Aideck.cleared_packet ty iters ->
  Aideck.data_comp (Aideck.aideck_send_cbf_data ty iters d s)
  = Aideck.compress_data ty d
  /\ Aideck.uart (Aideck.aideck_send_cbf_data ty iters d s)
     = USART_DMA_Send (Aideck.sizeof_CBFPacket ty iters)
         (CHAR_V :: Aideck.data_comp_bytes ty (Aideck.compress_data ty d)
            ++ replicate
                 (Z.to_nat (Aideck.MAX_CBFPACKET_DATA_SIZE ty iters
                            - Aideck.sizeof_cbf_qpdata_comp_t ty)) 0)
       :: Aideck.uart s
  /\ Aideck.aideck_ready_flag (Aideck.aideck_send_cbf_data ty iters d s) = 0
  /\ Aideck.missed_cycles (Aideck.aideck_send_cbf_data ty iters d s) = 0.
Proof.
  intros Hr Htx. unfold Aideck.aideck_send_cbf_data.
  destruct (Z.eqb_spec (Aideck.aideck_ready_flag s) 0) as [?|_]; [done|].
  cbn [negb]. unfold Aideck.cbf_pack.
  assert (Hsz : (Aideck.MAX_CBFPACKET_DATA_SIZE ty iters
                 <? Aideck.sizeof_cbf_qpdata_comp_t ty) = false)
    by (destruct ty, iters; reflexivity).
  cbn [Aideck.data_comp Aideck.set_data_comp Aideck.pk_tx Aideck.set_pk_tx
       Aideck.uart Aideck.call Aideck.aideck_ready_flag
       Aideck.set_aideck_ready_flag Aideck.set_missed_cycles
       Aideck.missed_cycles].
  rewrite Hsz.
  cbn [Aideck.data_comp Aideck.set_data_comp Aideck.pk_tx Aideck.set_pk_tx
       Aideck.uart Aideck.call Aideck.aideck_ready_flag
       Aideck.set_aideck_ready_flag Aideck.set_missed_cycles
       Aideck.missed_cycles header data raw].
  rewrite Htx. repeat split.
  do 2 f_equal. destruct ty, iters; reflexivity.
Qed.

(** C9 (amended).  Every scalar shipped to the coprocessor is
    [(int16_t)(v*1000.0f)] of the request's scalar [v]: that is what each
    field of the packed structure holds and what the two bytes at its
    offset in the frame read back, whatever the value (no range check).
    For every binary32 value of magnitude at most 32.767 this integer is
    the integral part (rounded toward zero) of the float product and fits
    16 bits, and dividing it by 1000.0f recovers the value within 0.001.
    Outside that range, as long as the integral part of the product fits
    the 32-bit conversion, the stored integer is the integral part wrapped
    modulo 2^16, different from it, and nothing signals it. *)
Theorem C9_fixed_point_codec :
  (forall (ty : cbf_type) (iters : bool) (d : cbf_qpdata_t ty)
          (s : Aideck.state ty),
      Aideck.aideck_ready_flag s <> 0 ->
      Aideck.pk_tx s = Aideck.cleared_packet ty iters ->
      let s' := Aideck.aideck_send_cbf_data ty iters d s in
      let payload :=
        Aideck.data_comp_bytes ty (Aideck.data_comp s')
        ++ replicate (Z.to_nat (Aideck.MAX_CBFPACKET_DATA_SIZE ty iters
                                - Aideck.sizeof_cbf_qpdata_comp_t ty)) 0 in
      Aideck.uart s'
      = USART_DMA_Send (Aideck.sizeof_CBFPacket ty iters) (CHAR_V :: payload)
        :: Aideck.uart s
      /\ stored_scalars ty (Aideck.data_comp s')
         = map Aideck.compress (request_scalars ty d)
      /\ (forall (k : nat) (v : float),
             request_scalars ty d !! k = Some v ->
             payload_int16 payload (2 * k) = Aideck.compress v))
  /\ (forall (x : float) (X : Q),
         F32.valid x = true -> F32.to_Q x = Some X ->
         (Qabs X <= 32767 # 1000)%Q ->
         F32.trunc (F32.mul x (F32.of_Z 1000)) = Some (Aideck.compress x)
         /\ -32767 <= Aideck.compress x <= 32767
         /\ exists D,
             F32.to_Q (spec_decode_value (Aideck.compress x)) = Some D
             /\ (Qabs (D - X) <= 1 # 1000)%Q)
  /\ (forall (x : float) (k : Z),
         F32.trunc (F32.mul x (F32.of_Z 1000)) = Some k ->
         -2147483648 <= k <= 2147483647 ->
         Aideck.compress x = F32.wrap16 k
         /\ -32768 <= Aideck.compress x <= 32767
         /\ Aideck.compress x = k - 65536 * ((k + 32768) / 65536)
         /\ (k < -32768 \/ 32767 < k -> Aideck.compress x <> k)).
Proof.
  split; [|split].
  - intros ty iters d s Hr Htx. cbv zeta.
    destruct (send_ready_frame ty iters d s Hr Htx) as (H1 & H2 & _).
    rewrite H1. split; [exact H2|].
    split; [apply stored_scalars_compress|].
    intros k v Hk. by apply request_scalar_on_the_wire.
  - exact roundtrip_Q.
  - intros x k Hk Hrange. rewrite (compress_wraps x k Hk Hrange).
    pose proof (wrap16_range k). pose proof (wrap16_congruent k).
    repeat split; try lia.
Qed.

Lemma C9_witness :
  payload_int16
    (Aideck.data_comp_bytes CBF_TYPE_EUL (Aideck.data_comp Run.s_sent)
     ++ replicate 4 0) 0
  = Aideck.compress (F32.lit 1 10)
  /\ Aideck.compress (F32.lit 1 10) = 100
  /\ (exists D,
         F32.to_Q (spec_decode_value (Aideck.compress (F32.lit 1 10)))
         = Some D
         /\ (Qabs (D - (13421773 # 134217728)) <= 1 # 1000)%Q)
  /\ Aideck.compress (F32.of_Z 40) = -25536.
Proof.
  destruct C9_fixed_point_codec as (Hwire & Hround & Hwrap).
  assert (Hr : Aideck.aideck_ready_flag (deck_init CBF_TYPE_EUL false) <> 0)
    by (vm_compute; discriminate).
  destruct (Hwire CBF_TYPE_EUL false Run.d0 (deck_init CBF_TYPE_EUL false)
              Hr eq_refl) as (_ & _ & Hslot).
  assert (Hv : F32.valid (F32.lit 1 10) = true) by (vm_compute; reflexivity).
  assert (HX : F32.to_Q (F32.lit 1 10) = Some (13421773 # 134217728))
    by (vm_compute; reflexivity).
  assert (Hq : (Qabs (13421773 # 134217728) <= 32767 # 1000)%Q)
    by (vm_compute; discriminate).
  destruct (Hround _ _ Hv HX Hq) as (_ & _ & HD).
  assert (Hk : F32.trunc (F32.mul (F32.of_Z 40) (F32.of_Z 1000)) = Some 40000)
    by (vm_compute; reflexivity).
  destruct (Hwrap _ _ Hk ltac:(lia)) as (Hw & _).
  split; [exact (Hslot 0%nat (F32.lit 1 10) eq_refl)|].
  split; [vm_compute; reflexivity|]. split; [exact HD|].
  rewrite Hw. vm_compute. reflexivity.
Defined.

(** C9 as stated fails outside the 32-bit range.  The scalar 3000000 times
    1000.0f is the float 3*10^9, whose integral part wrapped to 16 bits is
    24064; the 32-bit conversion of the target saturates at 2147483647 (ISO
    C leaves the conversion undefined) and the integer stored and sent is
    -1, the bytes FF FF. *)
Lemma C9_counterexample :
  let x := F32.of_Z 3000000 in
  let s := Aideck.aideck_send_cbf_data CBF_TYPE_EUL false Rig.d_far
             (deck_init CBF_TYPE_EUL false) in
  qp_phi Rig.d_far = x
  /\ F32.valid x = true
  /\ F32.trunc (F32.mul x (F32.of_Z 1000)) = Some 3000000000
  /\ F32.wrap16 3000000000 = 24064
  /\ Aideck.compress x = -1
  /\ qpc_phi (Aideck.data_comp s) = -1
  /\ Aideck.uart s
     = [USART_DMA_Send 17
          (CHAR_V :: [255; 255; 0; 0; 82; 38; 0; 0; 0; 0; 0; 0; 0; 0; 0; 0])].
Proof. vm_compute. repeat split. Qed.

Section ChannelRuns.

Import Aideck.

Variable ty : cbf_type.
Variable iters : bool.

Lemma data_comp_bytes_length (c : cbf_qpdata_comp_t ty) :
  Z.of_nat (length (data_comp_bytes ty c)) = sizeof_cbf_qpdata_comp_t ty.
Proof. destruct ty; reflexivity. Qed.

Lemma data_comp_bytes_bytes (c : cbf_qpdata_comp_t ty) :
  Forall is_byte (data_comp_bytes ty c).
Proof.
  destruct ty; cbn; unfold le16, is_byte;
    repeat constructor; try apply Z.mod_pos_bound; lia.
Qed.

Lemma sizeof_comp_le_max :
  0 <= sizeof_cbf_qpdata_comp_t ty <= MAX_CBFPACKET_DATA_SIZE ty iters.
Proof. destruct ty, iters; cbn; lia. Qed.

Lemma send_preserves_inv d (s : state ty) :
  channel_inv ty iters s ->
  channel_inv ty iters (aideck_send_cbf_data ty iters d s).
Proof.
  intros (Hm & Hb & Hr & Htx & Hu).
  destruct (Z.eq_dec (aideck_ready_flag s) 0) as [H0|H0].
  - specialize (Hb H0). unfold aideck_send_cbf_data.
    rewrite H0. cbn [Z.eqb negb].
    rewrite Z.mod_small by lia.
    cbn [missed_cycles set_missed_cycles].
    destruct (Z.ltb_spec 200 (missed_cycles s + 1));
      unfold channel_inv; cbn;
      repeat split; first [lia | auto | intros; lia].
  - destruct (send_ready_frame ty iters d s H0 Htx) as (Hc & Hs & Hf & Hmc).
    unfold channel_inv. rewrite Hs, Hf, Hmc.
    repeat split; try lia; auto.
    + unfold aideck_send_cbf_data.
      destruct (Z.eqb_spec (aideck_ready_flag s) 0) as [?|_]; [done|].
      cbn. unfold cbf_pack.
      destruct (Z.ltb_spec (MAX_CBFPACKET_DATA_SIZE ty iters)
                  (sizeof_cbf_qpdata_comp_t ty));
        reflexivity.
    + constructor; [|exact Hu].
      pose proof sizeof_comp_le_max as Hsz.
      cbn. repeat split.
      * rewrite length_app, length_replicate, Nat2Z.inj_succ, Nat2Z.inj_add,
          data_comp_bytes_length, Z2Nat.id by lia.
        unfold sizeof_CBFPacket. lia.
      * constructor; [unfold is_byte, CHAR_V; lia|].
        apply Forall_app. split; [apply data_comp_bytes_bytes|].
        apply Forall_replicate. unfold is_byte; lia.
Qed.

Lemma task_preserves_inv (s : state ty) :
  channel_inv ty iters s ->
  channel_inv ty iters (Gap8Task_iteration ty iters s).
Proof.
  intros H. pose proof H as (Hm & Hb & Hr & Htx & Hu).
  unfold Gap8Task_iteration, unpack, memcpy_u_struct.
  destruct (dma_flag s =? 0); [exact H|].
  cbn. destruct (header (pk_rx s) =? CHAR_V); cbn.
  - destruct iters; unfold channel_inv; cbn;
      repeat split; first [lia | done | auto].
  - unfold channel_inv; cbn. repeat split; first [lia | done | auto].
    constructor; [|exact Hu]. by split.
Qed.

Lemma step_preserves_inv e (s : state ty) :
  channel_inv ty iters s -> channel_inv ty iters (step ty iters e s).
Proof.
  destruct e; cbn; auto using send_preserves_inv, task_preserves_inv.
Qed.

Lemma run_preserves_inv evs : forall s : state ty,
  channel_inv ty iters s -> channel_inv ty iters (run ty iters evs s).
Proof.
  induction evs as [|e evs IH]; intros s Hs; cbn; [exact Hs|].
  apply IH, step_preserves_inv, Hs.
Qed.

Lemma deck_init_inv : channel_inv ty iters (deck_init ty iters).
Proof.
  unfold channel_inv, deck_init; cbn.
  repeat split; first [lia | done | auto].
Qed.

(** X1.  Whatever the control loop, the interrupt handler and the receive
    loop do after [aideckInit], in any order: the missed-cycle counter
    stays within 0..201, so the increment of the [uint8_t] never wraps; it
    is at most 200 while the channel is Busy; the ready flag is 0 or 1; and
    the outbound frame is all zero between two calls. *)
Theorem missed_cycles_never_wraps (evs : list (event ty)) :
  let s := run ty iters evs (deck_init ty iters) in
  0 <= missed_cycles s <= 201
  /\ (aideck_ready_flag s = 0 -> missed_cycles s <= 200)
  /\ (aideck_ready_flag s = 0 \/ aideck_ready_flag s = 1)
  /\ pk_tx s = cleared_packet ty iters
  /\ (forall d, missed_cycles (aideck_send_cbf_data ty iters d s)
                = if aideck_ready_flag s =? 0 then missed_cycles s + 1 else 0).
Proof.
  cbv zeta.
  destruct (run_preserves_inv evs _ deck_init_inv) as (Hm & Hb & Hr & Htx & _).
  repeat split; try lia; auto.
  intros d. unfold aideck_send_cbf_data.
  destruct (Z.eqb_spec
              (aideck_ready_flag (run ty iters evs (deck_init ty iters))) 0)
    as [H0|H0]; cbn [negb].
  - specialize (Hb H0). rewrite Z.mod_small by lia.
    cbn. destruct (_ <? _); reflexivity.
  - cbn. destruct (cbf_pack _ _ _ _ _). reflexivity.
Qed.

(** X2.  Every call the driver ever makes into the transport hands it
    exactly one frame: a transmission is [sizeof(CBFPacket)] bytes long,
    starts with ['V'] and consists of bytes; a resynchronisation is for
    [sizeof(CBFPacket)] bytes at the start of the inbound buffer. *)
Theorem every_transport_call_is_one_frame (evs : list (event ty)) :
  Forall (frame_call ty iters)
    (uart (run ty iters evs (deck_init ty iters))).
Proof.
  destruct (run_preserves_inv evs _ deck_init_inv) as (_ & _ & _ & _ & Hu).
  exact Hu.
Qed.

Lemma cycles_busy d (s : state ty) (k : nat) :
  aideck_ready_flag s = 0 ->
  0 <= missed_cycles s ->
  missed_cycles s + Z.of_nat k <= 200 ->
  send_cycles ty iters k d s
  = set_missed_cycles (missed_cycles s + Z.of_nat k) s.
Proof.
  intros Hb Hm. induction k as [|k IH]; intros Hk.
  - replace (missed_cycles s + Z.of_nat 0) with (missed_cycles s) by lia.
    destruct s; reflexivity.
  - cbn [send_cycles]. rewrite IH by lia.
    rewrite send_busy_below; [|exact Hb|cbn; lia].
    unfold set_missed_cycles; cbn. f_equal. lia.
Qed.

(** X3.  The control loop is never stalled for long: from any reachable
    state, at most 201 consecutive calls of [aideck_send_cbf_data] go by
    without a transmission, and the call after them transmits the request.
    When calls were skipped, the vector handed to the controller at that
    point is zero. *)
Theorem stall_is_bounded (evs : list (event ty)) (d : cbf_qpdata_t ty) :
  let s := run ty iters evs (deck_init ty iters) in
  exists k : nat,
    (k <= 201)%nat
    /\ uart (send_cycles ty iters k d s) = uart s
    /\ (k <> 0%nat -> aideck_get_safe_u (send_cycles ty iters k d s) = zero_u)
    /\ uart (send_cycles ty iters (S k) d s)
       = USART_DMA_Send (sizeof_CBFPacket ty iters)
           (CHAR_V :: data_comp_bytes ty (compress_data ty d)
              ++ replicate
                   (Z.to_nat (MAX_CBFPACKET_DATA_SIZE ty iters
                              - sizeof_cbf_qpdata_comp_t ty)) 0)
         :: uart s.
Proof.
  cbv zeta. set (s := run ty iters evs (deck_init ty iters)).
  destruct (run_preserves_inv evs _ deck_init_inv) as (Hm & Hb & Hr & Htx & _).
  fold s in Hm, Hb, Hr, Htx.
  destruct (Z.eq_dec (aideck_ready_flag s) 0) as [H0|H0].
  - specialize (Hb H0).
    exists (S (Z.to_nat (200 - missed_cycles s))).
    assert (Hlast : send_cycles ty iters
                      (S (Z.to_nat (200 - missed_cycles s))) d s
                    = set_aideck_ready_flag 1
                        (force_stop_u (set_missed_cycles 201 s))).
    { cbn [send_cycles]. rewrite cycles_busy by lia.
      rewrite send_busy_past; [|exact H0|cbn; lia].
      reflexivity. }
    split; [lia|]. rewrite Hlast.
    split; [reflexivity|]. split; [reflexivity|].
    change (send_cycles ty iters (S (S (Z.to_nat (200 - missed_cycles s)))) d s)
      with (aideck_send_cbf_data ty iters d
              (send_cycles ty iters (S (Z.to_nat (200 - missed_cycles s))) d s)).
    rewrite Hlast.
    destruct (send_ready_frame ty iters d
                (set_aideck_ready_flag 1
                   (force_stop_u (set_missed_cycles 201 s))))
      as (_ & Hs & _); [cbn; lia|exact Htx|].
    exact Hs.
  - exists 0%nat. split; [lia|]. split; [reflexivity|]. split; [done|].
    destruct (send_ready_frame ty iters d s H0 Htx) as (_ & Hs & _).
    exact Hs.
Qed.

(** X4.  One iteration of the receive loop consumes the interrupt flag:
    a second iteration without a new interrupt changes nothing, so a
    frame is unpacked at most once. *)
Theorem frame_is_processed_once (s : state ty) :
  dma_flag (Gap8Task_iteration ty iters s) = 0
  /\ Gap8Task_iteration ty iters (Gap8Task_iteration ty iters s)
     = Gap8Task_iteration ty iters s.
Proof.
  assert (H : dma_flag (Gap8Task_iteration ty iters s) = 0).
  { unfold Gap8Task_iteration, unpack, memcpy_u_struct.
    destruct (Z.eqb_spec (dma_flag s) 0) as [H|H]; [exact H|].
    cbn. destruct (header (pk_rx s) =? CHAR_V); cbn; [|reflexivity].
    destruct iters; reflexivity. }
  split; [exact H|].
  unfold Gap8Task_iteration at 1. by rewrite H.
Qed.

(** A call of [aideck_send_cbf_data] leaves the stored vector alone or
    zeroes it, and does not touch the inbound buffer. *)
Lemma send_u_struct d (s : state ty) :
  (u_struct (aideck_send_cbf_data ty iters d s) = u_struct s
   \/ u_struct (aideck_send_cbf_data ty iters d s) = zero_u)
  /\ pk_rx (aideck_send_cbf_data ty iters d s) = pk_rx s.
Proof.
  unfold aideck_send_cbf_data.
  destruct (aideck_ready_flag s =? 0); cbn [negb].
  - cbn. destruct (_ <? _); cbn; auto.
  - unfold cbf_pack. destruct (_ <? _); cbn; auto.
Qed.

Lemma send_ready_keeps_u d (s : state ty) :
  aideck_ready_flag s <> 0 ->
  u_struct (aideck_send_cbf_data ty iters d s) = u_struct s.
Proof.
  intros Hr. unfold aideck_send_cbf_data.
  destruct (Z.eqb_spec (aideck_ready_flag s) 0) as [?|_]; [done|].
  cbn [negb]. unfold cbf_pack. by destruct (_ <? _).
Qed.





(** X6.  [unpack] reads [sizeof(u_struct)] bytes of the payload and no
    more, and that many bytes fit the inbound buffer in each of the four
    builds: two valid frames that agree on those bytes leave the driver in
    the same state. *)
Theorem reply_is_read_within_the_buffer (pk pk' : CBFPacket) (s : state ty) :
  header pk = CHAR_V -> header pk' = CHAR_V ->
  (forall i : nat, Z.of_nat i < sizeof_u_struct iters ->
                   data pk !!! i = data pk' !!! i) ->
  sizeof_u_struct iters <= MAX_CBFPACKET_DATA_SIZE ty iters
  /\ Gap8Task_iteration ty iters (frame_received pk s)
     = Gap8Task_iteration ty iters (frame_received pk' s).
Proof.
  intros Hh Hh' Hd. split; [destruct ty, iters; cbn; lia|].
  unfold Gap8Task_iteration, unpack, frame_received, DMA1_Stream1_IRQHandler.
  cbn. rewrite Hh, Hh'. cbn.
  unfold memcpy_u_struct, rd_float, rd32, rd16, rd8. cbn.
  assert (H18 : forall i : nat, (i < (if iters then 18 else 16))%nat ->
                               data pk !!! i = data pk' !!! i).
  { intros i Hi. apply Hd. destruct iters; cbn; lia. }
  destruct iters; cbn; rewrite !H18 by lia; reflexivity.
Qed.

(** X7.  The request on the wire reads back: in the frame a Ready call
    transmits, the two bytes at offset [2k] of the payload are the
    little-endian two's complement image of the [k]-th scalar of the
    request compressed, for every scalar of either layout; the scalars
    fill [sizeof(cbf_qpdata_comp_t)] bytes and the payload is
    [MAX_CBFPACKET_DATA_SIZE] bytes long. *)
Theorem request_frame_reads_back (d : cbf_qpdata_t ty) (s : state ty) :
  aideck_ready_flag s <> 0 ->
  pk_tx s = cleared_packet ty iters ->
  exists payload,
    uart (aideck_send_cbf_data ty iters d s)
    = USART_DMA_Send (sizeof_CBFPacket ty iters) (CHAR_V :: payload)
      :: uart s
    /\ Z.of_nat (length payload) = MAX_CBFPACKET_DATA_SIZE ty iters
    /\ Z.of_nat (length (request_scalars ty d)) * 2
       = sizeof_cbf_qpdata_comp_t ty
    /\ forall (k : nat) (v : float),
         request_scalars ty d !! k = Some v ->
         payload_int16 payload (2 * k) = compress v.
Proof.
  intros Hr Htx.
  destruct (send_ready_frame ty iters d s Hr Htx) as (_ & Hs & _).
  eexists. split; [exact Hs|].
  split; [|split].
  - rewrite length_app, length_replicate, Nat2Z.inj_add, data_comp_bytes_length.
    pose proof sizeof_comp_le_max. lia.
  - destruct ty; reflexivity.
  - intros k v Hk. unfold payload_int16.
    destruct ty; cbn in d, Hk |- *;
      repeat (destruct k as [|k];
              [injection Hk as <-; apply wrap16_of_bytes, compress_int16|]);
      discriminate Hk.
Qed.

(** X8.  [aideckInit] runs once: a second call changes nothing (no second
    task, no restart of the DMA stream).  The first call creates the
    receive task, starts the DMA stream on the inbound buffer for one
    frame at 115200 baud, starts the rate logger and sets the channel
    Ready; on the image as loaded it leaves the driver in the state from
    which the runs above start, and the first request is transmitted. *)
Theorem aideckInit_runs_once (k : deck ty) :
  aideckInit ty iters (aideckInit ty iters k) = aideckInit ty iters k
  /\ isInit (aideckInit ty iters k) = true
  /\ (isInit k = false ->
      init_calls (aideckInit ty iters k)
      = [STATS_CNT_RATE_INIT 10;
         USART_DMA_Start 115200 PK_RX_RAW (sizeof_CBFPacket ty iters);
         xTaskCreate_Gap8Task] ++ init_calls k
      /\ aideck_ready_flag (driver (aideckInit ty iters k)) = 1)
  /\ driver (aideckInit ty iters (deck_image ty iters)) = deck_init ty iters
  /\ forall d,
       uart (aideck_send_cbf_data ty iters d
               (driver (aideckInit ty iters (deck_image ty iters))))
       = [USART_DMA_Send (sizeof_CBFPacket ty iters)
            (CHAR_V :: data_comp_bytes ty (compress_data ty d)
               ++ replicate
                    (Z.to_nat (MAX_CBFPACKET_DATA_SIZE ty iters
                               - sizeof_cbf_qpdata_comp_t ty)) 0)].
Proof.
  assert (Hi : isInit (aideckInit ty iters k) = true).
  { unfold aideckInit. destruct (isInit k) eqn:E; [exact E|reflexivity]. }
  split; [|split; [exact Hi|split; [|split]]].
  - unfold aideckInit at 1. by rewrite Hi.
  - intros Hk. unfold aideckInit. rewrite Hk. by split.
  - reflexivity.
  - intros d.
    change (driver (aideckInit ty iters (deck_image ty iters)))
      with (deck_init ty iters).
    destruct (send_ready_frame ty iters d (deck_init ty iters))
      as (_ & Hs & _); [cbn; lia|reflexivity|].
    exact Hs.
Qed.

(** *** The debug dump *)

Lemma offset_hex_digit (n : Z) :
  0 <= n < 16 -> hex_digit (offset_hex n) = Some n.
Proof.
  intros Hn. unfold offset_hex, hex_digit.
  destruct (Z.ltb_spec n 10).
  - rewrite Z.mod_small by lia.
    destruct (Z.leb_spec 48 (n + 48)), (Z.leb_spec (n + 48) 57); try lia.
    cbn. f_equal. lia.
  - rewrite Z.mod_small by lia.
    destruct (Z.leb_spec 48 (n + 87)), (Z.leb_spec (n + 87) 57); try lia.
    cbn. destruct (Z.leb_spec 97 (n + 87)), (Z.leb_spec (n + 87) 102); try lia.
    cbn. f_equal. lia.
Qed.

Lemma hex_to_char_digits (b : Z) :
  0 <= b < 256 ->
  hex_digit (fst (hex_to_char b)) = Some (b / 16)
  /\ hex_digit (snd (hex_to_char b)) = Some (b mod 16)
  /\ 16 * (b / 16) + b mod 16 = b.
Proof.
  intros Hb. unfold hex_to_char. cbn [fst snd].
  split; [|split].
  - apply offset_hex_digit. split; [apply Z.div_pos; lia|].
    apply Z.div_lt_upper_bound; lia.
  - apply offset_hex_digit. apply Z.mod_pos_bound. lia.
  - pose proof (Z.div_mod b 16). lia.
Qed.

(** X9.  [hex_to_char] turns every byte into two lower-case hexadecimal
    digits, the high nibble first, from which the byte can be read
    back. *)
Theorem hex_to_char_round_trip (b : Z) :
  0 <= b < 256 ->
  exists hi lo,
    hex_digit (fst (hex_to_char b)) = Some hi
    /\ hex_digit (snd (hex_to_char b)) = Some lo
    /\ 0 <= hi < 16 /\ 0 <= lo < 16
    /\ 16 * hi + lo = b.
Proof.
  intros Hb. destruct (hex_to_char_digits b Hb) as (H1 & H2 & H3).
  exists (b / 16), (b mod 16). repeat split; try assumption.
  - apply Z.div_pos; lia.
  - apply Z.div_lt_upper_bound; lia.
  - apply Z.mod_pos_bound. lia.
  - apply Z.mod_pos_bound. lia.
Qed.

Lemma read_hex_dump (bytes : list Z) :
  Forall is_byte bytes ->
  read_hex (tx_dump_loop bytes ++ [10]) = Some bytes.
Proof.
  induction 1 as [|b bytes Hb _ IH]; [reflexivity|].
  destruct (hex_to_char_digits b Hb) as (H1 & H2 & H3).
  cbn [tx_dump_loop app].
  change (read_hex (fst (hex_to_char b) :: snd (hex_to_char b)
                      :: tx_dump_loop bytes ++ [10]))
    with (match hex_digit (fst (hex_to_char b)),
                hex_digit (snd (hex_to_char b)),
                read_hex (tx_dump_loop bytes ++ [10]) with
          | Some a, Some b, Some bytes => Some (16 * a + b :: bytes)
          | _, _, _ => None
          end).
  by rewrite H1, H2, IH, H3.
Qed.

Lemma tx_dump_reads_back (pk : CBFPacket) :
  Z.of_nat (length (data pk)) = MAX_CBFPACKET_DATA_SIZE ty iters ->
  Forall is_byte (data pk) ->
  exists body,
    tx_dump ty iters pk = [84; 88; 32; header pk] ++ body
    /\ read_hex body = Some (data pk).
Proof.
  intros Hlen Hbytes. unfold tx_dump, sizeof_CBFPacket.
  replace (MAX_CBFPACKET_DATA_SIZE ty iters + 1 - 1)
    with (Z.of_nat (length (data pk))) by lia.
  rewrite Nat2Z.id, firstn_all.
  eexists. split; [reflexivity|]. by apply read_hex_dump.
Qed.

(** X10.  In the debug build, the line a Ready call of
    [aideck_send_cbf_data] prints is ["TX V"] followed by the hexadecimal
    dump of exactly the payload that the same call hands to
    [USART_DMA_Send]: reading the dump back gives the bytes on the wire. *)
Theorem debug_dump_shows_the_frame_sent (d : cbf_qpdata_t ty) (s : state ty) :
  aideck_ready_flag s <> 0 ->
  pk_tx s = cleared_packet ty iters ->
  uart (aideck_send_cbf_data ty iters d s)
  = USART_DMA_Send (sizeof_CBFPacket ty iters)
      (raw (packed_frame ty iters d s))
    :: uart s
  /\ header (packed_frame ty iters d s) = CHAR_V
  /\ exists body,
       tx_dump ty iters (packed_frame ty iters d s)
       = [84; 88; 32; CHAR_V] ++ body
       /\ read_hex body = Some (data (packed_frame ty iters d s)).
Proof.
  intros Hr Htx.
  assert (Hp : packed_frame ty iters d s
               = mk_packet CHAR_V
                   (data_comp_bytes ty (compress_data ty d)
                      ++ replicate
                           (Z.to_nat (MAX_CBFPACKET_DATA_SIZE ty iters
                                      - sizeof_cbf_qpdata_comp_t ty)) 0)).
  { unfold packed_frame, cbf_pack.
    assert (Hsz : (MAX_CBFPACKET_DATA_SIZE ty iters
                   <? sizeof_cbf_qpdata_comp_t ty) = false)
      by (destruct ty, iters; reflexivity).
    cbn [data_comp set_data_comp pk_tx set_pk_tx].
    rewrite Hsz.
    cbn [data_comp set_data_comp pk_tx set_pk_tx snd header data].
    rewrite Htx. f_equal. destruct ty, iters; reflexivity. }
  destruct (send_ready_frame ty iters d s Hr Htx) as (_ & Hs & _).
  rewrite Hp. split; [exact Hs|]. split; [reflexivity|].
  destruct (tx_dump_reads_back
              (mk_packet CHAR_V
                 (data_comp_bytes ty (compress_data ty d)
                    ++ replicate
                         (Z.to_nat (MAX_CBFPACKET_DATA_SIZE ty iters
                                    - sizeof_cbf_qpdata_comp_t ty)) 0)))
    as (body & Hb & Hread).
  - cbn [data]. rewrite length_app, length_replicate, Nat2Z.inj_add,
      data_comp_bytes_length.
    pose proof sizeof_comp_le_max. lia.
  - cbn [data]. apply Forall_app. split; [apply data_comp_bytes_bytes|].
    apply Forall_replicate. unfold is_byte; lia.
  - exists body. split; [exact Hb|exact Hread].
Qed.

End ChannelRuns.

(** Two floats that compare equal are the same float, up to the sign of
    zero. *)
Lemma SFcompare_Eq_finite (v : float) (sb : bool) (m : positive) (e : Z) :
  SFcompare v (S754_finite sb m e) = Some Eq -> v = S754_finite sb m e.
Proof.
  destruct v as [[]|[]| |[] m' e'], sb; cbn; try discriminate;
    intros H; destruct (Z.compare_spec e' e); try discriminate H; subst;
    assert (m' = m)
      by (apply Pos.compare_eq; unfold Pos.compare;
          destruct (Pos.compare_cont Eq m' m);
          (reflexivity || discriminate H));
    subst; reflexivity.
Qed.

(** A value already in range is left alone by the saturation idiom. *)
Lemma sat_in_range_fixed (lo hi v : float) :
  (exists sb m e, hi = S754_finite sb m e) ->
  in_range lo hi v -> sat lo hi v = v.
Proof.
  intros (sb & m & e & ->) [Hlo Hhi].
  assert (Hvn : F32.is_nan v = false) by (by destruct v).
  assert (Hln : F32.is_nan lo = false) by (by destruct lo).
  unfold sat, F32.fminf. rewrite Hvn. cbn [F32.is_nan].
  assert (Hmin : (if F32.ltb v (S754_finite sb m e) then v
                  else S754_finite sb m e) = v).
  { destruct (F32.ltb v (S754_finite sb m e)) eqn:Hlt; [reflexivity|].
    symmetry. apply SFcompare_Eq_finite.
    revert Hhi Hlt. unfold F32.leb, F32.ltb, SFleb, SFltb.
    destruct (SFcompare v (S754_finite sb m e)) as [[]|]; congruence. }
  rewrite Hmin. unfold F32.fmaxf. rewrite Hvn, Hln.
  assert (Hlt : F32.ltb v lo = false).
  { revert Hlo. unfold F32.leb, F32.ltb, SFleb, SFltb.
    rewrite (SFcompare_antisym lo v).
    destruct (SFcompare lo v) as [[]|]; cbn; congruence. }
  by rewrite Hlt.
Qed.

Lemma sat_idempotent (lo hi v : float) :
  (exists sb m e, hi = S754_finite sb m e) ->
  F32.is_nan lo = false ->
  F32.leb lo lo = true -> F32.leb hi hi = true -> F32.leb lo hi = true ->
  sat lo hi (sat lo hi v) = sat lo hi v.
Proof.
  intros Hhi Hlo Hll Hhh Hlh. apply sat_in_range_fixed; [exact Hhi|].
  apply sat_in_range; try assumption.
  destruct Hhi as (sb & m & e & ->). reflexivity.
Qed.

(** Negating the left operand of a product or a quotient negates the
    result: rounding to nearest even is symmetric. *)
Lemma SFopp_involutive (a : float) : SFopp (SFopp a) = a.
Proof. destruct a as [[]|[]| |[] m e]; reflexivity. Qed.

Lemma mul_neg_l (a b : float) :
  F32.mul (F32.neg a) b = F32.neg (F32.mul a b).
Proof.
  unfold F32.mul, F32.neg, F32.prec, F32.emax.
  destruct a as [[]|[]| |[] ma ea], b as [[]|[]| |[] mb eb];
    try reflexivity;
    unfold SFmul; cbn [SFopp negb xorb];
    rewrite (binary_round_aux_sign true);
    try reflexivity; by rewrite SFopp_involutive.
Qed.

Lemma div_neg_l (a b : float) :
  F32.div (F32.neg a) b = F32.neg (F32.div a b).
Proof.
  unfold F32.div, F32.neg, F32.prec, F32.emax.
  destruct a as [[]|[]| |[] ma ea], b as [[]|[]| |[] mb eb];
    try reflexivity;
    unfold SFdiv; cbn [SFopp negb xorb];
    destruct (SFdiv_core_binary 24 128 (Zpos ma) ea (Zpos mb) eb)
      as [[mz ez] lz];
    rewrite (binary_round_aux_sign true);
    try reflexivity; by rewrite SFopp_involutive.
Qed.

(** X20.  The unit conversions [v*DEG2RAD] and [v*RAD2DEG] are odd
    functions on all of binary32, so the sign flip in
    [-state->attitude.pitch*DEG2RAD] can be read on either side of the
    conversion. *)
Theorem unit_conversions_are_odd (v : float) :
  Lqr.times_DEG2RAD (F32.neg v) = F32.neg (Lqr.times_DEG2RAD v)
  /\ Lqr.times_RAD2DEG (F32.neg v) = F32.neg (Lqr.times_RAD2DEG v).
Proof.
  unfold Lqr.times_DEG2RAD, Lqr.times_RAD2DEG.
  by rewrite !mul_neg_l, !div_neg_l.
Qed.

Lemma mul_zero_finite (k e : float) :
  F32.is_zero k = true -> F32.is_finite e = true ->
  F32.is_zero (F32.mul k e) = true.
Proof. destruct k, e; cbn; congruence. Qed.

Lemma add_zero_l (a b : float) :
  F32.is_zero a = true -> F32.is_zero b = false -> F32.add a b = b.
Proof. destruct a, b; cbn; congruence. Qed.

(** ** The controller, cycle by cycle *)

Section ControllerCycle.

Import Lqr.

Context {P : Platform}.

Local Opaque Aideck.aideck_send_cbf_data.

(** Case analysis on every test of the goal. *)
Ltac gates :=
  repeat first
    [ progress cbn
    | match goal with
      | |- context [if ?b then _ else _] => destruct b eqn:?
      | |- context [let '(_, _) := ?e in _] => destruct e as [? ?] eqn:?
      end ].

Lemma set_flying_same (s : lqr) (b : bool) :
  flying s = b -> set_flying b s = s.
Proof. intros <-. by destruct s. Qed.

Lemma landing_check_is_thrust_cut setpoint state tick (s : lqr) :
  let s1 := saturate_log_convert tick (before_saturation setpoint state tick s) in
  flying s1 = F32.ltb (F32.of_Z 0) (z (sp_position setpoint))
  /\ after_landing_check setpoint state tick s
     = (if flying s1 then s1 else set_actuatorThrust (F32.of_Z 0) s1).
Proof.
  cbv zeta.
  set (s1 := saturate_log_convert tick (before_saturation setpoint state tick s)).
  assert (H1 : flying s1 = F32.ltb (F32.of_Z 0) (z (sp_position setpoint))).
  { subst s1. rewrite flying_before_landing_check. unfold flying_check.
    destruct (F32.ltb _ _); reflexivity. }
  split; [exact H1|].
  unfold after_landing_check, landing_check. fold s1.
  destruct (landing_test setpoint s1) eqn:Hl; [|by destruct (flying s1)].
  assert (Hf : flying s1 = false).
  { rewrite H1. unfold landing_test in Hl.
    apply andb_true_iff in Hl as [_ Hz].
    destruct (F32.ltb _ _) eqn:Hlt; [|done].
    apply ltb_not_eqb in Hlt. congruence. }
  rewrite (set_flying_same s1 false Hf). by rewrite Hf.
Qed.

(** X11.  The landing test never changes the outcome of a cycle.  The
    flying flag the cycle leaves is exactly "setpoint z > 0" (false for a
    negative or NaN z as well); the landing check reduces to cutting the
    thrust when that flag is false, whatever the tracking error is; and
    then thrust, roll, pitch and yaw are all emitted as 0. *)
Theorem landing_test_never_changes_the_outcome control setpoint sensors state
  tick (s : lqr) :
  let s1 := saturate_log_convert tick (before_saturation setpoint state tick s) in
  let r := controllerLqr control setpoint sensors state tick s in
  flying s1 = F32.ltb (F32.of_Z 0) (z (sp_position setpoint))
  /\ after_landing_check setpoint state tick s
     = (if flying s1 then s1 else set_actuatorThrust (F32.of_Z 0) s1)
  /\ flying (snd r) = F32.ltb (F32.of_Z 0) (z (sp_position setpoint))
  /\ (F32.ltb (F32.of_Z 0) (z (sp_position setpoint)) = false ->
      ctl_thrust (fst r) = F32.of_Z 0 /\ ctl_roll (fst r) = 0
      /\ ctl_pitch (fst r) = 0 /\ ctl_yaw (fst r) = 0).
Proof.
  cbv zeta.
  destruct (landing_check_is_thrust_cut setpoint state tick s)
    as (H1 & H2).
  split; [exact H1|]. split; [exact H2|].
  unfold controllerLqr.
  destruct (after_landing_check_kept control sensors tick
              (after_landing_check setpoint state tick s))
    as (Hf & _ & _ & _ & _ & _ & _ & Hc).
  rewrite Hf, flying_after_landing_check. split; [done|].
  intros Hz.
  assert (Hnf : flying (after_landing_check setpoint state tick s) = false)
    by (by rewrite flying_after_landing_check).
  pose proof (thrust_cut_when_not_flying setpoint state tick s Hnf) as Ht.
  rewrite Hc. split; [exact Ht|].
  unfold power_distribution. cbn.
  assert (Ht2 : actuatorThrust
                  (rate_pid_update sensors tick
                     (after_landing_check setpoint state tick s)) = F32.of_Z 0).
  { unfold rate_pid_update. destruct (RATE_DO_EXECUTE _ _); cbn; exact Ht. }
  rewrite Ht2. change (F32.eqb (F32.of_Z 0) (F32.of_Z 0)) with true. cbn.
  destruct LQR_ALT_PID; cbn; auto.
Qed.


(** The state after the landing check at an attitude-rate tick. *)
Lemma after_landing_check_at_tick setpoint state tick (s : lqr) :
  RATE_DO_EXECUTE ATTITUDE_RATE tick = true ->
  let pre := before_saturation setpoint state tick s in
  let s2 := after_landing_check setpoint state tick s in
  u s2 = saturate_u (u pre)
  /\ rateDesired s2
     = mk_attitude (times_RAD2DEG (a1 (saturate_u (u pre))))
         (times_RAD2DEG (a2 (saturate_u (u pre))))
         (times_RAD2DEG (a3 (saturate_u (u pre))))
  /\ att s2 = att pre
  /\ actuatorThrust s2
     = (if F32.ltb (F32.of_Z 0) (z (sp_position setpoint))
        then F32.of_Z (to_pwm (a0 (saturate_u (u pre))))
        else F32.of_Z 0).
Proof.
  intros Hrate. cbv zeta.
  destruct (landing_check_is_thrust_cut setpoint state tick s)
    as (H1 & ->).
  rewrite H1.
  unfold saturate_log_convert. rewrite Hrate.
  destruct (F32.ltb _ _); cbn; auto.
Qed.


Lemma last_stages_keep control sensors tick (s2 : lqr) :
  let r := power_distribution control (rate_pid_update sensors tick s2) in
  u (snd r) = u s2 /\ rateDesired (snd r) = rateDesired s2
  /\ actuatorThrust (snd r) = actuatorThrust s2
  /\ ctl_thrust (fst r) = actuatorThrust s2
  /\ err (snd r) = err s2 /\ u_D6 (snd r) = u_D6 s2 /\ cbf (snd r) = cbf s2
  /\ mode (snd r) = mode s2 /\ KD9 (snd r) = KD9 s2 /\ KD6 (snd r) = KD6 s2
  /\ u_T' (snd r) = u_T' s2 /\ u_p (snd r) = u_p s2 /\ u_q (snd r) = u_q s2
  /\ u_r (snd r) = u_r s2.
Proof.
  cbv zeta. unfold power_distribution, rate_pid_update.
  destruct (RATE_DO_EXECUTE ATTITUDE_RATE tick); cbn;
    destruct (F32.eqb _ _); cbn;
    try destruct LQR_ALT_PID; cbn;
    try destruct (attitudeControllerGetActuatorOutput _) as [[? ?] ?];
    cbn; auto 20.
Qed.

Lemma controllerLqr_after_landing_check control setpoint sensors state tick
  (s : lqr) :
  let s2 := after_landing_check setpoint state tick s in
  let r := controllerLqr control setpoint sensors state tick s in
  u (snd r) = u s2 /\ rateDesired (snd r) = rateDesired s2
  /\ actuatorThrust (snd r) = actuatorThrust s2
  /\ ctl_thrust (fst r) = actuatorThrust s2
  /\ err (snd r) = err s2 /\ u_D6 (snd r) = u_D6 s2 /\ cbf (snd r) = cbf s2
  /\ mode (snd r) = mode s2 /\ KD9 (snd r) = KD9 s2 /\ KD6 (snd r) = KD6 s2
  /\ u_T' (snd r) = u_T' s2 /\ u_p (snd r) = u_p s2 /\ u_q (snd r) = u_q s2
  /\ u_r (snd r) = u_r s2.
Proof.
  exact (last_stages_keep control sensors tick
           (after_landing_check setpoint state tick s)).
Qed.

(** X12.  The saturation stage maps a NaN to the upper bound of its
    range: a thrust command that reaches the stage as a NaN leaves it as
    18 m/s^2, the maximum, and when flying the emitted thrust is the PWM
    conversion of 18; a NaN rate leaves it as +3.5 rad/s. *)
Theorem nan_command_saturates_to_the_upper_bound control setpoint sensors
  state tick (s : lqr) :
  RATE_DO_EXECUTE ATTITUDE_RATE tick = true ->
  let pre := u (before_saturation setpoint state tick s) in
  let r := controllerLqr control setpoint sensors state tick s in
  (F32.is_nan (a0 pre) = true ->
   a0 (u (snd r)) = F32.of_Z 18
   /\ (F32.ltb (F32.of_Z 0) (z (sp_position setpoint)) = true ->
       ctl_thrust (fst r) = F32.of_Z (to_pwm (F32.of_Z 18))))
  /\ (F32.is_nan (a1 pre) = true -> a1 (u (snd r)) = F32.lit 35 10)
  /\ (F32.is_nan (a2 pre) = true -> a2 (u (snd r)) = F32.lit 35 10)
  /\ (F32.is_nan (a3 pre) = true -> a3 (u (snd r)) = F32.lit 35 10).
Proof.
  intros Hrate. cbv zeta.
  destruct (controllerLqr_after_landing_check control setpoint sensors state
              tick s) as (-> & _ & _ & -> & _).
  destruct (after_landing_check_at_tick setpoint state tick s Hrate)
    as (-> & _ & _ & ->).
  set (pre := u (before_saturation setpoint state tick s)).
  rewrite saturate_u_sat. cbn [a0 a1 a2 a3].
  assert (Hs : forall lo hi v, F32.is_nan v = true ->
                               sat lo hi v = sat lo hi S754_nan).
  { intros lo hi v Hv. destruct v; (discriminate || reflexivity). }
  split.
  - intros Hn. rewrite (Hs _ _ _ Hn). split; [reflexivity|].
    intros ->. reflexivity.
  - repeat split; intros Hn; rewrite (Hs _ _ _ Hn); reflexivity.
Qed.


(** X13.  The saturation of thrust and rates is idempotent, and a vector
    whose components are already within [0, 18] and [-3.5, 3.5] passes
    through it unchanged. *)
Theorem saturate_u_idempotent (v : float4) :
  saturate_u (saturate_u v) = saturate_u v
  /\ (in_range (F32.of_Z 0) (F32.of_Z 18) (a0 v) ->
      in_range (F32.neg (F32.lit 35 10)) (F32.lit 35 10) (a1 v) ->
      in_range (F32.neg (F32.lit 35 10)) (F32.lit 35 10) (a2 v) ->
      in_range (F32.neg (F32.lit 35 10)) (F32.lit 35 10) (a3 v) ->
      saturate_u v = v).
Proof.
  assert (H18 : exists sb m e, F32.of_Z 18 = S754_finite sb m e)
    by (rewrite f32_18; eauto).
  assert (H35 : exists sb m e, F32.lit 35 10 = S754_finite sb m e)
    by (rewrite f32_3_5; eauto).
  split.
  - rewrite !saturate_u_sat. cbn [a0 a1 a2 a3].
    by rewrite !sat_idempotent.
  - intros H0 H1 H2 H3. rewrite saturate_u_sat.
    rewrite !sat_in_range_fixed by assumption. by destruct v.
Qed.


(** X14.  With the parameter [mode] set to a value other than [D9LQR] and
    [D6LQR], a cycle runs no control law and no attitude cascade: the
    error, [u_D6], the safety-filter channel and the mode are left as they
    were, and (without the altitude PID) the control vector is only
    saturated again. *)
Theorem unknown_mode_runs_no_law control setpoint sensors state tick
  (s : lqr) :
  mode s <> D9LQR -> mode s <> D6LQR ->
  let r := controllerLqr control setpoint sensors state tick s in
  lqr_update setpoint state tick (flying_check setpoint s)
  = flying_check setpoint s
  /\ attitude_pid_update state tick (flying_check setpoint s)
     = flying_check setpoint s
  /\ err (snd r) = err s /\ u_D6 (snd r) = u_D6 s /\ cbf (snd r) = cbf s
  /\ mode (snd r) = mode s
  /\ (LQR_ALT_PID = false ->
      u (snd r) = if RATE_DO_EXECUTE ATTITUDE_RATE tick
                  then saturate_u (u s) else u s).
Proof.
  intros H9 H6. cbv zeta.
  assert (Hm : mode (flying_check setpoint s) = mode s)
    by (unfold flying_check; destruct (F32.ltb _ _); reflexivity).
  assert (Hlaw : lqr_update setpoint state tick (flying_check setpoint s)
                 = flying_check setpoint s).
  { unfold lqr_update. rewrite Hm.
    destruct (Z.eqb_spec (mode s) D9LQR); [done|].
    destruct (Z.eqb_spec (mode s) D6LQR); [done|]. reflexivity. }
  assert (Hatt : attitude_pid_update state tick (flying_check setpoint s)
                 = flying_check setpoint s).
  { unfold attitude_pid_update. rewrite Hm.
    destruct (Z.eqb_spec (mode s) D6LQR); [done|]. reflexivity. }
  split; [exact Hlaw|]. split; [exact Hatt|].
  destruct (controllerLqr_after_landing_check control setpoint sensors state
              tick s) as (-> & _ & _ & _ & -> & -> & -> & -> & _).
  destruct (landing_check_is_thrust_cut setpoint state tick s) as (_ & ->).
  unfold before_saturation. rewrite Hlaw, Hatt.
  unfold altitude_pid_update, saturate_log_convert, flying_check.
  gates; repeat split; first [reflexivity | intros; discriminate].
Qed.

(** X15.  On a tick that is due for none of the four rates, a cycle holds
    the command: control vector, error, desired rates, log values and the
    safety-filter channel (nothing is sent) are unchanged, and the emitted
    thrust is the stored thrust command, or 0 when the setpoint is not
    above ground. *)
Theorem off_tick_holds_the_command control setpoint sensors state tick
  (s : lqr) :
  RATE_DO_EXECUTE D9LQR_RATE tick = false ->
  RATE_DO_EXECUTE D6LQR_RATE tick = false ->
  RATE_DO_EXECUTE ATTITUDE_RATE tick = false ->
  RATE_DO_EXECUTE Z_PID_RATE tick = false ->
  let r := controllerLqr control setpoint sensors state tick s in
  u (snd r) = u s /\ u_D6 (snd r) = u_D6 s /\ err (snd r) = err s
  /\ rateDesired (snd r) = rateDesired s /\ cbf (snd r) = cbf s
  /\ u_T' (snd r) = u_T' s
  /\ ctl_thrust (fst r)
     = (if F32.ltb (F32.of_Z 0) (z (sp_position setpoint))
        then actuatorThrust s else F32.of_Z 0).
Proof.
  intros H9 H6 Ha Hz. cbv zeta.
  destruct (controllerLqr_after_landing_check control setpoint sensors state
              tick s)
    as (-> & -> & _ & -> & -> & -> & -> & _ & _ & _ & -> & _).
  destruct (landing_check_is_thrust_cut setpoint state tick s) as (-> & ->).
  assert (Hlaw : forall s0, lqr_update setpoint state tick s0 = s0).
  { intros s0. unfold lqr_update, lqr_D9, lqr_D6. rewrite H9, H6.
    destruct (_ =? D9LQR); [done|]. by destruct (_ =? D6LQR). }
  assert (Hatt : forall s0, attitude_pid_update state tick s0 = s0).
  { intros s0. unfold attitude_pid_update. rewrite Ha.
    by destruct (_ =? D6LQR). }
  assert (Halt : forall s0, altitude_pid_update setpoint state tick s0 = s0).
  { intros s0. unfold altitude_pid_update. rewrite Hz.
    by destruct LQR_ALT_PID. }
  assert (Hsat : forall s0, saturate_log_convert tick s0 = s0).
  { intros s0. unfold saturate_log_convert. by rewrite Ha. }
  unfold before_saturation. rewrite Hlaw, Hatt, Halt, Hsat.
  unfold flying_check.
  destruct (F32.ltb _ _); cbn; auto 10.
Qed.


(** X16.  What a cycle emits when flying, at an attitude-rate tick: the
    thrust is the PWM conversion of the saturated thrust; the desired
    rates are the saturated rates in deg/s; roll, pitch and yaw are the
    outputs of the attitude controller after its rate update with those
    desired rates, unless the PWM value compares equal to 0, in which case
    they are 0 and the attitude controller is reset. *)
Theorem flying_cycle_outputs control setpoint sensors state tick (s : lqr) :
  RATE_DO_EXECUTE ATTITUDE_RATE tick = true ->
  F32.ltb (F32.of_Z 0) (z (sp_position setpoint)) = true ->
  let pre := before_saturation setpoint state tick s in
  let v := saturate_u (u pre) in
  let thrust := F32.of_Z (to_pwm (a0 v)) in
  let rates := mk_attitude (times_RAD2DEG (a1 v)) (times_RAD2DEG (a2 v))
                 (times_RAD2DEG (a3 v)) in
  let att' := attitudeControllerCorrectRatePID
                (x (gyro sensors)) (y (gyro sensors)) (z (gyro sensors))
                (roll rates) (pitch rates) (yaw rates) (att pre) in
  let r := controllerLqr control setpoint sensors state tick s in
  ctl_thrust (fst r) = thrust
  /\ actuatorThrust (snd r) = thrust
  /\ rateDesired (snd r) = rates
  /\ (F32.eqb thrust (F32.of_Z 0) = false ->
      (ctl_roll (fst r), ctl_pitch (fst r), ctl_yaw (fst r))
      = attitudeControllerGetActuatorOutput att'
      /\ att (snd r) = att')
  /\ (F32.eqb thrust (F32.of_Z 0) = true ->
      (ctl_roll (fst r), ctl_pitch (fst r), ctl_yaw (fst r)) = (0, 0, 0)
      /\ att (snd r) = attitudeControllerResetAllPID att').
Proof.
  intros Hrate Hz. cbv zeta.
  destruct (after_landing_check_at_tick setpoint state tick s Hrate)
    as (Hu & Hr & Ha & Ht).
  rewrite Hz in Ht.
  unfold controllerLqr, power_distribution, rate_pid_update.
  rewrite Hrate.
  set (s2 := after_landing_check setpoint state tick s) in *.
  cbn [actuatorThrust set_att ctl_thrust ctl_roll ctl_pitch ctl_yaw att
       rateDesired fst snd].
  rewrite Ht, Hr, Ha. cbn [roll pitch yaw].
  set (pwm := to_pwm _).
  set (att' := attitudeControllerCorrectRatePID _ _ _ _ _ _ _).
  destruct (F32.eqb (F32.of_Z pwm) (F32.of_Z 0)) eqn:He.
  - destruct LQR_ALT_PID; cbn; rewrite ?Ht, ?Hr; repeat split; done.
  - destruct (attitudeControllerGetActuatorOutput att') as [[? ?] ?] eqn:Eo.
    cbn. rewrite ?Ht, ?Hr. repeat split; done.
Qed.


(** X17.  In a build with the safety filter, the output of the control
    law never reaches the actuators directly.  At a law tick the output of
    the law is put into the request handed to [aideck_send_cbf_data], and
    the control vector becomes the vector stored in the driver after that
    call: the stored vector as it was (always so when the channel was
    Ready), or zero when the fail-safe fired.  This holds for the
    full-state law with [CBF_TYPE_EUL] and for the reduced-state law with
    [CBF_TYPE_POS]. *)
Theorem safety_filter_replaces_the_law setpoint state tick (s : lqr) :
  (forall qp deck,
     cbf s = CBF_EUL qp deck ->
     RATE_DO_EXECUTE D9LQR_RATE tick = true ->
     let qp' := mk_qp_eul (times_DEG2RAD (roll (attitude state)))
                  (times_DEG2RAD (F32.neg (pitch (attitude state))))
                  (u_of_float4 (u (lqr_D9_law setpoint state s))) in
     let deck' := Aideck.aideck_send_cbf_data CBF_TYPE_EUL CBF_ITERS qp' deck in
     let s' := lqr_D9 setpoint state tick s in
     cbf s' = CBF_EUL qp' deck'
     /\ u s' = float4_of_u (Aideck.u_struct deck')
     /\ (u s' = float4_of_u (Aideck.u_struct deck)
         \/ u s' = float4_of_u Aideck.zero_u)
     /\ (Aideck.aideck_ready_flag deck <> 0 ->
         u s' = float4_of_u (Aideck.u_struct deck)))
  /\ (forall qp deck,
        cbf s = CBF_POS qp deck ->
        RATE_DO_EXECUTE D6LQR_RATE tick = true ->
        let qp' := mk_qp_pos (x (position state)) (y (position state))
                     (z (position state)) (x (velocity state))
                     (y (velocity state)) (z (velocity state))
                     (u_of_float4 (u_D6 (lqr_D6_law setpoint state s))) in
        let deck' := Aideck.aideck_send_cbf_data CBF_TYPE_POS CBF_ITERS qp' deck in
        let s' := lqr_D6 setpoint state tick s in
        cbf s' = CBF_POS qp' deck'
        /\ u_D6 s' = float4_of_u (Aideck.u_struct deck')
        /\ (u_D6 s' = float4_of_u (Aideck.u_struct deck)
            \/ u_D6 s' = float4_of_u Aideck.zero_u)
        /\ (Aideck.aideck_ready_flag deck <> 0 ->
            u_D6 s' = float4_of_u (Aideck.u_struct deck))).
Proof.
  split; intros qp deck Hc Hrate; cbv zeta.
  - unfold lqr_D9, apply_cbf_eul. rewrite Hrate.
    change (cbf (lqr_D9_law setpoint state s)) with (cbf s). rewrite Hc.
    cbn [cbf set_cbf set_u u].
    set (qp' := mk_qp_eul _ _ _).
    split; [reflexivity|]. split; [reflexivity|].
    change (float4_of_u (Aideck.aideck_get_safe_u
                           (Aideck.aideck_send_cbf_data CBF_TYPE_EUL CBF_ITERS
                              qp' deck)))
      with (float4_of_u (Aideck.u_struct
                           (Aideck.aideck_send_cbf_data CBF_TYPE_EUL CBF_ITERS
                              qp' deck))).
    split.
    + destruct (send_u_struct CBF_TYPE_EUL CBF_ITERS qp' deck)
        as ([-> | ->] & _); auto.
    + intros Hr. by rewrite send_ready_keeps_u.
  - unfold lqr_D6, apply_cbf_pos. rewrite Hrate.
    change (cbf (lqr_D6_law setpoint state s)) with (cbf s). rewrite Hc.
    cbn [cbf set_cbf set_u_D6 u_D6].
    set (qp' := mk_qp_pos _ _ _ _ _ _ _).
    split; [reflexivity|]. split; [reflexivity|].
    change (float4_of_u (Aideck.aideck_get_safe_u
                           (Aideck.aideck_send_cbf_data CBF_TYPE_POS CBF_ITERS
                              qp' deck)))
      with (float4_of_u (Aideck.u_struct
                           (Aideck.aideck_send_cbf_data CBF_TYPE_POS CBF_ITERS
                              qp' deck))).
    split.
    + destruct (send_u_struct CBF_TYPE_POS CBF_ITERS qp' deck)
        as ([-> | ->] & _); auto.
    + intros Hr. by rewrite send_ready_keeps_u.
Qed.


(** The gains are written by [controllerLqrInit] and [update_K_entry]
    only. *)
Lemma gains_lqr_update setpoint state tick (s : lqr) :
  KD9 (lqr_update setpoint state tick s) = KD9 s
  /\ KD6 (lqr_update setpoint state tick s) = KD6 s.
Proof.
  unfold lqr_update, lqr_D9, lqr_D6, apply_cbf_eul, apply_cbf_pos.
  destruct (_ =? D9LQR); [|destruct (_ =? D6LQR)];
    try destruct (RATE_DO_EXECUTE _ _); try done;
    change (cbf (lqr_D9_law setpoint state s)) with (cbf s);
    change (cbf (lqr_D6_law setpoint state s)) with (cbf s);
    destruct (cbf s); done.
Qed.

Lemma gains_attitude_pid_update state tick (s : lqr) :
  KD9 (attitude_pid_update state tick s) = KD9 s
  /\ KD6 (attitude_pid_update state tick s) = KD6 s.
Proof.
  unfold attitude_pid_update.
  destruct (_ =? D6LQR); [|done].
  destruct (RATE_DO_EXECUTE _ _); [|done].
  cbn. destruct (attitudeControllerCorrectAttitudePID _ _ _ _ _ _ _)
    as [? [[? ?] ?]]. done.
Qed.

Lemma gains_altitude_pid_update setpoint state tick (s : lqr) :
  KD9 (altitude_pid_update setpoint state tick s) = KD9 s
  /\ KD6 (altitude_pid_update setpoint state tick s) = KD6 s.
Proof.
  unfold altitude_pid_update.
  destruct LQR_ALT_PID; [|done].
  destruct (RATE_DO_EXECUTE _ _); [|done].
  cbn. by destruct (pidUpdate _ _ _).
Qed.

Lemma gains_controllerLqr control setpoint sensors state tick (s : lqr) :
  KD9 (snd (controllerLqr control setpoint sensors state tick s)) = KD9 s
  /\ KD6 (snd (controllerLqr control setpoint sensors state tick s)) = KD6 s.
Proof.
  destruct (controllerLqr_after_landing_check control setpoint sensors state
              tick s) as (_ & _ & _ & _ & _ & _ & _ & _ & -> & -> & _).
  destruct (landing_check_is_thrust_cut setpoint state tick s) as (_ & ->).
  set (pre := before_saturation setpoint state tick s).
  assert (Hs : KD9 (saturate_log_convert tick pre) = KD9 pre
               /\ KD6 (saturate_log_convert tick pre) = KD6 pre).
  { unfold saturate_log_convert. by destruct (RATE_DO_EXECUTE _ _). }
  assert (Hp : KD9 pre = KD9 s /\ KD6 pre = KD6 s).
  { subst pre. unfold before_saturation.
    destruct (gains_altitude_pid_update setpoint state tick
                (attitude_pid_update state tick
                   (lqr_update setpoint state tick (flying_check setpoint s))))
      as [-> ->].
    destruct (gains_attitude_pid_update state tick
                (lqr_update setpoint state tick (flying_check setpoint s)))
      as [-> ->].
    destruct (gains_lqr_update setpoint state tick (flying_check setpoint s))
      as [-> ->].
    unfold flying_check. by destruct (F32.ltb _ _). }
  destruct Hs as [Hs9 Hs6], Hp as [Hp9 Hp6].
  destruct (flying (saturate_log_convert tick pre)); cbn; split; congruence.
Qed.

(** X18.  Finite gains stay finite: [controllerLqrInit] leaves finite
    gain matrices finite, [update_K_entry] with a finite value leaves
    [KD9] finite and [KD6] untouched, and [controllerLqr] never writes
    the gains. *)
Theorem gains_stay_finite (s : lqr) :
  (finite_gains (KD9 s) -> finite_gains (KD6 s) ->
   finite_gains (KD9 (controllerLqrInit_gains s))
   /\ finite_gains (KD6 (controllerLqrInit_gains s)))
  /\ (forall i j value s',
        finite_gains (KD9 s) -> F32.is_finite value = true ->
        update_K_entry i j value s = Some s' ->
        finite_gains (KD9 s') /\ KD6 s' = KD6 s)
  /\ (forall control setpoint sensors state tick,
        KD9 (snd (controllerLqr control setpoint sensors state tick s)) = KD9 s
        /\ KD6 (snd (controllerLqr control setpoint sensors state tick s))
           = KD6 s).
Proof.
  split; [|split].
  - intros H9 H6. unfold controllerLqrInit_gains, finite_gains.
    cbn [KD9 KD6 set_KD9 set_KD6 cbf].
    split.
    + repeat apply Forall_insert; try exact H9; reflexivity.
    + destruct (cbf s); repeat apply Forall_insert; try exact H6; reflexivity.
  - intros i j value s' H9 Hv. unfold update_K_entry.
    destruct (_ <? _); [|discriminate]. intros [= <-]. cbn.
    split; [|reflexivity]. by apply Forall_insert.
  - intros. apply gains_controllerLqr.
Qed.

(** X19.  When row 3 of [KD6] is zero (as [controllerLqrInit] leaves it:
    it assigns no entry of that row) and the position and velocity errors
    are finite, the yaw component computed by the reduced-state law is the
    yaw setpoint itself, independent of the state; for a zero yaw setpoint
    it is a zero. *)
Theorem reduced_state_yaw_passes_through setpoint state (s : lqr) :
  (forall j : nat, (j < 6)%nat -> F32.is_zero (K6 (KD6 s) 3 j) = true) ->
  let e := err_D6 setpoint state (err s) in
  F32.is_finite (x (position e)) = true ->
  F32.is_finite (y (position e)) = true ->
  F32.is_finite (z (position e)) = true ->
  F32.is_finite (x (velocity e)) = true ->
  F32.is_finite (y (velocity e)) = true ->
  F32.is_finite (z (velocity e)) = true ->
  let v := a3 (u_D6 (lqr_D6_law setpoint state s)) in
  (F32.is_zero (yaw (sp_attitude setpoint)) = false ->
   v = yaw (sp_attitude setpoint))
  /\ (F32.is_zero (yaw (sp_attitude setpoint)) = true ->
      F32.is_zero v = true).
Proof.
  intros HK e H1 H2 H3 H4 H5 H6. cbv zeta.
  unfold lqr_D6_law.
  cbn [u_D6 set_u_D6 set_err err KD6 a3]. fold e.
  assert (Hz : F32.is_zero (feedback_D6 (KD6 s) e 3) = true).
  { unfold feedback_D6. apply neg_zero.
    repeat apply add_zero_zero; apply mul_zero_finite; auto; apply HK; lia. }
  split; intros Hy.
  - by apply add_zero_l.
  - by apply add_zero_zero.
Qed.

End ControllerCycle.

(** *** The added properties on concrete inputs *)

Lemma X6_witness :
  Aideck.Gap8Task_iteration CBF_TYPE_POS false
    (Aideck.frame_received Rig.reply_a (deck_init CBF_TYPE_POS false))
  = Aideck.Gap8Task_iteration CBF_TYPE_POS false
      (Aideck.frame_received Rig.reply_b (deck_init CBF_TYPE_POS false))
  /\ Rig.reply_a <> Rig.reply_b.
Proof.
  assert (Ha : header Rig.reply_a = CHAR_V) by reflexivity.
  assert (Hb : header Rig.reply_b = CHAR_V) by reflexivity.
  assert (Hd : forall i : nat, Z.of_nat i < Aideck.sizeof_u_struct false ->
                 data Rig.reply_a !!! i = data Rig.reply_b !!! i).
  { intros i Hi. do 16 (destruct i as [|i]; [reflexivity|]).
    cbn in Hi. lia. }
  destruct (reply_is_read_within_the_buffer CBF_TYPE_POS false
              Rig.reply_a Rig.reply_b (deck_init CBF_TYPE_POS false) Ha Hb Hd)
    as (_ & He).
  split; [exact He|discriminate].
Defined.

Lemma X9_witness :
  hex_to_char 167 = (97, 55)
  /\ exists hi lo,
       hex_digit 97 = Some hi /\ hex_digit 55 = Some lo
       /\ 16 * hi + lo = 167.
Proof.
  assert (Hb : 0 <= 167 < 256) by lia.
  destruct (hex_to_char_round_trip 167 Hb) as (hi & lo & H1 & H2 & _ & _ & H3).
  split; [reflexivity|]. exists hi, lo. auto.
Defined.

Lemma X7_witness :
  exists payload,
    Aideck.uart Run.s_sent
    = [USART_DMA_Send 17 (CHAR_V :: payload)]
    /\ payload_int16 payload 0 = 100
    /\ payload_int16 payload 2 = -200
    /\ payload_int16 payload 4 = 9810.
Proof.
  assert (Hr : Aideck.aideck_ready_flag (deck_init CBF_TYPE_EUL false) <> 0)
    by (vm_compute; discriminate).
  assert (Htx : Aideck.pk_tx (deck_init CBF_TYPE_EUL false)
                = Aideck.cleared_packet CBF_TYPE_EUL false) by reflexivity.
  destruct (request_frame_reads_back CBF_TYPE_EUL false Run.d0
              (deck_init CBF_TYPE_EUL false) Hr Htx)
    as (payload & Hs & _ & _ & Hk).
  exists payload. split; [exact Hs|].
  pose proof (Hk 0%nat _ eq_refl) as K0.
  pose proof (Hk 1%nat _ eq_refl) as K1.
  pose proof (Hk 2%nat _ eq_refl) as K2.
  change (2 * 0)%nat with 0%nat in K0.
  change (2 * 1)%nat with 2%nat in K1.
  change (2 * 2)%nat with 4%nat in K2.
  rewrite K0, K1, K2. vm_compute. auto.
Defined.

Lemma X10_witness :
  exists body,
    tx_dump CBF_TYPE_EUL false
      (packed_frame CBF_TYPE_EUL false Run.d0 (deck_init CBF_TYPE_EUL false))
    = [84; 88; 32; 86] ++ body
    /\ read_hex body
       = Some [100; 0; 56; 255; 82; 38; 100; 0; 206; 255; 0; 0; 0; 0; 0; 0].
Proof.
  assert (Hr : Aideck.aideck_ready_flag (deck_init CBF_TYPE_EUL false) <> 0)
    by (vm_compute; discriminate).
  assert (Htx : Aideck.pk_tx (deck_init CBF_TYPE_EUL false)
                = Aideck.cleared_packet CBF_TYPE_EUL false) by reflexivity.
  destruct (debug_dump_shows_the_frame_sent CBF_TYPE_EUL false Run.d0
              (deck_init CBF_TYPE_EUL false) Hr Htx)
    as (_ & _ & body & Hb & Hread).
  exists body. split; [exact Hb|]. rewrite Hread. vm_compute. reflexivity.
Defined.

Lemma X12_witness :
  a0 (Lqr.u (Lqr.before_saturation Bench.sp_hover Bench.st_hover 0 Bench.s_inf))
  = S754_nan
  /\ a0 (Lqr.u (snd (Lqr.controllerLqr Bench.control0 Bench.sp_hover
                       Bench.sensors0 Bench.st_hover 0 Bench.s_inf)))
     = F32.of_Z 18.
Proof.
  assert (Hrate : RATE_DO_EXECUTE (Platform := Bench.platform)
                    (ATTITUDE_RATE (Platform := Bench.platform)) 0 = true)
    by (vm_compute; reflexivity).
  assert (Hn : a0 (Lqr.u (Lqr.before_saturation Bench.sp_hover Bench.st_hover
                            0 Bench.s_inf)) = S754_nan)
    by (vm_compute; reflexivity).
  destruct (nan_command_saturates_to_the_upper_bound Bench.control0
              Bench.sp_hover Bench.sensors0 Bench.st_hover 0 Bench.s_inf Hrate)
    as (H0 & _).
  split; [exact Hn|]. apply H0. rewrite Hn. reflexivity.
Defined.

Lemma X14_witness :
  Lqr.mode Rig.s_mode2 = 2
  /\ Lqr.err (snd (Lqr.controllerLqr Bench.control0 Bench.sp_hover
                     Bench.sensors0 Bench.st_hover 0 Rig.s_mode2))
     = Lqr.err Rig.s_mode2
  /\ Lqr.u_D6 (snd (Lqr.controllerLqr Bench.control0 Bench.sp_hover
                      Bench.sensors0 Bench.st_hover 0 Rig.s_mode2))
     = Lqr.u_D6 Rig.s_mode2.
Proof.
  assert (H9 : Lqr.mode Rig.s_mode2 <> Lqr.D9LQR) by (vm_compute; discriminate).
  assert (H6 : Lqr.mode Rig.s_mode2 <> Lqr.D6LQR) by (vm_compute; discriminate).
  destruct (unknown_mode_runs_no_law Bench.control0 Bench.sp_hover
              Bench.sensors0 Bench.st_hover 0 Rig.s_mode2 H9 H6)
    as (_ & _ & He & Hu & _).
  split; [reflexivity|]. split; [exact He|exact Hu].
Defined.

Lemma X15_witness :
  Lqr.u (snd (Lqr.controllerLqr Bench.control0 Bench.sp_hover Bench.sensors0
                Bench.st_hover 1 Bench.s_init))
  = Lqr.u Bench.s_init
  /\ ctl_thrust (fst (Lqr.controllerLqr Bench.control0 Bench.sp_hover
                        Bench.sensors0 Bench.st_hover 1 Bench.s_init))
     = Lqr.actuatorThrust Bench.s_init.
Proof.
  assert (H9 : RATE_DO_EXECUTE (Platform := Bench.platform)
                 (D9LQR_RATE (Platform := Bench.platform)) 1 = false)
    by (vm_compute; reflexivity).
  assert (H6 : RATE_DO_EXECUTE (Platform := Bench.platform)
                 (D6LQR_RATE (Platform := Bench.platform)) 1 = false)
    by (vm_compute; reflexivity).
  assert (Ha : RATE_DO_EXECUTE (Platform := Bench.platform)
                 (ATTITUDE_RATE (Platform := Bench.platform)) 1 = false)
    by (vm_compute; reflexivity).
  assert (Hz : RATE_DO_EXECUTE (Platform := Bench.platform)
                 (Z_PID_RATE (Platform := Bench.platform)) 1 = false)
    by (vm_compute; reflexivity).
  destruct (off_tick_holds_the_command Bench.control0 Bench.sp_hover
              Bench.sensors0 Bench.st_hover 1 Bench.s_init H9 H6 Ha Hz)
    as (Hu & _ & _ & _ & _ & _ & Ht).
  split; [exact Hu|]. rewrite Ht. reflexivity.
Defined.

Lemma X16_witness :
  ctl_thrust (fst (Lqr.controllerLqr Bench.control0 Bench.sp_hover
                     Bench.sensors0 Bench.st_hover 0 Bench.s_init))
  = F32.of_Z
      (Lqr.to_pwm (P := Bench.platform)
         (a0 (Lqr.saturate_u
                (Lqr.u (Lqr.before_saturation Bench.sp_hover Bench.st_hover 0
                          Bench.s_init)))))
  /\ Lqr.rateDesired
       (snd (Lqr.controllerLqr Bench.control0 Bench.sp_hover Bench.sensors0
               Bench.st_hover 0 Bench.s_init))
     = Bench.zero_att.
Proof.
  assert (Hrate : RATE_DO_EXECUTE (Platform := Bench.platform)
                    (ATTITUDE_RATE (Platform := Bench.platform)) 0 = true)
    by (vm_compute; reflexivity).
  assert (Hz : F32.ltb (F32.of_Z 0) (z (sp_position Bench.sp_hover)) = true)
    by (vm_compute; reflexivity).
  destruct (flying_cycle_outputs Bench.control0 Bench.sp_hover Bench.sensors0
              Bench.st_hover 0 Bench.s_init Hrate Hz)
    as (Ht & _ & Hr & _).
  split; [exact Ht|]. rewrite Hr. vm_compute. reflexivity.
Defined.

Lemma X17_witness :
  Lqr.u (Lqr.lqr_D9 Bench.sp_hover Bench.st_hover 0 Rig.s_cbf)
  = mk_float4 (F32.lit 981 100) F32.zero F32.zero F32.zero
  /\ Lqr.u (Lqr.lqr_D9_law Bench.sp_hover Bench.st_hover Rig.s_cbf)
     <> mk_float4 (F32.lit 981 100) F32.zero F32.zero F32.zero.
Proof.
  assert (Hc : Lqr.cbf Rig.s_cbf = CBF_EUL Run.d0 Run.s_replied)
    by reflexivity.
  assert (Hrate : RATE_DO_EXECUTE (Platform := Bench.platform)
                    (D9LQR_RATE (Platform := Bench.platform)) 0 = true)
    by (vm_compute; reflexivity).
  assert (Hr : Aideck.aideck_ready_flag Run.s_replied <> 0)
    by (vm_compute; discriminate).
  destruct (safety_filter_replaces_the_law Bench.sp_hover Bench.st_hover 0
              Rig.s_cbf) as (He & _).
  destruct (He Run.d0 Run.s_replied Hc Hrate) as (_ & _ & _ & Hu).
  split.
  - rewrite (Hu Hr). vm_compute. reflexivity.
  - vm_compute. discriminate.
Defined.

Lemma X19_witness :
  a3 (Lqr.u_D6 (Lqr.lqr_D6_law Rig.sp_yaw Bench.st_hover Rig.s_D6))
  = F32.of_Z 1.
Proof.
  assert (HK : forall j : nat, (j < 6)%nat ->
                 F32.is_zero (Lqr.K6 (Lqr.KD6 Rig.s_D6) 3 j) = true).
  { intros j Hj. do 6 (destruct j as [|j]; [reflexivity|]). lia. }
  assert (Hy : F32.is_zero (yaw (sp_attitude Rig.sp_yaw)) = false)
    by (vm_compute; reflexivity).
  refine (proj1 (reduced_state_yaw_passes_through Rig.sp_yaw Bench.st_hover
                   Rig.s_D6 HK _ _ _ _ _ _) Hy);
    vm_compute; reflexivity.
Defined.

(** ** The safety filter and the mode *)

Section Bypass.

Import Lqr.

Context {P : Platform}.

Local Opaque Aideck.aideck_send_cbf_data.

Lemma cbf_attitude_pid_update state tick (s : lqr) :
  cbf (attitude_pid_update state tick s) = cbf s.
Proof.
  unfold attitude_pid_update.
  destruct (_ =? D6LQR); [|done].
  destruct (RATE_DO_EXECUTE _ _); [|done].
  cbn. destruct (attitudeControllerCorrectAttitudePID _ _ _ _ _ _ _)
    as [? [[? ?] ?]]. done.
Qed.

Lemma cbf_altitude_pid_update setpoint state tick (s : lqr) :
  cbf (altitude_pid_update setpoint state tick s) = cbf s.
Proof.
  unfold altitude_pid_update.
  destruct LQR_ALT_PID; [|done].
  destruct (RATE_DO_EXECUTE _ _); [|done].
  cbn. by destruct (pidUpdate _ _ _).
Qed.

(** Only the law stage touches the safety-filter channel. *)
Lemma cbf_controllerLqr control setpoint sensors state tick (s : lqr) :
  cbf (snd (controllerLqr control setpoint sensors state tick s))
  = cbf (lqr_update setpoint state tick (flying_check setpoint s)).
Proof.
  destruct (controllerLqr_after_landing_check control setpoint sensors state
              tick s) as (_ & _ & _ & _ & _ & _ & -> & _).
  destruct (landing_check_is_thrust_cut setpoint state tick s) as (_ & ->).
  set (pre := before_saturation setpoint state tick s).
  assert (Hs : cbf (saturate_log_convert tick pre) = cbf pre).
  { unfold saturate_log_convert. by destruct (RATE_DO_EXECUTE _ _). }
  assert (Hp : cbf pre
               = cbf (lqr_update setpoint state tick (flying_check setpoint s))).
  { subst pre. unfold before_saturation.
    by rewrite cbf_altitude_pid_update, cbf_attitude_pid_update. }
  destruct (flying (saturate_log_convert tick pre)); cbn; congruence.
Qed.

(** X21.  The safety filter is tied to one law.  In a [CBF_TYPE_EUL] build
    only the full-state law calls the filter: with any other [mode] a
    cycle leaves the channel untouched (nothing is sent, nothing is read)
    and the reduced-state law's output is used as computed.  In a
    [CBF_TYPE_POS] build the same holds with the two laws exchanged, and a
    build without the filter never touches the channel. *)
Theorem filter_is_bypassed_by_the_other_law control setpoint sensors state
  tick (s : lqr) :
  let r := controllerLqr control setpoint sensors state tick s in
  (forall qp deck,
     cbf s = CBF_EUL qp deck ->
     (mode s <> D9LQR -> cbf (snd r) = cbf s)
     /\ (RATE_DO_EXECUTE D6LQR_RATE tick = true ->
         lqr_D6 setpoint state tick s = lqr_D6_law setpoint state s))
  /\ (forall qp deck,
        cbf s = CBF_POS qp deck ->
        (mode s <> D6LQR -> cbf (snd r) = cbf s)
        /\ (RATE_DO_EXECUTE D9LQR_RATE tick = true ->
            lqr_D9 setpoint state tick s = lqr_D9_law setpoint state s))
  /\ (cbf s = CBF_NONE -> cbf (snd r) = CBF_NONE).
Proof.
  cbv zeta. rewrite cbf_controllerLqr.
  assert (Hm : mode (flying_check setpoint s) = mode s)
    by (unfold flying_check; destruct (F32.ltb _ _); reflexivity).
  assert (Hc : cbf (flying_check setpoint s) = cbf s)
    by (unfold flying_check; destruct (F32.ltb _ _); reflexivity).
  unfold lqr_update. rewrite Hm.
  split; [|split].
  - intros qp deck Hcbf. split.
    + intros H9. destruct (Z.eqb_spec (mode s) D9LQR); [done|].
      destruct (_ =? D6LQR); [|exact Hc].
      unfold lqr_D6, apply_cbf_pos.
      destruct (RATE_DO_EXECUTE _ _); [|exact Hc].
      change (cbf (lqr_D6_law setpoint state (flying_check setpoint s)))
        with (cbf (flying_check setpoint s)).
      rewrite Hc, Hcbf. cbn. by rewrite Hc.
    + intros Hr. unfold lqr_D6, apply_cbf_pos. rewrite Hr.
      change (cbf (lqr_D6_law setpoint state s)) with (cbf s).
      by rewrite Hcbf.
  - intros qp deck Hcbf. split.
    + intros H6. destruct (Z.eqb_spec (mode s) D6LQR); [done|].
      destruct (_ =? D9LQR); [|exact Hc].
      unfold lqr_D9, apply_cbf_eul.
      destruct (RATE_DO_EXECUTE _ _); [|exact Hc].
      change (cbf (lqr_D9_law setpoint state (flying_check setpoint s)))
        with (cbf (flying_check setpoint s)).
      rewrite Hc, Hcbf. cbn. by rewrite Hc.
    + intros Hr. unfold lqr_D9, apply_cbf_eul. rewrite Hr.
      change (cbf (lqr_D9_law setpoint state s)) with (cbf s).
      by rewrite Hcbf.
  - intros Hcbf.
    assert (Hf : cbf (flying_check setpoint s) = CBF_NONE) by congruence.
    unfold lqr_D9, lqr_D6, apply_cbf_eul, apply_cbf_pos.
    change (cbf (lqr_D9_law setpoint state (flying_check setpoint s)))
      with (cbf (flying_check setpoint s)).
    change (cbf (lqr_D6_law setpoint state (flying_check setpoint s)))
      with (cbf (flying_check setpoint s)).
    rewrite Hf.
    destruct (_ =? D9LQR); [|destruct (_ =? D6LQR)];
      try destruct (RATE_DO_EXECUTE _ _); exact Hf.
Qed.

End Bypass.

(** ** Rounding of products and quotients *)

Lemma shr_1_unit_inv (N X : Z) (mrs : shr_record) :
  0 < X -> shr_unit_inv N X mrs -> shr_unit_inv N (2 * X) (shr_1 mrs).
Proof.
  intros HX [Hm (l & Hl & HN & Hs)].
  destruct mrs as [m r s]. cbn [shr_m shr_r shr_s] in *.
  assert (Hs' : orb r s = negb (Z.b2z r * X + l =? 0)).
  { subst s. destruct r; cbn [Z.b2z orb].
    - symmetry. apply negb_true_iff, Z.eqb_neq. lia.
    - reflexivity. }
  unfold shr_unit_inv, shr_1.
  destruct m as [|[p|p|]|p]; try lia; cbn [shr_m shr_r shr_s];
    (split; [lia|]); exists (Z.b2z r * X + l); cbn [Z.b2z];
    (split; [destruct r; cbn [Z.b2z]; lia|]);
    (split; [|exact Hs']);
    try pose proof (Pos2Z.inj_xI p); try pose proof (Pos2Z.inj_xO p); lia.
Qed.

Lemma iter_pos_shr_unit_inv (p : positive) :
  forall (N X : Z) (mrs : shr_record),
    0 < X -> shr_unit_inv N X mrs ->
    shr_unit_inv N (2 ^ Zpos p * X) (SpecFloat.iter_pos shr_1 p mrs).
Proof.
  induction p as [p IH|p IH|]; intros N X mrs HX Hinv;
    cbn [SpecFloat.iter_pos].
  - assert (HP : 0 < 2 ^ Zpos p) by (apply Z.pow_pos_nonneg; lia).
    replace (2 ^ Zpos p~1 * X) with (2 ^ Zpos p * (2 ^ Zpos p * (2 * X))).
    + apply IH; [nia|]. apply IH; [lia|]. by apply shr_1_unit_inv.
    + rewrite (Pos2Z.inj_xI p).
      replace (2 * Zpos p + 1) with (Zpos p + Zpos p + 1) by lia.
      rewrite !Z.pow_add_r by lia. change (2 ^ 1) with 2. ring.
  - assert (HP : 0 < 2 ^ Zpos p) by (apply Z.pow_pos_nonneg; lia).
    replace (2 ^ Zpos p~0 * X) with (2 ^ Zpos p * (2 ^ Zpos p * X)).
    + apply IH; [nia|]. by apply IH.
    + rewrite (Pos2Z.inj_xO p).
      replace (2 * Zpos p) with (Zpos p + Zpos p) by lia.
      rewrite !Z.pow_add_r by lia. ring.
  - change (2 ^ 1) with 2. by apply shr_1_unit_inv.
Qed.

(** Rounding to nearest even against the multiples of the unit. *)
Lemma rounded_unit_bounds (N X : Z) (mrs : shr_record) :
  0 < X -> shr_unit_inv N X mrs ->
  shr_m mrs <= rounded mrs <= shr_m mrs + 1
  /\ (forall J, N <= J * X -> rounded mrs <= J)
  /\ (forall J, J * X <= N -> J <= rounded mrs)
  /\ (forall J, 2 * N < (2 * J + 1) * X -> rounded mrs <= J).
Proof.
  intros HX [Hm (l & Hl & HN & Hs)].
  destruct mrs as [m r s]. cbn [shr_m shr_r shr_s] in *.
  unfold rounded, loc_of_shr_record, round_nearest_even.
  cbn [shr_m shr_r shr_s].
  assert (Hrange :
            m <= (match (if r then if s then loc_Inexact Gt
                                   else loc_Inexact Eq
                         else if s then loc_Inexact Lt else loc_Exact)
                  with
                  | loc_Exact => m
                  | loc_Inexact Lt => m
                  | loc_Inexact Eq => if Z.even m then m else m + 1
                  | loc_Inexact Gt => m + 1
                  end) <= m + 1).
  { destruct r, s; cbn; try destruct (Z.even m); lia. }
  destruct r, s; cbn [Z.b2z] in *; cbn -[Z.mul Z.add Z.even] in *.
  all: split; [exact Hrange|].
  all: split; [intros J HJ|split; [intros J HJ|intros J HJ]].
  all: try (destruct (Z.even m) eqn:Hem).
  all: try (symmetry in Hs; apply negb_false_iff, Z.eqb_eq in Hs).
  all: try (symmetry in Hs; apply negb_true_iff, Z.eqb_neq in Hs).
  all: try nia.
Qed.

Lemma Zdigits2_bound (q : Z) : 0 <= q -> 0 <= Zdigits2 q /\ q < 2 ^ Zdigits2 q.
Proof.
  intros Hq. destruct q as [|p|p]; [cbn; lia| |lia].
  cbn [Zdigits2]. pose proof (digits2_pos_bounds p). lia.
Qed.

(** The result of rounding a value [N/X * 2^E] whose integral part and
    location are [q] and [loc]: the quotient is shifted to the exponent
    [t], rounded, and renormalised when the rounding carried into the 25th
    bit. *)
Lemma binary_round_aux_unit (sx : bool) (q E : Z) (loc : location) (N X : Z) :
  0 < X -> 0 <= q ->
  shr_unit_inv N X (shr_record_of_loc q loc) ->
  let t := Z.max E (fexp 24 128 (Zdigits2 q + E)) in
  t <= 103 ->
  exists mrs,
    shr_unit_inv N (2 ^ (t - E) * X) mrs
    /\ ((rounded mrs = 0
         /\ binary_round_aux 24 128 sx q E loc = S754_zero sx)
        \/ exists m e,
            binary_round_aux 24 128 sx q E loc = S754_finite sx m e
            /\ ((e = t /\ Zpos m = rounded mrs)
                \/ (e = t + 1 /\ rounded mrs = 2 ^ 24
                    /\ m = 8388608%positive))).
Proof.
  intros HX Hq Hinit t Ht.
  destruct (Zdigits2_bound q Hq) as [Hd0 Hdq].
  set (d := Zdigits2 q) in *.
  pose proof (fexp_ge (d + E)) as [Hf1 Hf2].
  unfold binary_round_aux, shr_fexp. fold d.
  assert (Hq0 : q * X <= N < (q + 1) * X).
  { destruct Hinit as [_ (l & Hl & HN & _)].
    destruct loc as [|[]]; cbn [shr_record_of_loc shr_m shr_r Z.b2z] in HN;
      nia. }
  assert (H1 : exists mrs,
             shr (shr_record_of_loc q loc) E (fexp 24 128 (d + E) - E)
             = (mrs, t)
             /\ shr_unit_inv N (2 ^ (t - E) * X) mrs /\ shr_m mrs < 2 ^ 24).
  { unfold shr. destruct (fexp 24 128 (d + E) - E) as [|p|p] eqn:Hk.
    - exists (shr_record_of_loc q loc).
      replace t with E by lia. split; [reflexivity|].
      replace (E - E) with 0 by lia. change (2 ^ 0) with 1.
      rewrite Z.mul_1_l. split; [exact Hinit|].
      assert (d <= 24) by lia.
      assert (2 ^ d <= 2 ^ 24) by (apply Z.pow_le_mono_r; lia).
      destruct loc as [|[]]; cbn [shr_record_of_loc shr_m]; lia.
    - exists (SpecFloat.iter_pos shr_1 p (shr_record_of_loc q loc)).
      assert (Hte : t = E + Zpos p) by lia.
      rewrite Hte. split; [reflexivity|].
      replace (E + Zpos p - E) with (Zpos p) by lia.
      assert (Hinv := iter_pos_shr_unit_inv p N X _ HX Hinit).
      split; [exact Hinv|].
      destruct Hinv as [Hm (l & Hl & HN & _)].
      set (m := shr_m _) in *. clearbody m.
      assert (HP : 0 < 2 ^ Zpos p) by (apply Z.pow_pos_nonneg; lia).
      assert (Hd : d <= Zpos p + 24) by lia.
      assert (Hpw : 2 ^ d <= 2 ^ (Zpos p + 24))
        by (apply Z.pow_le_mono_r; lia).
      rewrite Z.pow_add_r in Hpw by lia.
      assert (Hb : 0 <= Z.b2z (shr_r
                    (SpecFloat.iter_pos shr_1 p (shr_record_of_loc q loc))))
        by (destruct (shr_r _); cbn; lia).
      set (b := Z.b2z _) in *. clearbody b.
      set (Pp := 2 ^ Zpos p) in *. clearbody Pp.
      assert (Hmq : m * Pp <= q).
      { assert (m * Pp * X < (q + 1) * X) by nia.
        assert (m * Pp < q + 1) by nia. lia. }
      nia.
    - exists (shr_record_of_loc q loc).
      replace t with E by lia. split; [reflexivity|].
      replace (E - E) with 0 by lia. change (2 ^ 0) with 1.
      rewrite Z.mul_1_l. split; [exact Hinit|].
      assert (d <= 24) by lia.
      assert (2 ^ d <= 2 ^ 24) by (apply Z.pow_le_mono_r; lia).
      destruct loc as [|[]]; cbn [shr_record_of_loc shr_m]; lia. }
  destruct H1 as (mrs & -> & Hinv & Hlt).
  exists mrs. split; [exact Hinv|].
  assert (HX' : 0 < 2 ^ (t - E) * X).
  { assert (0 < 2 ^ (t - E)) by (apply Z.pow_pos_nonneg; lia). nia. }
  destruct (rounded_unit_bounds _ _ _ HX' Hinv) as ((Hr1 & Hr2) & _).
  fold (rounded mrs).
  assert (Hm0 : 0 <= shr_m mrs) by (destruct Hinv; assumption).
  set (m1 := rounded mrs) in *. clearbody m1.
  assert (Ht149 : -149 <= t) by lia.
  destruct m1 as [|q1|q1]; [| |lia].
  - left. split; [reflexivity|].
    cbn [Zdigits2 shr_record_of_loc]. unfold shr.
    rewrite fexp_eq.
    destruct (Z.max (0 + t - 24) (-149) - t) eqn:Hk; try lia; reflexivity.
  - right.
    pose proof (digits2_pos_bounds q1) as Hdq1.
    cbn [Zdigits2 shr_record_of_loc]. unfold shr. rewrite fexp_eq.
    set (dq := Zpos (digits2_pos q1)) in *.
    destruct (Z_le_gt_dec dq 24) as [Hle|Hgt].
    + exists q1, t.
      destruct (Z.max (dq + t - 24) (-149) - t) eqn:Hk; try lia;
        cbn [shr_m];
        (destruct (Z.leb_spec t (128 - 24)); [|lia]);
        (split; [reflexivity|]); left; split; reflexivity.
    + assert (Hq1 : Zpos q1 = 2 ^ 24).
      { assert (2 ^ 24 <= 2 ^ (dq - 1)) by (apply Z.pow_le_mono_r; lia).
        lia. }
      assert (Hdq25 : dq = 25).
      { destruct (Z_le_gt_dec dq 25); [lia|].
        assert (2 ^ 25 <= 2 ^ (dq - 1)) by (apply Z.pow_le_mono_r; lia).
        change (2 ^ 25) with 33554432 in *. change (2 ^ 24) with 16777216 in *.
        lia. }
      exists 8388608%positive, (t + 1).
      assert (Hk : Z.max (dq + t - 24) (-149) - t = 1) by lia.
      rewrite Hk. cbn [SpecFloat.iter_pos].
      assert (Hq1' := Hq1).
      change (2 ^ 24) with 16777216 in Hq1'. injection Hq1' as ->.
      cbn [shr_1 shr_m].
      destruct (Z.leb_spec (t + 1) (128 - 24)); [|lia].
      split; [reflexivity|]. right. repeat split.
Qed.

(** The quotient and the location computed by the division core:
    [Zpos m1 * 2^s] divided by [Zpos m2], at the exponent [e']. *)
Lemma SFdiv_core_unit_inv (m1 m2 : positive) (e1 e2 : Z) :
  let e' := Z.min (fexp 24 128 (Zdigits2 (Zpos m1) + e1
                                - (Zdigits2 (Zpos m2) + e2))) (e1 - e2) in
  let N := Zpos m1 * 2 ^ (e1 - e2 - e') in
  exists q loc,
    SFdiv_core_binary 24 128 (Zpos m1) e1 (Zpos m2) e2 = (q, e', loc)
    /\ 0 <= q
    /\ shr_unit_inv N (Zpos m2) (shr_record_of_loc q loc).
Proof.
  intros e' N. unfold SFdiv_core_binary. fold e'.
  assert (Hs : 0 <= e1 - e2 - e') by lia.
  assert (Hm' : match e1 - e2 - e' with
                | Zpos _ => Z.shiftl (Zpos m1) (e1 - e2 - e')
                | Z0 => Zpos m1
                | Zneg _ => 0
                end = N).
  { subst N. destruct (e1 - e2 - e') as [|p|p] eqn:Hk; [|
      by rewrite Z.shiftl_mul_pow2|lia].
    change (2 ^ 0) with 1. lia. }
  rewrite Hm'.
  assert (HN : 0 < N).
  { subst N. assert (0 < 2 ^ (e1 - e2 - e'))
      by (apply Z.pow_pos_nonneg; lia). nia. }
  clearbody N. clear Hm'.
  pose proof (Z_div_mod N (Zpos m2) ltac:(lia)) as Hdm.
  destruct (Z.div_eucl N (Zpos m2)) as [q r].
  destruct Hdm as [Hdm Hr].
  assert (Hq : 0 <= q) by nia.
  exists q, (new_location (Zpos m2) r). split; [reflexivity|].
  split; [exact Hq|].
  unfold new_location, new_location_even, new_location_odd.
  destruct (Z.even (Zpos m2)) eqn:Hev.
  - destruct (Z.eqb_spec r 0) as [->|Hr0].
    + split; [exact Hq|]. exists 0. cbn. repeat split; lia.
    + destruct (Z.compare_spec (2 * r) (Zpos m2)) as [He|Hl|Hg];
        (split; [exact Hq|]); cbn [shr_record_of_loc shr_m shr_r shr_s Z.b2z].
      * exists 0. repeat split; lia.
      * exists (2 * r). repeat split; lia.
      * exists (2 * r - Zpos m2). repeat split; lia.
  - assert (Hodd : Zpos m2 <> 2 * r).
    { intros Heq. rewrite Heq, Z.even_mul in Hev. discriminate. }
    destruct (Z.eqb_spec r 0) as [->|Hr0].
    + split; [exact Hq|]. exists 0. cbn. repeat split; lia.
    + destruct (Z.compare_spec (2 * r + 1) (Zpos m2)) as [He|Hl|Hg];
        (split; [exact Hq|]); cbn [shr_record_of_loc shr_m shr_r shr_s Z.b2z].
      * exists (2 * r). repeat split; lia.
      * exists (2 * r). repeat split; lia.
      * exists (2 * r - Zpos m2). repeat split; lia.
Qed.

Lemma leb_finite_pos (m mc : positive) (e ec : Z) :
  e < ec \/ (e = ec /\ Zpos m <= Zpos mc) ->
  F32.leb (S754_finite false m e) (S754_finite false mc ec) = true.
Proof.
  intros H. unfold F32.leb, SFleb, SFcompare.
  destruct (Z.compare_spec e ec) as [He|He|He]; [|reflexivity|lia].
  destruct H as [H|[_ H]]; [lia|].
  change (Pos.compare_cont Eq m mc) with (Pos.compare m mc).
  destruct (Pos.compare_spec m mc); try reflexivity. lia.
Qed.

(** An upper bound on a rounded value: when the value is at most the
    float [mc * 2^ec], or the grid is that of the float and the value is
    below the midpoint above it, the result is at most that float. *)
Lemma binary_round_aux_le (q E : Z) (loc : location) (N X : Z)
  (mc : positive) (ec : Z) :
  0 < X -> 0 <= q ->
  shr_unit_inv N X (shr_record_of_loc q loc) ->
  let t := Z.max E (fexp 24 128 (Zdigits2 q + E)) in
  t <= ec -> ec <= 103 -> Zpos mc < 2 ^ 24 ->
  N <= Zpos mc * 2 ^ (ec - E) * X
  \/ (t = ec /\ 2 * N < (2 * Zpos mc + 1) * (2 ^ (ec - E) * X)) ->
  F32.leb (binary_round_aux 24 128 false q E loc) (S754_finite false mc ec)
  = true.
Proof.
  intros HX Hq Hinit t Htc Hec Hmc Hval.
  destruct (binary_round_aux_unit false q E loc N X HX Hq Hinit)
    as (mrs & Hinv & Hres); [fold t; lia|].
  fold t in Hinv, Hres.
  assert (HtE : 0 <= t - E) by lia.
  assert (HP : 0 < 2 ^ (t - E)) by (apply Z.pow_pos_nonneg; lia).
  assert (HX' : 0 < 2 ^ (t - E) * X) by nia.
  destruct (rounded_unit_bounds _ _ _ HX' Hinv) as (_ & Hup & _ & Hhalf).
  assert (Hsplit : 2 ^ (ec - E) = 2 ^ (ec - t) * 2 ^ (t - E)).
  { rewrite <- Z.pow_add_r by lia. f_equal. lia. }
  assert (HQ : 0 < 2 ^ (ec - t)) by (apply Z.pow_pos_nonneg; lia).
  assert (Hr : rounded mrs <= Zpos mc * 2 ^ (ec - t)).
  { destruct Hval as [Hval|[Hteq Hval]].
    - apply Hup. rewrite Hsplit in Hval. nia.
    - rewrite Hteq, Z.sub_diag. change (2 ^ 0) with 1.
      rewrite Z.mul_1_r. apply Hhalf. rewrite <- Hteq in Hval. lia. }
  destruct Hres as [[_ ->]|(m & e & -> & Hcase)]; [reflexivity|].
  apply leb_finite_pos.
  destruct (Z.eq_dec t ec) as [Heq|Hne].
  - rewrite Heq, Z.sub_diag in Hr. change (2 ^ 0) with 1 in Hr.
    destruct Hcase as [[-> Hm]|(-> & H24 & _)]; [right; split; lia|lia].
  - assert (Hlt : t < ec) by lia.
    destruct Hcase as [[-> Hm]|(-> & H24 & ->)]; [left; lia|].
    destruct (Z.eq_dec (t + 1) ec) as [Heq1|Hne1]; [|left; lia].
    right. split; [exact Heq1|].
    replace (ec - t) with 1 in Hr by lia. change (2 ^ 1) with 2 in Hr.
    change (2 ^ 24) with 16777216 in H24. lia.
Qed.

(** ** The bound on the desired rates *)

Lemma Zdigits2_le (q k : Z) :
  0 <= q -> 0 <= k -> q < 2 ^ k -> Zdigits2 q <= k.
Proof.
  intros Hq Hk Hlt. destruct q as [|p|p]; [cbn; lia| |lia].
  cbn [Zdigits2]. pose proof (digits2_pos_bounds p) as [Hlo _].
  destruct (Z_le_gt_dec (Zpos (digits2_pos p)) k) as [?|Hgt]; [assumption|].
  assert (2 ^ k <= 2 ^ (Zpos (digits2_pos p) - 1))
    by (apply Z.pow_le_mono_r; lia).
  lia.
Qed.

Lemma Zdigits2_gt (q k : Z) : 0 <= k -> 2 ^ k <= q -> k < Zdigits2 q.
Proof.
  intros Hk Hle.
  assert (Hq : 0 <= q) by (pose proof (Z.pow_pos_nonneg 2 k); lia).
  destruct (Zdigits2_bound q Hq) as [Hd Hlt].
  apply (Z.pow_lt_mono_r_iff 2); lia.
Qed.

Lemma bounded_mantissa (m : positive) (e : Z) :
  bounded 24 128 m e = true -> Zpos m < 2 ^ 24.
Proof.
  unfold bounded, canonical_mantissa. intros H.
  apply andb_true_iff in H as [H _]. apply Z.eqb_eq in H.
  rewrite fexp_eq in H.
  pose proof (digits2_pos_bounds m) as [_ Hhi].
  assert (Zpos (digits2_pos m) <= 24) by lia.
  assert (2 ^ Zpos (digits2_pos m) <= 2 ^ 24)
    by (apply Z.pow_le_mono_r; lia).
  lia.
Qed.

Lemma f32_180 : F32.of_Z 180 = S754_finite false 11796480 (-16).
Proof. reflexivity. Qed.

Lemma rate_limit_attained : Lqr.times_RAD2DEG (F32.lit 35 10) = rate_limit_deg.
Proof. vm_compute. reflexivity. Qed.

(** The product [v*180.0f] for a float [0 < v <= 3.5]: a float of value at
    most 630. *)
Lemma mul_180_le_630 (m : positive) (e : Z) :
  bounded 24 128 m e = true ->
  e < -22 \/ (e = -22 /\ Zpos m <= 14680064) ->
  F32.mul (S754_finite false m e) (F32.of_Z 180) = S754_zero false
  \/ exists m1 e1,
       F32.mul (S754_finite false m e) (F32.of_Z 180) = S754_finite false m1 e1
       /\ -149 <= e1 <= -13
       /\ Zpos m1 * 2 ^ (e1 + 149) <= 630 * 2 ^ 149.
Proof.
  intros Hb Hle. rewrite f32_180.
  pose proof (bounded_exponent m e Hb) as He.
  pose proof (bounded_mantissa m e Hb) as Hm24.
  change (2 ^ 24) with 16777216 in Hm24.
  unfold F32.mul, F32.prec, F32.emax, SFmul. cbn [xorb].
  set (k := -22 - e).
  assert (Hk : 0 <= k <= 127) by lia.
  assert (HK : 0 < 2 ^ k) by (apply Z.pow_pos_nonneg; lia).
  assert (Hm : Zpos m <= 14680064 * 2 ^ k).
  { destruct Hle as [Hlt|[Heq Hm]].
    - assert (2 ^ 1 <= 2 ^ k) by (apply Z.pow_le_mono_r; lia).
      change (2 ^ 1) with 2 in *. lia.
    - replace k with 0 by lia. change (2 ^ 0) with 1. lia. }
  set (M := Zpos (m * 11796480)).
  assert (HM : M = Zpos m * 11796480) by reflexivity.
  set (E := e + -16).
  assert (HE : E = -38 - k) by lia.
  assert (Hinit : shr_unit_inv M 1 (shr_record_of_loc M loc_Exact)).
  { split; [cbn; lia|]. exists 0. cbn [shr_record_of_loc shr_m shr_r shr_s Z.b2z].
    repeat split; lia. }
  assert (Hpow : 2 ^ (48 + k) = 281474976710656 * 2 ^ k)
    by (rewrite Z.pow_add_r by lia; reflexivity).
  assert (Hd : Zdigits2 M + E <= 10).
  { assert (Zdigits2 M <= 48 + k); [|lia].
    apply Zdigits2_le; [lia|lia|]. rewrite Hpow. lia. }
  assert (Hd0 : 0 <= Zdigits2 M) by (apply Zdigits2_bound; lia).
  pose proof (fexp_eq (Zdigits2 M + E)) as Hfe.
  destruct (binary_round_aux_unit false M E loc_Exact M 1 ltac:(lia) ltac:(lia)
              Hinit) as (mrs & Hinv & Hres); [lia|].
  set (t := Z.max E (fexp 24 128 (Zdigits2 M + E))) in *.
  assert (Ht : -149 <= t <= -14) by lia.
  assert (HP : 0 < 2 ^ (t - E)) by (apply Z.pow_pos_nonneg; lia).
  destruct (rounded_unit_bounds M (2 ^ (t - E) * 1) mrs ltac:(lia) Hinv)
    as (_ & Hup & _).
  assert (Hr : rounded mrs <= 630 * 2 ^ (- t)).
  { apply Hup.
    replace (630 * 2 ^ (- t) * (2 ^ (t - E) * 1))
      with (630 * 2 ^ (- t + (t - E))) by (rewrite Z.pow_add_r by lia; ring).
    replace (- t + (t - E)) with (38 + k) by lia.
    rewrite Z.pow_add_r by lia. change (2 ^ 38) with 274877906944. lia. }
  assert (Hscale : forall a, 0 <= a ->
            a * 2 ^ (t + 149) <= 630 * 2 ^ 149 <-> a <= 630 * 2 ^ (- t)).
  { intros a Ha.
    assert (H149 : 2 ^ 149 = 2 ^ (- t) * 2 ^ (t + 149)).
    { rewrite <- Z.pow_add_r by lia. f_equal. lia. }
    assert (0 < 2 ^ (t + 149)) by (apply Z.pow_pos_nonneg; lia).
    rewrite H149. split; intros; nia. }
  destruct Hres as [[_ Hz]|(m1 & e1 & Hres & Hcase)]; [by left|right].
  exists m1, e1. split; [exact Hres|].
  destruct Hcase as [[-> Hm1]|(-> & H24 & ->)].
  - split; [lia|]. apply Hscale; lia.
  - split; [lia|].
    replace (t + 1 + 149) with (1 + (t + 149)) by lia.
    rewrite Z.pow_add_r by lia. change (2 ^ 1) with 2.
    replace (8388608 * (2 * 2 ^ (t + 149)))
      with (2 ^ 24 * 2 ^ (t + 149)) by (change (2 ^ 24) with 16777216; ring).
    apply Hscale; [lia|]. lia.
Qed.

(** The quotient of a float of value at most 630 by [(float)M_PI]: at
    most [rate_limit_deg]. *)
Lemma div_pi_le_limit (m1 : positive) (e1 : Z) :
  -149 <= e1 <= -13 ->
  Zpos m1 * 2 ^ (e1 + 149) <= 630 * 2 ^ 149 ->
  F32.leb (F32.div (S754_finite false m1 e1) Lqr.M_PI_f) rate_limit_deg = true
  /\ (F32.div (S754_finite false m1 e1) Lqr.M_PI_f = S754_zero false
      \/ exists m3 e3,
           F32.div (S754_finite false m1 e1) Lqr.M_PI_f
           = S754_finite false m3 e3).
Proof.
  intros He1 Hv.
  unfold F32.div, F32.prec, F32.emax, Lqr.M_PI_f, SFdiv. cbn [xorb].
  destruct (SFdiv_core_unit_inv m1 13176795 e1 (-22))
    as (q & loc & Hcore & Hq & Hinit).
  rewrite Hcore.
  change (Zdigits2 13176795) with 24 in *.
  set (d1 := Zdigits2 (Zpos m1)) in *.
  set (e' := Z.min (fexp 24 128 (d1 + e1 - (24 + -22))) (e1 - -22)) in *.
  set (N := Zpos m1 * 2 ^ (e1 - -22 - e')) in *.
  (* the magnitude of the dividend *)
  assert (Hd1 : d1 + e1 <= 10).
  { assert (d1 <= 10 - e1); [|lia].
    apply Zdigits2_le; [lia|lia|].
    assert (H10 : 2 ^ (10 - e1) * 2 ^ (e1 + 149) = 1024 * 2 ^ 149).
    { rewrite <- Z.pow_add_r by lia.
      replace (10 - e1 + (e1 + 149)) with (10 + 149) by lia.
      rewrite Z.pow_add_r by lia. reflexivity. }
    assert (0 < 2 ^ (e1 + 149)) by (apply Z.pow_pos_nonneg; lia).
    assert (0 < 2 ^ 149) by (apply Z.pow_pos_nonneg; lia).
    nia. }
  assert (Hd10 : 0 <= d1) by (apply Zdigits2_bound; lia).
  pose proof (fexp_eq (d1 + e1 - (24 + -22))) as Hf1.
  assert (He' : -149 <= e' <= -16) by lia.
  set (W := 2 ^ (-16 - e')).
  assert (HW : 0 < W) by (apply Z.pow_pos_nonneg; lia).
  (* the dividend scaled to the exponent of the quotient *)
  assert (HN : N <= 630 * 274877906944 * W).
  { assert (Hs : 2 ^ (e1 - -22 - e') * 2 ^ 149
                 = 2 ^ (e1 + 149) * (274877906944 * W)).
    { subst W. change 274877906944 with (2 ^ 38).
      rewrite <- !Z.pow_add_r by lia. f_equal. lia. }
    assert (0 < 2 ^ 149) by (apply Z.pow_pos_nonneg; lia).
    assert (0 < 2 ^ (e1 + 149)) by (apply Z.pow_pos_nonneg; lia).
    assert (N * 2 ^ 149 <= 630 * 274877906944 * W * 2 ^ 149); [|nia].
    subst N. rewrite <- Z.mul_assoc, Hs. nia. }
  assert (Hq0 : q * 13176795 <= N < (q + 1) * 13176795).
  { destruct Hinit as [_ (l & Hl & HNl & _)].
    destruct loc as [|[]]; cbn [shr_record_of_loc shr_m shr_r Z.b2z] in HNl;
      lia. }
  (* the magnitude of the quotient *)
  assert (Hpw8 : 2 ^ (8 - e') = 16777216 * W).
  { subst W. change 16777216 with (2 ^ 24).
    rewrite <- Z.pow_add_r by lia. f_equal. lia. }
  assert (Hdq : Zdigits2 q + e' <= 8).
  { assert (Zdigits2 q <= 8 - e'); [|lia].
    apply Zdigits2_le; [lia|lia|]. rewrite Hpw8. lia. }
  assert (Hdq0 : 0 <= Zdigits2 q) by (apply Zdigits2_bound; lia).
  pose proof (fexp_eq (Zdigits2 q + e')) as Hfq.
  assert (Hres : exists r,
             binary_round_aux 24 128 false q e' loc = r
             /\ (r = S754_zero false \/ exists m3 e3, r = S754_finite false m3 e3)).
  { destruct (binary_round_aux_unit false q e' loc N 13176795 ltac:(lia) Hq
                Hinit) as (mrs & _ & Hr); [lia|].
    destruct Hr as [[_ ->]|(m3 & e3 & -> & _)];
      (eexists; split; [reflexivity|]); [by left|right; eauto]. }
  destruct Hres as (r & Hr & Hshape). split; [|rewrite Hr; exact Hshape].
  unfold rate_limit_deg.
  apply (binary_round_aux_le q e' loc N 13176795 13142276 (-16));
    try lia; [exact Hinit|].
  fold W.
  destruct (Z_le_gt_dec N (13142276 * W * 13176795)) as [Hle|Hgt];
    [left; exact Hle|right].
  split; [|lia].
  assert (HqW : 13142276 * W <= q) by nia.
  assert (Hpw7 : 2 ^ (7 - e') = 8388608 * W).
  { subst W. change 8388608 with (2 ^ 23).
    rewrite <- Z.pow_add_r by lia. f_equal. lia. }
  assert (7 - e' < Zdigits2 q).
  { apply Zdigits2_gt; [lia|]. rewrite Hpw7. lia. }
  lia.
Qed.

Lemma times_RAD2DEG_pos_le (m : positive) (e : Z) :
  bounded 24 128 m e = true ->
  e < -22 \/ (e = -22 /\ Zpos m <= 14680064) ->
  F32.leb (Lqr.times_RAD2DEG (S754_finite false m e)) rate_limit_deg = true
  /\ (Lqr.times_RAD2DEG (S754_finite false m e) = S754_zero false
      \/ exists m3 e3,
           Lqr.times_RAD2DEG (S754_finite false m e) = S754_finite false m3 e3).
Proof.
  intros Hb Hle. unfold Lqr.times_RAD2DEG.
  destruct (mul_180_le_630 m e Hb Hle) as [->|(m1 & e1 & -> & He1 & Hv)].
  - split; [reflexivity|by left].
  - exact (div_pi_le_limit m1 e1 He1 Hv).
Qed.

Lemma leb_finite_pos_inv (m mc : positive) (e ec : Z) :
  F32.leb (S754_finite false m e) (S754_finite false mc ec) = true ->
  e < ec \/ (e = ec /\ Zpos m <= Zpos mc).
Proof.
  unfold F32.leb, SFleb, SFcompare.
  destruct (Z.compare_spec e ec) as [He|He|He]; intros Hc;
    [|left; lia|discriminate Hc].
  right. split; [exact He|].
  pose proof (Pos.compare_spec m mc) as Hs. unfold Pos.compare in Hs.
  destruct Hs; try discriminate Hc; lia.
Qed.

Lemma leb_finite_neg (m mc : positive) (e ec : Z) :
  F32.leb (S754_finite true mc ec) (S754_finite true m e)
  = F32.leb (S754_finite false m e) (S754_finite false mc ec).
Proof.
  unfold F32.leb, SFleb, SFcompare.
  rewrite (Z.compare_antisym e ec).
  destruct (e ?= ec); cbn [CompOpp]; try reflexivity.
  pose proof (Pos.compare_antisym m mc) as Hs. unfold Pos.compare in Hs.
  rewrite Hs. by destruct (Pos.compare_cont Eq m mc).
Qed.

(** A float between -3.5 and 3.5, as a sign and a magnitude. *)
Lemma in_rate_range_cases (v : float) :
  F32.valid v = true ->
  in_range (F32.neg (F32.lit 35 10)) (F32.lit 35 10) v ->
  (exists sb, v = S754_zero sb)
  \/ exists sb m e,
       v = S754_finite sb m e /\ bounded 24 128 m e = true
       /\ (e < -22 \/ (e = -22 /\ Zpos m <= 14680064)).
Proof.
  rewrite f32_3_5. intros Hv [Hlo Hhi].
  destruct v as [sb|sb| |sb m e]; [left; eauto| | |].
  - destruct sb; discriminate.
  - discriminate.
  - right. exists sb, m, e. split; [reflexivity|]. split; [exact Hv|].
    destruct sb.
    + change (F32.neg (S754_finite false 14680064 (-22)))
        with (S754_finite true 14680064 (-22)) in Hlo.
      rewrite leb_finite_neg in Hlo.
      exact (leb_finite_pos_inv _ _ _ _ Hlo).
    + exact (leb_finite_pos_inv _ _ _ _ Hhi).
Qed.

(** The conversion of a rate within the saturation bounds to deg/s. *)
Lemma times_RAD2DEG_bounded (v : float) :
  F32.valid v = true ->
  in_range (F32.neg (F32.lit 35 10)) (F32.lit 35 10) v ->
  in_range (F32.neg rate_limit_deg) rate_limit_deg (Lqr.times_RAD2DEG v).
Proof.
  intros Hv Hr.
  destruct (in_rate_range_cases v Hv Hr)
    as [[sb ->]|(sb & m & e & -> & Hb & Hle)].
  - destruct sb; split; reflexivity.
  - destruct (times_RAD2DEG_pos_le m e Hb Hle) as (Hc & Hshape).
    destruct sb.
    + change (S754_finite true m e) with (F32.neg (S754_finite false m e)).
      unfold Lqr.times_RAD2DEG. rewrite mul_neg_l, div_neg_l.
      fold (Lqr.times_RAD2DEG (S754_finite false m e)).
      destruct Hshape as [->|(m3 & e3 & Heq)]; [split; reflexivity|].
      rewrite Heq in *. clear Heq. split; [|reflexivity].
      unfold rate_limit_deg in *.
      change (F32.neg (S754_finite false 13142276 (-16)))
        with (S754_finite true 13142276 (-16)).
      change (F32.neg (S754_finite false m3 e3)) with (S754_finite true m3 e3).
      by rewrite leb_finite_neg.
    + split; [|exact Hc].
      destruct Hshape as [->|(m3 & e3 & ->)]; reflexivity.
Qed.

Lemma sat_cases (lo hi v : float) :
  sat lo hi v = v \/ sat lo hi v = hi \/ sat lo hi v = lo.
Proof.
  unfold sat, F32.fminf, F32.fmaxf.
  destruct (F32.is_nan v); destruct (F32.is_nan hi);
    repeat match goal with
           | |- context [if ?b then _ else _] => destruct b
           end; auto.
Qed.

Lemma sat_rate_valid (v : float) :
  F32.valid v = true ->
  F32.valid (sat (F32.neg (F32.lit 35 10)) (F32.lit 35 10) v) = true.
Proof.
  intros Hv.
  destruct (sat_cases (F32.neg (F32.lit 35 10)) (F32.lit 35 10) v)
    as [->| [->| ->]]; [exact Hv|reflexivity|reflexivity].
Qed.

Section RateBound.

Import Lqr.

Context {P : Platform}.

(** X22.  At every attitude-rate tick the desired rates handed to the
    attitude controller are bounded: whatever valid binary32 values reach
    the saturation stage (infinities and NaN included), each of roll,
    pitch and yaw of [rateDesired] lies between -200.535 and 200.535 deg/s
    (the float 13142276 * 2^-16).  The bound is attained at 3.5 rad/s, and
    it is above the 200 deg/s of the source's comment. *)
Theorem desired_rates_are_bounded control setpoint sensors state tick
  (s : lqr) :
  RATE_DO_EXECUTE ATTITUDE_RATE tick = true ->
  let pre := u (before_saturation setpoint state tick s) in
  F32.valid (a1 pre) = true -> F32.valid (a2 pre) = true ->
  F32.valid (a3 pre) = true ->
  let r := rateDesired
             (snd (controllerLqr control setpoint sensors state tick s)) in
  in_range (F32.neg rate_limit_deg) rate_limit_deg (roll r)
  /\ in_range (F32.neg rate_limit_deg) rate_limit_deg (pitch r)
  /\ in_range (F32.neg rate_limit_deg) rate_limit_deg (yaw r)
  /\ times_RAD2DEG (F32.lit 35 10) = rate_limit_deg
  /\ F32.ltb (F32.of_Z 200) rate_limit_deg = true.
Proof.
  intros Hrate pre H1 H2 H3. cbv zeta.
  destruct (controllerLqr_after_landing_check control setpoint sensors state
              tick s) as (_ & -> & _).
  destruct (after_landing_check_at_tick setpoint state tick s Hrate)
    as (_ & -> & _).
  fold pre. rewrite saturate_u_sat. cbn [a1 a2 a3 roll pitch yaw].
  assert (Hb : forall v, F32.valid v = true ->
            in_range (F32.neg rate_limit_deg) rate_limit_deg
              (times_RAD2DEG (sat (F32.neg (F32.lit 35 10)) (F32.lit 35 10) v))).
  { intros v Hv. apply times_RAD2DEG_bounded; [by apply sat_rate_valid|].
    apply clamped_rate. }
  split; [by apply Hb|]. split; [by apply Hb|]. split; [by apply Hb|].
  split; [exact rate_limit_attained|reflexivity].
Qed.

End RateBound.

Lemma X21_witness :
  Lqr.cbf (snd (Lqr.controllerLqr Bench.control0 Bench.sp_hover Bench.sensors0
                  Bench.st_hover 0 Rig.s_cbf_D6))
  = CBF_EUL Run.d0 Run.s_replied
  /\ Lqr.u_D6 (Lqr.lqr_D6 Bench.sp_hover Bench.st_hover 0 Rig.s_cbf_D6)
     = Lqr.u_D6 (Lqr.lqr_D6_law Bench.sp_hover Bench.st_hover Rig.s_cbf_D6).
Proof.
  assert (Hc : Lqr.cbf Rig.s_cbf_D6 = CBF_EUL Run.d0 Run.s_replied)
    by reflexivity.
  assert (Hm : Lqr.mode Rig.s_cbf_D6 <> Lqr.D9LQR) by (vm_compute; discriminate).
  assert (Hr : RATE_DO_EXECUTE (Platform := Bench.platform)
                 (D6LQR_RATE (Platform := Bench.platform)) 0 = true)
    by (vm_compute; reflexivity).
  destruct (filter_is_bypassed_by_the_other_law Bench.control0 Bench.sp_hover
              Bench.sensors0 Bench.st_hover 0 Rig.s_cbf_D6) as (He & _).
  destruct (He Run.d0 Run.s_replied Hc) as (Hk & Hl).
  split; [rewrite (Hk Hm); exact Hc|]. by rewrite (Hl Hr).
Defined.

Lemma X22_witness :
  a3 (Lqr.u (Lqr.before_saturation Bench.sp_far Bench.st_ground 0 Bench.s_init))
  = F32.neg (F32.of_Z 10)
  /\ in_range (F32.neg rate_limit_deg) rate_limit_deg
       (yaw (Lqr.rateDesired
               (snd (Lqr.controllerLqr Bench.control0 Bench.sp_far
                       Bench.sensors0 Bench.st_ground 0 Bench.s_init))))
  /\ yaw (Lqr.rateDesired
            (snd (Lqr.controllerLqr Bench.control0 Bench.sp_far
                    Bench.sensors0 Bench.st_ground 0 Bench.s_init)))
     = F32.neg rate_limit_deg.
Proof.
  assert (Hrate : RATE_DO_EXECUTE (Platform := Bench.platform)
                    (ATTITUDE_RATE (Platform := Bench.platform)) 0 = true)
    by (vm_compute; reflexivity).
  assert (H1 : F32.valid
                 (a1 (Lqr.u (Lqr.before_saturation Bench.sp_far
                               Bench.st_ground 0 Bench.s_init))) = true)
    by (vm_compute; reflexivity).
  assert (H2 : F32.valid
                 (a2 (Lqr.u (Lqr.before_saturation Bench.sp_far
                               Bench.st_ground 0 Bench.s_init))) = true)
    by (vm_compute; reflexivity).
  assert (H3 : F32.valid
                 (a3 (Lqr.u (Lqr.before_saturation Bench.sp_far
                               Bench.st_ground 0 Bench.s_init))) = true)
    by (vm_compute; reflexivity).
  destruct (desired_rates_are_bounded Bench.control0 Bench.sp_far
              Bench.sensors0 Bench.st_ground 0 Bench.s_init Hrate H1 H2 H3)
    as (_ & _ & Hy & _).
  split; [vm_compute; reflexivity|]. split; [exact Hy|].
  vm_compute. reflexivity.
Defined.

(** A numeric upper bound on a rounded value: when the value is at most
    [J * 2^eJ] and the grid is at least as fine as [2^eJ], so is the
    result. *)
Lemma binary_round_aux_bound (q E : Z) (loc : location) (N X J eJ : Z) :
  0 < X -> 0 <= q ->
  shr_unit_inv N X (shr_record_of_loc q loc) ->
  let t := Z.max E (fexp 24 128 (Zdigits2 q + E)) in
  t <= eJ -> t <= 103 ->
  N <= J * 2 ^ (eJ - E) * X ->
  binary_round_aux 24 128 false q E loc = S754_zero false
  \/ exists m e,
       binary_round_aux 24 128 false q E loc = S754_finite false m e
       /\ -149 <= e <= t + 1
       /\ Zpos m * 2 ^ (e + 149) <= J * 2 ^ (eJ + 149).
Proof.
  intros HX Hq Hinit t HtJ Ht Hval.
  pose proof (fexp_ge (Zdigits2 q + E)) as [_ Hf].
  assert (Ht149 : -149 <= t) by lia.
  destruct (binary_round_aux_unit false q E loc N X HX Hq Hinit)
    as (mrs & Hinv & Hres); [fold t; lia|].
  fold t in Hinv, Hres.
  assert (HP : 0 < 2 ^ (t - E)) by (apply Z.pow_pos_nonneg; lia).
  assert (HX' : 0 < 2 ^ (t - E) * X) by nia.
  destruct (rounded_unit_bounds _ _ _ HX' Hinv) as (_ & Hup & _).
  assert (Hsplit : 2 ^ (eJ - E) = 2 ^ (eJ - t) * 2 ^ (t - E)).
  { rewrite <- Z.pow_add_r by lia. f_equal. lia. }
  assert (Hr : rounded mrs <= J * 2 ^ (eJ - t)).
  { apply Hup. rewrite Hsplit in Hval. nia. }
  assert (HJ : 2 ^ (eJ + 149) = 2 ^ (eJ - t) * 2 ^ (t + 149)).
  { rewrite <- Z.pow_add_r by lia. f_equal. lia. }
  assert (HT : 0 < 2 ^ (t + 149)) by (apply Z.pow_pos_nonneg; lia).
  destruct Hres as [[_ ->]|(m & e & -> & Hcase)]; [by left|right].
  exists m, e. split; [reflexivity|].
  destruct Hcase as [[-> Hm]|(-> & H24 & ->)].
  - split; [lia|]. rewrite HJ. nia.
  - split; [lia|].
    replace (t + 1 + 149) with (1 + (t + 149)) by lia.
    rewrite Z.pow_add_r by lia. change (2 ^ 1) with 2.
    change (2 ^ 24) with 16777216 in H24. rewrite HJ. nia.
Qed.

(** A float between [-c] and [c], as a sign and a magnitude. *)
Lemma in_symmetric_range_cases (mc : positive) (ec : Z) (v : float) :
  F32.valid v = true ->
  in_range (S754_finite true mc ec) (S754_finite false mc ec) v ->
  (exists sb, v = S754_zero sb)
  \/ exists sb m e,
       v = S754_finite sb m e /\ bounded 24 128 m e = true
       /\ (e < ec \/ (e = ec /\ Zpos m <= Zpos mc)).
Proof.
  intros Hv [Hlo Hhi].
  destruct v as [sb|sb| |sb m e]; [left; eauto| | |].
  - destruct sb; discriminate.
  - discriminate.
  - right. exists sb, m, e. split; [reflexivity|]. split; [exact Hv|].
    destruct sb.
    + rewrite leb_finite_neg in Hlo.
      exact (leb_finite_pos_inv _ _ _ _ Hlo).
    + exact (leb_finite_pos_inv _ _ _ _ Hhi).
Qed.

(** The product [v*(float)M_PI] for a float [0 < v <= 180]: a float of
    value at most 565.5. *)
Lemma mul_pi_le (m : positive) (e : Z) :
  bounded 24 128 m e = true ->
  e < -16 \/ (e = -16 /\ Zpos m <= 11796480) ->
  F32.mul (S754_finite false m e) Lqr.M_PI_f = S754_zero false
  \/ exists m1 e1,
       F32.mul (S754_finite false m e) Lqr.M_PI_f = S754_finite false m1 e1
       /\ -149 <= e1 <= -13
       /\ Zpos m1 * 2 ^ (e1 + 149) <= 1131 * 2 ^ 148.
Proof.
  intros Hb Hle.
  pose proof (bounded_exponent m e Hb) as He.
  pose proof (bounded_mantissa m e Hb) as Hm24.
  change (2 ^ 24) with 16777216 in Hm24.
  unfold F32.mul, F32.prec, F32.emax, Lqr.M_PI_f, SFmul. cbn [xorb].
  set (k := -16 - e).
  assert (Hk : 0 <= k <= 133) by lia.
  assert (HK : 0 < 2 ^ k) by (apply Z.pow_pos_nonneg; lia).
  assert (Hm : Zpos m <= 11796480 * 2 ^ k).
  { destruct Hle as [Hlt|[Heq Hm]].
    - assert (2 ^ 1 <= 2 ^ k) by (apply Z.pow_le_mono_r; lia).
      change (2 ^ 1) with 2 in *. lia.
    - replace k with 0 by lia. change (2 ^ 0) with 1. lia. }
  set (M := Zpos (m * 13176795)).
  assert (HM : M = Zpos m * 13176795) by reflexivity.
  set (E := e + -22).
  assert (HE : E = -38 - k) by lia.
  assert (Hinit : shr_unit_inv M 1 (shr_record_of_loc M loc_Exact)).
  { split; [cbn; lia|]. exists 0.
    cbn [shr_record_of_loc shr_m shr_r shr_s Z.b2z]. repeat split; lia. }
  assert (Hpow : 2 ^ (48 + k) = 281474976710656 * 2 ^ k)
    by (rewrite Z.pow_add_r by lia; reflexivity).
  assert (Hd : Zdigits2 M + E <= 10).
  { assert (Zdigits2 M <= 48 + k); [|lia].
    apply Zdigits2_le; [lia|lia|]. rewrite Hpow. lia. }
  assert (Hd0 : 0 <= Zdigits2 M) by (apply Zdigits2_bound; lia).
  pose proof (fexp_eq (Zdigits2 M + E)) as Hfe.
  destruct (binary_round_aux_bound M E loc_Exact M 1 1131 (-1)
              ltac:(lia) ltac:(lia) Hinit) as [Hz|(m1 & e1 & Hr & He1 & Hv)];
    try lia.
  - replace (-1 - E) with (37 + k) by lia.
    rewrite Z.pow_add_r by lia. change (2 ^ 37) with 137438953472. lia.
  - by left.
  - right. exists m1, e1. split; [exact Hr|]. split; [lia|].
    replace (-1 + 149) with 148 in Hv by lia. exact Hv.
Qed.

(** The quotient by [180.0f] of a float of value at most 565.5: a float of
    value at most [13177106 * 2^-22], a little above pi. *)
Lemma div_180_le (m1 : positive) (e1 : Z) :
  -149 <= e1 <= -13 ->
  Zpos m1 * 2 ^ (e1 + 149) <= 1131 * 2 ^ 148 ->
  F32.div (S754_finite false m1 e1) (F32.of_Z 180) = S754_zero false
  \/ exists m3 e3,
       F32.div (S754_finite false m1 e1) (F32.of_Z 180)
       = S754_finite false m3 e3
       /\ -149 <= e3
       /\ Zpos m3 * 2 ^ (e3 + 149) <= 13177106 * 2 ^ 127.
Proof.
  intros He1 Hv.
  rewrite f32_180.
  unfold F32.div, F32.prec, F32.emax, SFdiv. cbn [xorb].
  destruct (SFdiv_core_unit_inv m1 11796480 e1 (-16))
    as (q & loc & Hcore & Hq & Hinit).
  rewrite Hcore.
  change (Zdigits2 11796480) with 24 in *.
  set (d1 := Zdigits2 (Zpos m1)) in *.
  set (e' := Z.min (fexp 24 128 (d1 + e1 - (24 + -16))) (e1 - -16)) in *.
  set (N := Zpos m1 * 2 ^ (e1 - -16 - e')) in *.
  assert (Hd1 : d1 + e1 <= 10).
  { assert (d1 <= 10 - e1); [|lia].
    apply Zdigits2_le; [lia|lia|].
    assert (H10 : 2 ^ (10 - e1) * 2 ^ (e1 + 149) = 1024 * 2 ^ 149).
    { rewrite <- Z.pow_add_r by lia.
      replace (10 - e1 + (e1 + 149)) with (10 + 149) by lia.
      rewrite Z.pow_add_r by lia. reflexivity. }
    assert (H149 : 2 ^ 149 = 2 * 2 ^ 148) by reflexivity.
    assert (0 < 2 ^ (e1 + 149)) by (apply Z.pow_pos_nonneg; lia).
    assert (0 < 2 ^ 148) by (apply Z.pow_pos_nonneg; lia).
    nia. }
  assert (Hd10 : 0 <= d1) by (apply Zdigits2_bound; lia).
  pose proof (fexp_eq (d1 + e1 - (24 + -16))) as Hf1.
  assert (He' : -149 <= e' <= -22) by lia.
  set (W := 2 ^ (-22 - e')).
  assert (HW : 0 < W) by (apply Z.pow_pos_nonneg; lia).
  assert (HN : N <= 1131 * 137438953472 * W).
  { assert (Hs : 2 ^ (e1 - -16 - e') * 2 ^ 148
                 = 2 ^ (e1 + 149) * (137438953472 * W)).
    { subst W. change 137438953472 with (2 ^ 37).
      rewrite <- !Z.pow_add_r by lia. f_equal. lia. }
    assert (0 < 2 ^ 148) by (apply Z.pow_pos_nonneg; lia).
    assert (0 < 2 ^ (e1 + 149)) by (apply Z.pow_pos_nonneg; lia).
    assert (N * 2 ^ 148 <= 1131 * 137438953472 * W * 2 ^ 148); [|nia].
    subst N. rewrite <- Z.mul_assoc, Hs. nia. }
  assert (Hq0 : q * 11796480 <= N < (q + 1) * 11796480).
  { destruct Hinit as [_ (l & Hl & HNl & _)].
    destruct loc as [|[]]; cbn [shr_record_of_loc shr_m shr_r Z.b2z] in HNl;
      lia. }
  assert (Hpw : 2 ^ (2 - e') = 16777216 * W).
  { subst W. change 16777216 with (2 ^ 24).
    rewrite <- Z.pow_add_r by lia. f_equal. lia. }
  assert (Hdq : Zdigits2 q + e' <= 2).
  { assert (Zdigits2 q <= 2 - e'); [|lia].
    apply Zdigits2_le; [lia|lia|]. rewrite Hpw. lia. }
  assert (Hdq0 : 0 <= Zdigits2 q) by (apply Zdigits2_bound; lia).
  pose proof (fexp_eq (Zdigits2 q + e')) as Hfq.
  destruct (binary_round_aux_bound q e' loc N 11796480 13177106 (-22)
              ltac:(lia) Hq Hinit) as [Hz|(m3 & e3 & Hr & He3 & Hb)];
    try lia.
  - by left.
  - right. exists m3, e3. split; [exact Hr|]. split; [lia|].
    replace (-22 + 149) with 127 in Hb by lia. exact Hb.
Qed.

(** [v*DEG2RAD] for a float [0 < v <= 180]. *)
Lemma times_DEG2RAD_pos_le (m : positive) (e : Z) :
  bounded 24 128 m e = true ->
  e < -16 \/ (e = -16 /\ Zpos m <= 11796480) ->
  Lqr.times_DEG2RAD (S754_finite false m e) = S754_zero false
  \/ exists m3 e3,
       Lqr.times_DEG2RAD (S754_finite false m e) = S754_finite false m3 e3
       /\ -149 <= e3
       /\ Zpos m3 * 2 ^ (e3 + 149) <= 13177106 * 2 ^ 127.
Proof.
  intros Hb Hle. unfold Lqr.times_DEG2RAD.
  destruct (mul_pi_le m e Hb Hle) as [->|(m1 & e1 & -> & He1 & Hv)].
  - by left.
  - exact (div_180_le m1 e1 He1 Hv).
Qed.

(** An angle within [-180, 180] degrees, converted to radians and
    compressed: the scaled value fits [int16_t], and is within 3142. *)
Lemma angle_compress_in_range (v : float) :
  F32.valid v = true ->
  in_range (F32.neg (F32.of_Z 180)) (F32.of_Z 180) v ->
  exists n,
    F32.trunc (F32.mul (Lqr.times_DEG2RAD v) (F32.of_Z 1000)) = Some n
    /\ Aideck.compress (Lqr.times_DEG2RAD v) = n
    /\ -3142 <= n <= 3142.
Proof.
  intros Hv Hr. rewrite f32_180 in Hr.
  change (F32.neg (S754_finite false 11796480 (-16)))
    with (S754_finite true 11796480 (-16)) in Hr.
  destruct (in_symmetric_range_cases _ _ v Hv Hr)
    as [[sb ->]|(sb & m & e & -> & Hb & Hle)].
  - exists 0. destruct sb; repeat split; lia.
  - assert (Hshape : exists r,
              Lqr.times_DEG2RAD (S754_finite sb m e)
              = (if sb then F32.neg r else r)
              /\ (r = S754_zero false
                  \/ exists m3 e3, r = S754_finite false m3 e3
                       /\ -149 <= e3
                       /\ Zpos m3 * 2 ^ (e3 + 149) <= 13177106 * 2 ^ 127)).
    { exists (Lqr.times_DEG2RAD (S754_finite false m e)).
      split; [|exact (times_DEG2RAD_pos_le m e Hb Hle)].
      destruct sb; [|reflexivity].
      change (S754_finite true m e) with (F32.neg (S754_finite false m e)).
      unfold Lqr.times_DEG2RAD. by rewrite mul_neg_l, div_neg_l. }
    destruct Hshape as (r & -> & [->|(m3 & e3 & -> & He3 & Hval)]).
    + exists 0. destruct sb; repeat split; lia.
    + assert (Hs : (if sb then F32.neg (S754_finite false m3 e3)
                    else S754_finite false m3 e3) = S754_finite sb m3 e3)
        by (destruct sb; reflexivity).
      rewrite Hs.
      assert (H200 : Zpos m3 * 2 ^ (e3 + 200)
                     = Zpos m3 * 2 ^ (e3 + 149) * 2 ^ 51).
      { rewrite <- Z.mul_assoc, <- Z.pow_add_r by lia. do 2 f_equal. lia. }
      assert (H127 : 0 < 2 ^ 127) by (apply Z.pow_pos_nonneg; lia).
      assert (Hp200 : 2 ^ 200 = 2 ^ 22 * 2 ^ 127 * 2 ^ 51) by reflexivity.
      assert (Hp199 : 2 ^ 199 = 2 ^ 21 * 2 ^ 127 * 2 ^ 51) by reflexivity.
      assert (H51 : 0 < 2 ^ 51) by (apply Z.pow_pos_nonneg; lia).
      change (2 ^ 22) with 4194304 in Hp200.
      change (2 ^ 21) with 2097152 in Hp199.
      set (P127 := 2 ^ 127) in *. set (P51 := 2 ^ 51) in *.
      set (Z3 := Zpos m3 * 2 ^ (e3 + 149)) in *.
      assert (HZ3 : 0 < Z3).
      { subst Z3. apply Z.mul_pos_pos; [lia|apply Z.pow_pos_nonneg; lia]. }
      assert (HA : Z3 * P51 <= 13177106 * P127 * P51) by nia.
      destruct (mul1000_trunc_bounds sb m3 e3 ltac:(lia))
        as (n & Ht & Hi & Hn & Hlow & _).
      { rewrite H200, Hp200. nia. }
      exists (if sb then - n else n).
      split; [exact Ht|]. split; [exact Hi|].
      assert (n <= 3142); [|destruct sb; lia].
      rewrite H200, Hp199 in Hlow.
      assert ((2 * n - 1) * 2097152 * (P127 * P51)
              < 1000 * 13177106 * (P127 * P51)) by nia.
      assert (0 < P127 * P51) by nia.
      assert ((2 * n - 1) * 2097152 < 1000 * 13177106) by nia.
      lia.
Qed.

Lemma in_symmetric_range_neg (mc : positive) (ec : Z) (v : float) :
  F32.valid v = true ->
  in_range (S754_finite true mc ec) (S754_finite false mc ec) v ->
  F32.valid (F32.neg v) = true
  /\ in_range (S754_finite true mc ec) (S754_finite false mc ec) (F32.neg v).
Proof.
  intros Hv Hr.
  destruct (in_symmetric_range_cases mc ec v Hv Hr)
    as [[sb ->]|(sb & m & e & -> & Hb & Hle)].
  - destruct sb; repeat split.
  - split; [exact Hb|].
    destruct sb; split; try reflexivity.
    + exact (leb_finite_pos _ _ _ _ Hle).
    + change (F32.neg (S754_finite false m e)) with (S754_finite true m e).
      rewrite leb_finite_neg. exact (leb_finite_pos _ _ _ _ Hle).
Qed.

(** The frame a Ready call transmits for an attitude request: the first
    two scalars of the payload are the compressed angles. *)
Lemma eul_request_on_the_wire (iters : bool) (phi theta : float) (uu : u_t)
  (deck : Aideck.state CBF_TYPE_EUL) :
  Aideck.aideck_ready_flag deck <> 0 ->
  Aideck.pk_tx deck = Aideck.cleared_packet CBF_TYPE_EUL iters ->
  exists payload,
    Aideck.uart (Aideck.aideck_send_cbf_data CBF_TYPE_EUL iters
                   (mk_qp_eul phi theta uu) deck)
    = USART_DMA_Send (Aideck.sizeof_CBFPacket CBF_TYPE_EUL iters)
        (CHAR_V :: payload) :: Aideck.uart deck
    /\ payload_int16 payload 0 = Aideck.compress phi
    /\ payload_int16 payload 2 = Aideck.compress theta.
Proof.
  intros Hr Htx.
  destruct (send_ready_frame CBF_TYPE_EUL iters (mk_qp_eul phi theta uu) deck
              Hr Htx) as (_ & Hs & _).
  eexists. split; [exact Hs|].
  split; unfold payload_int16; cbn; apply wrap16_of_bytes, compress_int16.
Qed.

Section AttitudeRequest.

Import Lqr.

Context {P : Platform}.

(** X23.  An attitude within +-180 degrees is sent without wrap-around:
    when [apply_cbf_eul] runs on a Ready channel with roll and pitch
    between -180 and 180 degrees, the frame it transmits carries
    [roll*DEG2RAD] and [-pitch*DEG2RAD] in milliradians, truncated toward
    zero, each within +-3142; the scaled floats are inside the range of
    [int16_t], so the conversions are the defined ones. *)
Theorem attitude_is_sent_without_wrap (state : state_t) (s : lqr)
  (qp0 : cbf_qpdata_t CBF_TYPE_EUL) (deck : Aideck.state CBF_TYPE_EUL) :
  cbf s = CBF_EUL qp0 deck ->
  Aideck.aideck_ready_flag deck <> 0 ->
  Aideck.pk_tx deck = Aideck.cleared_packet CBF_TYPE_EUL CBF_ITERS ->
  F32.valid (roll (attitude state)) = true ->
  F32.valid (pitch (attitude state)) = true ->
  in_range (F32.neg (F32.of_Z 180)) (F32.of_Z 180) (roll (attitude state)) ->
  in_range (F32.neg (F32.of_Z 180)) (F32.of_Z 180) (pitch (attitude state)) ->
  exists qp deck' payload n_phi n_theta,
    cbf (apply_cbf_eul state s) = CBF_EUL qp deck'
    /\ Aideck.uart deck'
       = USART_DMA_Send (Aideck.sizeof_CBFPacket CBF_TYPE_EUL CBF_ITERS)
           (CHAR_V :: payload) :: Aideck.uart deck
    /\ payload_int16 payload 0 = n_phi
    /\ payload_int16 payload 2 = n_theta
    /\ F32.trunc (F32.mul (times_DEG2RAD (roll (attitude state)))
                    (F32.of_Z 1000)) = Some n_phi
    /\ F32.trunc (F32.mul (times_DEG2RAD (F32.neg (pitch (attitude state))))
                    (F32.of_Z 1000)) = Some n_theta
    /\ -3142 <= n_phi <= 3142
    /\ -3142 <= n_theta <= 3142.
Proof.
  intros Hc Hr Htx Hvr Hvp Hrr Hrp.
  destruct (angle_compress_in_range _ Hvr Hrr) as (n1 & Ht1 & Hc1 & Hn1).
  assert (Hneg : F32.valid (F32.neg (pitch (attitude state))) = true
                 /\ in_range (F32.neg (F32.of_Z 180)) (F32.of_Z 180)
                      (F32.neg (pitch (attitude state)))).
  { rewrite f32_180 in Hrp |- *.
    exact (in_symmetric_range_neg _ _ _ Hvp Hrp). }
  destruct Hneg as (Hvn & Hrn).
  destruct (angle_compress_in_range _ Hvn Hrn) as (n2 & Ht2 & Hc2 & Hn2).
  destruct (eul_request_on_the_wire CBF_ITERS
              (times_DEG2RAD (roll (attitude state)))
              (times_DEG2RAD (F32.neg (pitch (attitude state))))
              (u_of_float4 (u s)) deck Hr Htx) as (payload & Hu & Hp1 & Hp2).
  unfold apply_cbf_eul. rewrite Hc.
  eexists _, _, payload, n1, n2.
  split; [reflexivity|]. split; [exact Hu|].
  rewrite Hp1, Hp2. by repeat split; [..|lia|lia|lia|lia].
Qed.

End AttitudeRequest.

Lemma X23_witness :
  exists qp deck' payload,
    Lqr.cbf (Lqr.apply_cbf_eul (P := Bench.platform) Rig.st_inverted Rig.s_cbf)
    = CBF_EUL qp deck'
    /\ Aideck.uart deck'
       = USART_DMA_Send (Aideck.sizeof_CBFPacket CBF_TYPE_EUL false)
           (CHAR_V :: payload) :: Aideck.uart Run.s_replied
    /\ payload_int16 payload 0 = 3141
    /\ payload_int16 payload 2 = 3141.
Proof.
  assert (Hc : Lqr.cbf Rig.s_cbf = CBF_EUL Run.d0 Run.s_replied)
    by reflexivity.
  assert (Hr : Aideck.aideck_ready_flag Run.s_replied <> 0)
    by (vm_compute; discriminate).
  assert (Htx : Aideck.pk_tx Run.s_replied
                = Aideck.cleared_packet CBF_TYPE_EUL false)
    by (vm_compute; reflexivity).
  assert (Hv1 : F32.valid (roll (attitude Rig.st_inverted)) = true)
    by (vm_compute; reflexivity).
  assert (Hv2 : F32.valid (pitch (attitude Rig.st_inverted)) = true)
    by (vm_compute; reflexivity).
  assert (Hr1 : in_range (F32.neg (F32.of_Z 180)) (F32.of_Z 180)
                  (roll (attitude Rig.st_inverted)))
    by (split; vm_compute; reflexivity).
  assert (Hr2 : in_range (F32.neg (F32.of_Z 180)) (F32.of_Z 180)
                  (pitch (attitude Rig.st_inverted)))
    by (split; vm_compute; reflexivity).
  destruct (attitude_is_sent_without_wrap (P := Bench.platform) Rig.st_inverted
              Rig.s_cbf Run.d0 Run.s_replied Hc Hr Htx Hv1 Hv2 Hr1 Hr2)
    as (qp & deck' & payload & n1 & n2 & Hq & Hu & Hp1 & Hp2 & Ht1 & Ht2 & _).
  exists qp, deck', payload.
  split; [exact Hq|]. split; [exact Hu|].
  vm_compute in Ht1, Ht2.
  injection Ht1 as <-. injection Ht2 as <-. by split.
Defined.
